(** * Glamora marketplace contracts: a shallow embedding and its properties

    The three Solidity contracts of [contracts/] are embedded here:
    [CreatorProfile] (creator registry), [ContentPayment] (content catalog,
    purchases, revenue) and [GlamoraHub] (the facade composing both).

    Modelling choices, following the EVM semantics of Solidity ^0.8.20:
    - [uint256] is [Z]; the checked arithmetic of Solidity 0.8 is written
      out: an addition that leaves [0 .. 2^256-1] fails with [Panic 0x11];
    - [address] is [N], the zero address is [0];
    - a [mapping] is a [gmap] read with the all-zero default value;
    - a function body is a computation in a state-and-failure monad whose
      failure carries no state; [transact] is the transaction boundary: a
      failed call leaves the state it started from;
    - [payable(a).transfer(v)] moves ether between balances and fails when
      the sender lacks the funds or the recipient does not accept plain
      transfers; the recipient runs on the 2300 gas stipend, too little to
      call back into the contracts, so a transfer has no other effect;
    - an [emit] appends to the event log of the emitting contract. *)

From stdpp Require Import base numbers strings gmap list sorting.
From Stdlib Require Import ZArith Lia.

Local Open Scope Z_scope.

(** ** Machine integers *)

Definition MAX_UINT256 : Z := 2 ^ 256 - 1.

(** ** Failures, results and the execution monad *)

(** [Revert reason] is a failed [require]; [TransferReverted] is the bare
    revert of a failed ether transfer; [Panic code] is a compiler-inserted
    check (0x11: arithmetic overflow or underflow). *)
Inductive Failure : Type :=
| Revert (reason : string)
| TransferReverted
| Panic (code : Z).

Inductive Result (A : Type) : Type :=
| Ok (a : A)
| Err (f : Failure).
Arguments Ok {A} a.
Arguments Err {A} f.

Definition M (S A : Type) : Type := S -> Result (A * S).

Definition ret {S A} (a : A) : M S A := fun s => Ok (a, s).

Definition bind {S A B} (m : M S A) (k : A -> M S B) : M S B :=
  fun s => match m s with
           | Ok (a, s') => k a s'
           | Err f => Err f
           end.

Definition fail {S A} (f : Failure) : M S A := fun _ => Err f.

Definition get {S} : M S S := fun s => Ok (s, s).

Definition modify {S} (f : S -> S) : M S unit := fun s => Ok (tt, f s).

Notation "'let!' x ':=' m 'in' k" := (bind m (fun x => k))
  (at level 10, x name, m at level 100, k at level 200).
Notation "m ';;;' k" := (bind m (fun _ => k))
  (at level 100, k at level 200, right associativity).

(** [require(cond, reason)] *)
Definition require {S} (cond : bool) (reason : string) : M S unit :=
  if cond then ret tt else fail (Revert reason).

(** Checked [a + b] on [uint256]. *)
Definition checked_add {S} (a b : Z) : M S Z :=
  if a + b <=? MAX_UINT256 then ret (a + b) else fail (Panic 17).

(** Checked [a - b] on [uint256]. *)
Definition checked_sub {S} (a b : Z) : M S Z :=
  if b <=? a then ret (a - b) else fail (Panic 17).

(** Runs a computation inside another state through a getter and a setter:
    an external call into a contract whose storage is one part of the
    world. A failure of the callee propagates to the caller. *)
Definition zoom {W S A} (proj : W -> S) (inj : S -> W -> W) (m : M S A) : M W A :=
  fun w => match m (proj w) with
           | Ok (a, s') => Ok (a, inj s' w)
           | Err f => Err f
           end.

(** The transaction boundary: the outcome of a call together with the state
    that persists. *)
Definition transact {S A} (m : M S A) (s : S) : Result A * S :=
  match m s with
  | Ok (a, s') => (Ok a, s')
  | Err f => (Err f, s)
  end.

(** What a function sees of its call: [msg.sender] and [block.timestamp].
    [msg.value] is an argument of the one payable function; a call that
    sends ether to any other function reverts before its body runs. *)
Record Msg : Type := { sender : N; timestamp : Z }.

(** ** Ether *)

(** The deployment: the addresses of the three contracts, and which other
    accounts are contracts that refuse a plain transfer of ether. None of
    the three contracts declares a [receive] or a payable [fallback]
    function, so none of them accepts one. *)
Record Env : Type := {
  hubAddress : N;
  profileAddress : N;
  paymentAddress : N;
  rejects : N -> bool
}.

Definition canReceive (E : Env) (a : N) : bool :=
  negb (a =? hubAddress E)%N && negb (a =? profileAddress E)%N
  && negb (a =? paymentAddress E)%N && negb (rejects E a).

Definition balanceOf (b : gmap N Z) (a : N) : Z := default 0 (b !! a).

Definition move (src dst : N) (v : Z) (b : gmap N Z) : gmap N Z :=
  let b1 := <[src := balanceOf b src - v]> b in
  <[dst := balanceOf b1 dst + v]> b1.

(** [a] holds the [v] wei it is about to send. *)
Definition funded (b : gmap N Z) (a : N) (v : Z) : bool :=
  (0 <=? v) && (v <=? balanceOf b a).

(** Ether sent along with a call: [v] wei leave [src] for [dst]. The call
    is impossible when [src] does not hold [v]. *)
Definition pay (src dst : N) (v : Z) : M (gmap N Z) unit :=
  fun b => if funded b src v
           then Ok (tt, move src dst v b)
           else Err TransferReverted.

(** [payable(dst).transfer(v)] executed by the contract at [src]. *)
Definition transfer (E : Env) (src dst : N) (v : Z) : M (gmap N Z) unit :=
  if canReceive E dst then pay src dst v else fail TransferReverted.

(** A contract's storage together with the balances it can move. *)
Record Funded (S : Type) : Type := { store : S; ether : gmap N Z }.
Arguments store {S} f.
Arguments ether {S} f.

Definition onStore {S A} (m : M S A) : M (Funded S) A :=
  zoom store (fun s f => {| store := s; ether := ether f |}) m.

Definition onEther {S A} (m : M (gmap N Z) A) : M (Funded S) A :=
  zoom ether (fun b f => {| store := store f; ether := b |}) m.

(** ** CreatorProfile.sol *)

Module CreatorProfile.

Record Creator : Type := {
  username : string;
  bio : string;
  wallet : N;
  createdAt : Z;
  isActive : bool
}.

Inductive Event : Type :=
| CreatorRegistered (wallet : N) (username : string) (timestamp : Z)
| CreatorUpdated (wallet : N) (username : string) (timestamp : Z).

Record State : Type := {
  creators : gmap N Creator;
  totalCreators : Z;
  events : list Event
}.

(** The value of a mapping slot that was never written. *)
Definition noCreator : Creator :=
  {| username := ""; bio := ""; wallet := 0%N; createdAt := 0; isActive := false |}.

(** [creators[a]] *)
Definition creatorOf (s : State) (a : N) : Creator :=
  default noCreator (creators s !! a).

Definition set_creator (a : N) (c : Creator) (s : State) : State :=
  {| creators := <[a := c]> (creators s);
     totalCreators := totalCreators s;
     events := events s |}.

Definition set_totalCreators (n : Z) (s : State) : State :=
  {| creators := creators s; totalCreators := n; events := events s |}.

Definition emit (e : Event) : M State unit :=
  modify (fun s => {| creators := creators s;
                      totalCreators := totalCreators s;
                      events := e :: events s |}).

Definition constructor : State :=
  {| creators := ∅; totalCreators := 0; events := [] |}.

Definition registerCreator (msg : Msg) (_creator : N) (_username _bio : string)
  : M State unit :=
  require (0 <? String.length _username)%nat "Username cannot be empty" ;;;
  require (String.length _username <=? 50)%nat "Username too long" ;;;
  require (String.length _bio <=? 500)%nat "Bio too long" ;;;
  let! s := get in
  require (negb (isActive (creatorOf s _creator))) "Creator already registered" ;;;
  modify (set_creator _creator
            {| username := _username; bio := _bio; wallet := _creator;
               createdAt := timestamp msg; isActive := true |}) ;;;
  let! n := checked_add (totalCreators s) 1 in
  modify (set_totalCreators n) ;;;
  emit (CreatorRegistered _creator _username (timestamp msg)).

Definition updateCreator (msg : Msg) (_username _bio : string) : M State unit :=
  let! s := get in
  require (isActive (creatorOf s (sender msg))) "Creator not registered" ;;;
  require (0 <? String.length _username)%nat "Username cannot be empty" ;;;
  require (String.length _username <=? 50)%nat "Username too long" ;;;
  require (String.length _bio <=? 500)%nat "Bio too long" ;;;
  let c := creatorOf s (sender msg) in
  modify (set_creator (sender msg)
            {| username := _username; bio := bio c; wallet := wallet c;
               createdAt := createdAt c; isActive := isActive c |}) ;;;
  let! s1 := get in
  let c1 := creatorOf s1 (sender msg) in
  modify (set_creator (sender msg)
            {| username := username c1; bio := _bio; wallet := wallet c1;
               createdAt := createdAt c1; isActive := isActive c1 |}) ;;;
  emit (CreatorUpdated (sender msg) _username (timestamp msg)).

Definition getCreator (_wallet : N) : M State Creator :=
  let! s := get in
  require (isActive (creatorOf s _wallet)) "Creator not found" ;;;
  ret (creatorOf s _wallet).

Definition isCreator (s : State) (_wallet : N) : bool :=
  isActive (creatorOf s _wallet).

End CreatorProfile.

(** ** ContentPayment.sol *)

Module ContentPayment.

Record Content : Type := {
  contentId : Z;
  creator : N;
  title : string;
  contentHash : string;
  price : Z;
  createdAt : Z;
  isActive : bool
}.

Inductive Event : Type :=
| ContentCreated (contentId : Z) (creator : N) (title : string) (price : Z)
| ContentPurchased (contentId : Z) (buyer creator : N) (price : Z)
| ContentUpdated (contentId : Z) (newPrice : Z).

Record State : Type := {
  contents : gmap Z Content;
  userAccess : gmap (N * Z) bool;
  creatorContents : gmap N (list Z);
  nextContentId : Z;
  totalRevenue : Z;
  events : list Event
}.

(** The value of a [contents] slot that was never written. *)
Definition noContent : Content :=
  {| contentId := 0; creator := 0%N; title := ""; contentHash := "";
     price := 0; createdAt := 0; isActive := false |}.

(** [contents[id]] *)
Definition contentOf (s : State) (id : Z) : Content :=
  default noContent (contents s !! id).

(** [userAccess[user][id]] *)
Definition accessOf (s : State) (user : N) (id : Z) : bool :=
  default false (userAccess s !! (user, id)).

(** [creatorContents[c]] *)
Definition contentsBy (s : State) (c : N) : list Z :=
  default [] (creatorContents s !! c).

Definition set_content (id : Z) (c : Content) (s : State) : State :=
  {| contents := <[id := c]> (contents s); userAccess := userAccess s;
     creatorContents := creatorContents s; nextContentId := nextContentId s;
     totalRevenue := totalRevenue s; events := events s |}.

Definition set_access (user : N) (id : Z) (b : bool) (s : State) : State :=
  {| contents := contents s; userAccess := <[(user, id) := b]> (userAccess s);
     creatorContents := creatorContents s; nextContentId := nextContentId s;
     totalRevenue := totalRevenue s; events := events s |}.

Definition push_creatorContent (c : N) (id : Z) (s : State) : State :=
  {| contents := contents s; userAccess := userAccess s;
     creatorContents := <[c := contentsBy s c ++ [id]]> (creatorContents s);
     nextContentId := nextContentId s;
     totalRevenue := totalRevenue s; events := events s |}.

Definition set_nextContentId (n : Z) (s : State) : State :=
  {| contents := contents s; userAccess := userAccess s;
     creatorContents := creatorContents s; nextContentId := n;
     totalRevenue := totalRevenue s; events := events s |}.

Definition set_totalRevenue (n : Z) (s : State) : State :=
  {| contents := contents s; userAccess := userAccess s;
     creatorContents := creatorContents s; nextContentId := nextContentId s;
     totalRevenue := n; events := events s |}.

Definition emit (e : Event) : M State unit :=
  modify (fun s =>
    {| contents := contents s; userAccess := userAccess s;
       creatorContents := creatorContents s; nextContentId := nextContentId s;
       totalRevenue := totalRevenue s; events := e :: events s |}).

Definition constructor : State :=
  {| contents := ∅; userAccess := ∅; creatorContents := ∅;
     nextContentId := 1; totalRevenue := 0; events := [] |}.

Definition createContent (msg : Msg) (_creator : N)
    (_title _contentHash : string) (_price : Z) : M State Z :=
  require (0 <? String.length _title)%nat "Title cannot be empty" ;;;
  require (0 <? String.length _contentHash)%nat "Content hash cannot be empty" ;;;
  require (0 <? _price) "Price must be greater than 0" ;;;
  let! s := get in
  let id := nextContentId s in
  modify (set_content id
            {| contentId := id; creator := _creator; title := _title;
               contentHash := _contentHash; price := _price;
               createdAt := timestamp msg; isActive := true |}) ;;;
  modify (push_creatorContent _creator id) ;;;
  let! n := checked_add (nextContentId s) 1 in
  modify (set_nextContentId n) ;;;
  emit (ContentCreated id _creator _title _price) ;;;
  ret id.

(** [value] is [msg.value]: it reaches the contract's balance before the
    body runs. [content] is the memory copy loaded on the first line. *)
Definition purchaseContent (E : Env) (msg : Msg) (value : Z)
    (_buyer : N) (_contentId : Z) : M (Funded State) unit :=
  onEther (pay (sender msg) (paymentAddress E) value) ;;;
  let! f := get in
  let content := contentOf (store f) _contentId in
  require (isActive content) "Content not found or inactive" ;;;
  require (price content <=? value) "Insufficient payment" ;;;
  require (negb (accessOf (store f) _buyer _contentId)) "Already purchased" ;;;
  require (negb (_buyer =? creator content)%N)
          "Creators cannot buy their own content" ;;;
  onStore (modify (set_access _buyer _contentId true)) ;;;
  onEther (transfer E (paymentAddress E) (creator content) (price content)) ;;;
  let! f1 := get in
  let! r := checked_add (totalRevenue (store f1)) (price content) in
  onStore (modify (set_totalRevenue r)) ;;;
  (if price content <? value
   then onEther (transfer E (paymentAddress E) _buyer (value - price content))
   else ret tt) ;;;
  onStore (emit (ContentPurchased _contentId _buyer (creator content) (price content))).

Definition updateContentPrice (msg : Msg) (_contentId : Z) (_newPrice : Z)
  : M State unit :=
  let! s := get in
  let content := contentOf s _contentId in
  require (isActive content) "Content not found" ;;;
  require (creator content =? sender msg)%N "Only creator can update" ;;;
  require (0 <? _newPrice) "Price must be greater than 0" ;;;
  modify (set_content _contentId
            {| contentId := contentId content; creator := creator content;
               title := title content; contentHash := contentHash content;
               price := _newPrice; createdAt := createdAt content;
               isActive := isActive content |}) ;;;
  emit (ContentUpdated _contentId _newPrice).

Definition hasAccess (s : State) (_user : N) (_contentId : Z) : bool :=
  if (creator (contentOf s _contentId) =? _user)%N then true
  else accessOf s _user _contentId.

Definition getContent (_contentId : Z) : M State Content :=
  let! s := get in
  require (isActive (contentOf s _contentId)) "Content not found" ;;;
  ret (contentOf s _contentId).

Definition getCreatorContent (s : State) (_creator : N) : list Z :=
  contentsBy s _creator.

Definition deactivateContent (msg : Msg) (_contentId : Z) : M State unit :=
  let! s := get in
  let content := contentOf s _contentId in
  require (isActive content) "Content not found" ;;;
  require (creator content =? sender msg)%N "Only creator can deactivate" ;;;
  modify (set_content _contentId
            {| contentId := contentId content; creator := creator content;
               title := title content; contentHash := contentHash content;
               price := price content; createdAt := createdAt content;
               isActive := false |}).

End ContentPayment.

(** ** GlamoraHub.sol *)

Module GlamoraHub.

Inductive Event : Type :=
| PlatformInitialized (creatorProfileAddress contentPaymentAddress : N)
| CreatorRegisteredAndContentCreated (creator : N) (contentId : Z).

Record State : Type := {
  creatorProfile : N;
  contentPayment : N;
  owner : N;
  platformFee : Z;
  events : list Event
}.

(** The hub, the two contracts it deployed, and every account's ether. *)
Record World : Type := {
  profile : CreatorProfile.State;
  payment : ContentPayment.State;
  hub : State;
  balances : gmap N Z
}.

Definition set_profile (p : CreatorProfile.State) (w : World) : World :=
  {| profile := p; payment := payment w; hub := hub w; balances := balances w |}.

Definition set_payment (p : ContentPayment.State) (w : World) : World :=
  {| profile := profile w; payment := p; hub := hub w; balances := balances w |}.

Definition set_hub (h : State) (w : World) : World :=
  {| profile := profile w; payment := payment w; hub := h; balances := balances w |}.

Definition set_balances (b : gmap N Z) (w : World) : World :=
  {| profile := profile w; payment := payment w; hub := hub w; balances := b |}.

(** External calls: into [creatorProfile], into [contentPayment], into a
    payable function of [contentPayment], and ether sent with a call. *)
Definition atProfile {A} (m : M CreatorProfile.State A) : M World A :=
  zoom profile set_profile m.

Definition atPayment {A} (m : M ContentPayment.State A) : M World A :=
  zoom payment set_payment m.

(** The ledger's storage and the balances, as a payable function of the
    ledger sees them, and the world once such a function has returned. *)
Definition funds (w : World) : Funded ContentPayment.State :=
  {| store := payment w; ether := balances w |}.

Definition commit (f : Funded ContentPayment.State) (w : World) : World :=
  set_balances (ether f) (set_payment (store f) w).

Definition atPaymentFunded {A} (m : M (Funded ContentPayment.State) A) : M World A :=
  zoom funds commit m.

Definition atBalances {A} (m : M (gmap N Z) A) : M World A :=
  zoom balances set_balances m.

Definition atHub {A} (m : M State A) : M World A :=
  zoom hub set_hub m.

Definition emit (e : Event) : M State unit :=
  modify (fun h => {| creatorProfile := creatorProfile h;
                      contentPayment := contentPayment h;
                      owner := owner h; platformFee := platformFee h;
                      events := e :: events h |}).

(** The message of a call made by the hub itself. *)
Definition asHub (E : Env) (msg : Msg) : Msg :=
  {| sender := hubAddress E; timestamp := timestamp msg |}.

Definition constructor (E : Env) (msg : Msg) (b : gmap N Z) : World :=
  {| profile := CreatorProfile.constructor;
     payment := ContentPayment.constructor;
     hub := {| creatorProfile := profileAddress E;
               contentPayment := paymentAddress E;
               owner := sender msg; platformFee := 0;
               events := [PlatformInitialized (profileAddress E) (paymentAddress E)] |};
     balances := b |}.

Definition registerCreator (E : Env) (msg : Msg) (username bio : string)
  : M World unit :=
  atProfile (CreatorProfile.registerCreator (asHub E msg) (sender msg) username bio).

Definition createContent (E : Env) (msg : Msg) (title contentHash : string)
    (price : Z) : M World Z :=
  let! w := get in
  require (CreatorProfile.isCreator (profile w) (sender msg))
          "Must be registered creator" ;;;
  atPayment (ContentPayment.createContent (asHub E msg) (sender msg)
               title contentHash price).

Definition registerAndCreateContent (E : Env) (msg : Msg) (username bio : string)
    (title contentHash : string) (price : Z) : M World Z :=
  let! w := get in
  (if negb (CreatorProfile.isCreator (profile w) (sender msg))
   then atProfile (CreatorProfile.registerCreator (asHub E msg) (sender msg)
                     username bio)
   else ret tt) ;;;
  let! contentId := atPayment (ContentPayment.createContent (asHub E msg)
                                 (sender msg) title contentHash price) in
  atHub (emit (CreatorRegisteredAndContentCreated (sender msg) contentId)) ;;;
  ret contentId.

(** [value] is [msg.value]; the hub forwards all of it. *)
Definition purchaseContent (E : Env) (msg : Msg) (value : Z) (contentId : Z)
  : M World unit :=
  atBalances (pay (sender msg) (hubAddress E) value) ;;;
  atPaymentFunded (ContentPayment.purchaseContent E (asHub E msg) value
                     (sender msg) contentId).

Definition getPlatformStats : M World (Z * Z * Z) :=
  let! w := get in
  let totalCreators := CreatorProfile.totalCreators (profile w) in
  let! totalContent := checked_sub (ContentPayment.nextContentId (payment w)) 1 in
  let totalRevenue := ContentPayment.totalRevenue (payment w) in
  ret (totalCreators, totalContent, totalRevenue).

Definition getContractAddresses (w : World) : N * N :=
  (creatorProfile (hub w), contentPayment (hub w)).

Definition isCreator (w : World) (user : N) : bool :=
  CreatorProfile.isCreator (profile w) user.

Definition hasAccessToContent (w : World) (user : N) (contentId : Z) : bool :=
  ContentPayment.hasAccess (payment w) user contentId.

Definition updatePlatformFee (msg : Msg) (_newFee : Z) : M State unit :=
  let! h := get in
  require (sender msg =? owner h)%N "Only owner can update fee" ;;;
  require (_newFee <=? 1000) "Fee cannot exceed 10%" ;;;
  modify (fun h => {| creatorProfile := creatorProfile h;
                      contentPayment := contentPayment h;
                      owner := owner h; platformFee := _newFee;
                      events := events h |}).

End GlamoraHub.

Abbreviation World := GlamoraHub.World.

(** ** Transactions *)

(** Every state-changing entry point of the three contracts, as an
    externally submitted transaction, and a plain transfer of ether between
    accounts. The sub-contracts are public: their functions can be called
    without going through the hub. *)
Inductive Op : Type :=
| ProfileRegisterCreator (msg : Msg) (_creator : N) (_username _bio : string)
| ProfileUpdateCreator (msg : Msg) (_username _bio : string)
| PaymentCreateContent (msg : Msg) (_creator : N) (_title _contentHash : string) (_price : Z)
| PaymentPurchaseContent (msg : Msg) (value : Z) (_buyer : N) (_contentId : Z)
| PaymentUpdateContentPrice (msg : Msg) (_contentId _newPrice : Z)
| PaymentDeactivateContent (msg : Msg) (_contentId : Z)
| HubRegisterCreator (msg : Msg) (username bio : string)
| HubCreateContent (msg : Msg) (title contentHash : string) (price : Z)
| HubRegisterAndCreateContent (msg : Msg) (username bio title contentHash : string) (price : Z)
| HubPurchaseContent (msg : Msg) (value : Z) (contentId : Z)
| HubUpdatePlatformFee (msg : Msg) (_newFee : Z)
| SendEther (src dst : N) (v : Z).

(** The body of a transaction; it returns the content id when the function
    returns one. *)
Definition exec (E : Env) (op : Op) : M World (option Z) :=
  let unit_ (m : M World unit) : M World (option Z) := m ;;; ret None in
  let id_ (m : M World Z) : M World (option Z) := let! i := m in ret (Some i) in
  match op with
  | ProfileRegisterCreator msg c u b =>
      unit_ (GlamoraHub.atProfile (CreatorProfile.registerCreator msg c u b))
  | ProfileUpdateCreator msg u b =>
      unit_ (GlamoraHub.atProfile (CreatorProfile.updateCreator msg u b))
  | PaymentCreateContent msg c t h p =>
      id_ (GlamoraHub.atPayment (ContentPayment.createContent msg c t h p))
  | PaymentPurchaseContent msg v b i =>
      unit_ (GlamoraHub.atPaymentFunded (ContentPayment.purchaseContent E msg v b i))
  | PaymentUpdateContentPrice msg i p =>
      unit_ (GlamoraHub.atPayment (ContentPayment.updateContentPrice msg i p))
  | PaymentDeactivateContent msg i =>
      unit_ (GlamoraHub.atPayment (ContentPayment.deactivateContent msg i))
  | HubRegisterCreator msg u b => unit_ (GlamoraHub.registerCreator E msg u b)
  | HubCreateContent msg t h p => id_ (GlamoraHub.createContent E msg t h p)
  | HubRegisterAndCreateContent msg u b t h p =>
      id_ (GlamoraHub.registerAndCreateContent E msg u b t h p)
  | HubPurchaseContent msg v i => unit_ (GlamoraHub.purchaseContent E msg v i)
  | HubUpdatePlatformFee msg f => unit_ (GlamoraHub.atHub (GlamoraHub.updatePlatformFee msg f))
  | SendEther src dst v => unit_ (GlamoraHub.atBalances (transfer E src dst v))
  end.

Definition step (E : Env) (w : World) (op : Op) : Result (option Z) * World :=
  transact (exec E op) w.

Fixpoint run (E : Env) (ops : list Op) (w : World) : World :=
  match ops with
  | [] => w
  | op :: rest => run E rest (snd (step E w op))
  end.

(** ** Error kinds *)

(** The error vocabulary of the specification, and the kind each failure of
    the contracts belongs to. An arithmetic panic has no kind. *)
Inductive ErrorKind : Type :=
| InvalidInput
| AlreadyRegistered
| NotRegistered
| NotFound
| Forbidden
| AlreadyPurchased
| SelfPurchaseForbidden
| InsufficientPayment
| TransferFailed.

Definition InvalidInput_reasons : list string :=
  ["Username cannot be empty"; "Username too long"; "Bio too long";
   "Title cannot be empty"; "Content hash cannot be empty";
   "Price must be greater than 0"; "Fee cannot exceed 10%"].

Definition NotRegistered_reasons : list string :=
  ["Creator not registered"; "Must be registered creator"].

Definition NotFound_reasons : list string :=
  ["Creator not found"; "Content not found or inactive"; "Content not found"].

Definition Forbidden_reasons : list string :=
  ["Only creator can update"; "Only creator can deactivate";
   "Only owner can update fee"].

Definition mentions (reasons : list string) (r : string) : bool :=
  existsb (String.eqb r) reasons.

Definition kindOf (f : Failure) : option ErrorKind :=
  match f with
  | Revert r =>
      if mentions InvalidInput_reasons r then Some InvalidInput
      else if String.eqb r "Creator already registered" then Some AlreadyRegistered
      else if mentions NotRegistered_reasons r then Some NotRegistered
      else if mentions NotFound_reasons r then Some NotFound
      else if mentions Forbidden_reasons r then Some Forbidden
      else if String.eqb r "Already purchased" then Some AlreadyPurchased
      else if String.eqb r "Creators cannot buy their own content"
           then Some SelfPurchaseForbidden
      else if String.eqb r "Insufficient payment" then Some InsufficientPayment
      else None
  | TransferReverted => Some TransferFailed
  | Panic _ => None
  end.

(** ** Histories *)

(** The content ids returned by the successful transactions of a history,
    in order. Only the three content-creating entry points return one. *)
Fixpoint createdIds (E : Env) (ops : list Op) (w : World) : list Z :=
  match ops with
  | [] => []
  | op :: rest =>
      match fst (step E w op) with
      | Ok (Some id) => id :: createdIds E rest (snd (step E w op))
      | _ => createdIds E rest (snd (step E w op))
      end
  end.

Definition purchasedId (op : Op) : option Z :=
  match op with
  | PaymentPurchaseContent _ _ _ id => Some id
  | HubPurchaseContent _ _ id => Some id
  | _ => None
  end.

(** For each successful purchase of a history, in order, the price that
    the purchased content had in the state the purchase ran in. *)
Fixpoint salePrices (E : Env) (ops : list Op) (w : World) : list Z :=
  match ops with
  | [] => []
  | op :: rest =>
      match purchasedId op, fst (step E w op) with
      | Some id, Ok _ =>
          ContentPayment.price (ContentPayment.contentOf (GlamoraHub.payment w) id)
          :: salePrices E rest (snd (step E w op))
      | _, _ => salePrices E rest (snd (step E w op))
      end
  end.

Definition sumZ (l : list Z) : Z := foldr Z.add 0 l.

(** Every content record of the ledger sits below the id counter. *)
Definition idsBelowCounter (s : ContentPayment.State) : Prop :=
  forall id, is_Some (ContentPayment.contents s !! id) ->
             id < ContentPayment.nextContentId s.

(** What one transaction can do to the ledger's storage [s]: nothing, or
    the effect of one successful call of one of its four state-changing
    functions. The result of a transaction that leaves the ledger alone is
    no content id, and, for a purchase, a failure. *)
Inductive LedgerEffect (E : Env) (s : ContentPayment.State)
  : Op -> Result (option Z) -> ContentPayment.State -> Prop :=
| Untouched (op : Op) (r : Result (option Z)) :
    (forall id, r <> Ok (Some id)) ->
    (purchasedId op = None \/ exists e, r = Err e) ->
    LedgerEffect E s op r s
| Created (op : Op) (msg : Msg) (c : N) (t h : string) (p id : Z)
    (s' : ContentPayment.State) :
    ContentPayment.createContent msg c t h p s = Ok (id, s') ->
    purchasedId op = None ->
    LedgerEffect E s op (Ok (Some id)) s'
| Purchased (op : Op) (msg : Msg) (v : Z) (buyer : N) (id : Z) (b : gmap N Z)
    (f' : Funded ContentPayment.State) :
    ContentPayment.purchaseContent E msg v buyer id {| store := s; ether := b |}
    = Ok (tt, f') ->
    purchasedId op = Some id ->
    LedgerEffect E s op (Ok None) (store f')
| Repriced (op : Op) (msg : Msg) (id p : Z) (s' : ContentPayment.State) :
    ContentPayment.updateContentPrice msg id p s = Ok (tt, s') ->
    purchasedId op = None ->
    LedgerEffect E s op (Ok None) s'
| Deactivated (op : Op) (msg : Msg) (id : Z) (s' : ContentPayment.State) :
    ContentPayment.deactivateContent msg id s = Ok (tt, s') ->
    purchasedId op = None ->
    LedgerEffect E s op (Ok None) s'.

(** The three argument checks of [ContentPayment.createContent]. *)
Definition validContent (_title _contentHash : string) (_price : Z) : bool :=
  (0 <? String.length _title)%nat && (0 <? String.length _contentHash)%nat
  && (0 <? _price).

(** The three argument checks of [CreatorProfile.registerCreator]. *)
Definition validProfile (_username _bio : string) : bool :=
  (0 <? String.length _username)%nat && (String.length _username <=? 50)%nat
  && (String.length _bio <=? 500)%nat.

(** ** The purchase preconditions, as the specification lists them *)

(** The first of the four preconditions of a purchase that does not hold,
    in the order the specification gives them, by the kind of error it
    reports. This definition follows the specification's wording; the
    theorems relate it to [ContentPayment.purchaseContent]. *)
Definition firstViolation (s : ContentPayment.State) (amountPaid : Z)
    (buyerId : N) (contentId : Z) : option ErrorKind :=
  let c := ContentPayment.contentOf s contentId in
  if negb (ContentPayment.isActive c) then Some NotFound
  else if amountPaid <? ContentPayment.price c then Some InsufficientPayment
  else if ContentPayment.accessOf s buyerId contentId then Some AlreadyPurchased
  else if (buyerId =? ContentPayment.creator c)%N then Some SelfPurchaseForbidden
  else None.

(** Whether the payments of a purchase that passed the four preconditions
    go through: the creator accepts the price, the revenue counter has room
    for it, and on overpayment the buyer accepts the refund. *)
Definition settles (E : Env) (s : ContentPayment.State) (amountPaid : Z)
    (buyerId : N) (contentId : Z) : bool :=
  let c := ContentPayment.contentOf s contentId in
  canReceive E (ContentPayment.creator c)
  && (ContentPayment.totalRevenue s + ContentPayment.price c <=? MAX_UINT256)
  && (if ContentPayment.price c <? amountPaid then canReceive E buyerId else true).

(** The state in which the first transfer of a purchase runs: the grant is
    written and the ether sent with the call has arrived. *)
Definition granted (E : Env) (msg : Msg) (value : Z) (_buyer : N) (_contentId : Z)
    (f : Funded ContentPayment.State) : Funded ContentPayment.State :=
  {| store := ContentPayment.set_access _buyer _contentId true (store f);
     ether := move (sender msg) (paymentAddress E) value (ether f) |}.

(** What remains of the body of [ContentPayment.purchaseContent] once the
    four preconditions have passed and the grant is written; [content] is
    the memory copy of the content record. *)
Definition settlement (E : Env) (value : Z) (_buyer : N) (_contentId : Z)
    (content : ContentPayment.Content) : M (Funded ContentPayment.State) unit :=
  onEther (transfer E (paymentAddress E) (ContentPayment.creator content)
             (ContentPayment.price content)) ;;;
  let! f1 := get in
  let! r := checked_add (ContentPayment.totalRevenue (store f1))
              (ContentPayment.price content) in
  onStore (modify (ContentPayment.set_totalRevenue r)) ;;;
  (if ContentPayment.price content <? value
   then onEther (transfer E (paymentAddress E) _buyer
                   (value - ContentPayment.price content))
   else ret tt) ;;;
  onStore (ContentPayment.emit
             (ContentPayment.ContentPurchased _contentId _buyer
                (ContentPayment.creator content) (ContentPayment.price content))).

(** The state a successful purchase ends in. *)
Definition purchased (E : Env) (msg : Msg) (value : Z) (_buyer : N) (_contentId : Z)
    (f : Funded ContentPayment.State) : Funded ContentPayment.State :=
  let s := store f in
  let content := ContentPayment.contentOf s _contentId in
  let paid := move (paymentAddress E) (ContentPayment.creator content)
                (ContentPayment.price content)
                (move (sender msg) (paymentAddress E) value (ether f)) in
  {| store :=
       {| ContentPayment.contents := ContentPayment.contents s;
          ContentPayment.userAccess :=
            <[(_buyer, _contentId) := true]> (ContentPayment.userAccess s);
          ContentPayment.creatorContents := ContentPayment.creatorContents s;
          ContentPayment.nextContentId := ContentPayment.nextContentId s;
          ContentPayment.totalRevenue :=
            ContentPayment.totalRevenue s + ContentPayment.price content;
          ContentPayment.events :=
            ContentPayment.ContentPurchased _contentId _buyer
              (ContentPayment.creator content) (ContentPayment.price content)
            :: ContentPayment.events s |};
     ether :=
       if ContentPayment.price content <? value
       then move (paymentAddress E) _buyer (value - ContentPayment.price content) paid
       else paid |}.

(** ** A concrete deployment *)

Module Demo.

Definition hubAddr : N := 100.
Definition profileAddr : N := 101.
Definition paymentAddr : N := 102.
Definition deployer : N := 1.
Definition alice : N := 2.
Definition bob : N := 3.
Definition carol : N := 4.

Definition E : Env :=
  {| hubAddress := hubAddr; profileAddress := profileAddr;
     paymentAddress := paymentAddr; rejects := fun _ => false |}.

Definition at_ (a : N) : Msg := {| sender := a; timestamp := 1700000000 |}.

(** Alice, bob and carol hold 1000 wei each. *)
Definition purse : gmap N Z :=
  <[alice := 1000]> (<[bob := 1000]> (<[carol := 1000]> ∅)).

(** Freshly deployed. *)
Definition fresh : World := GlamoraHub.constructor E (at_ deployer) purse.

(** Alice registers and lists a tutorial for 100 wei. *)
Definition listed : World :=
  run E [HubRegisterCreator (at_ alice) "Alice" "Fashion creator";
         HubCreateContent (at_ alice) "Tutorial" "ref1" 100] fresh.

(** Bob buys it. *)
Definition sold : World :=
  run E [HubPurchaseContent (at_ bob) 100 1] listed.

(** Carol lists, on the ledger directly, a content whose creator is the
    ledger contract itself. *)
Definition trapped : World :=
  run E [PaymentCreateContent (at_ carol) paymentAddr "T" "r" 100] fresh.

End Demo.

(** ** The calls a transaction makes *)

(** The call into the registry that a transaction makes, if it makes one.
    The hub calls in its own name for its caller; its
    [registerAndCreateContent] makes the call only for a caller who is not
    registered. *)
Inductive RegistryCall : Type :=
| RegisterCreatorCall (msg : Msg) (_creator : N) (_username _bio : string)
| UpdateCreatorCall (msg : Msg) (_username _bio : string).

Definition registryCall (E : Env) (op : Op) : option RegistryCall :=
  match op with
  | ProfileRegisterCreator msg c u b => Some (RegisterCreatorCall msg c u b)
  | ProfileUpdateCreator msg u b => Some (UpdateCreatorCall msg u b)
  | HubRegisterCreator msg u b =>
      Some (RegisterCreatorCall (GlamoraHub.asHub E msg) (sender msg) u b)
  | HubRegisterAndCreateContent msg u b _ _ _ =>
      Some (RegisterCreatorCall (GlamoraHub.asHub E msg) (sender msg) u b)
  | _ => None
  end.

Definition registryRun (call : RegistryCall) : M CreatorProfile.State unit :=
  match call with
  | RegisterCreatorCall msg c u b => CreatorProfile.registerCreator msg c u b
  | UpdateCreatorCall msg u b => CreatorProfile.updateCreator msg u b
  end.

(** The call into the ledger that a transaction makes, if it makes one. *)
Inductive LedgerCall : Type :=
| CreateContentCall (msg : Msg) (_creator : N) (_title _contentHash : string) (_price : Z)
| PurchaseContentCall (msg : Msg) (value : Z) (_buyer : N) (_contentId : Z)
| UpdateContentPriceCall (msg : Msg) (_contentId _newPrice : Z)
| DeactivateContentCall (msg : Msg) (_contentId : Z).

Definition ledgerCall (E : Env) (op : Op) : option LedgerCall :=
  match op with
  | PaymentCreateContent msg c t h p => Some (CreateContentCall msg c t h p)
  | PaymentPurchaseContent msg v b i => Some (PurchaseContentCall msg v b i)
  | PaymentUpdateContentPrice msg i p => Some (UpdateContentPriceCall msg i p)
  | PaymentDeactivateContent msg i => Some (DeactivateContentCall msg i)
  | HubCreateContent msg t h p =>
      Some (CreateContentCall (GlamoraHub.asHub E msg) (sender msg) t h p)
  | HubRegisterAndCreateContent msg _ _ t h p =>
      Some (CreateContentCall (GlamoraHub.asHub E msg) (sender msg) t h p)
  | HubPurchaseContent msg v i =>
      Some (PurchaseContentCall (GlamoraHub.asHub E msg) v (sender msg) i)
  | _ => None
  end.

(** The ledger's storage after a successful call, made with the balances
    [b]; [None] when the call fails. *)
Definition ledgerRun (E : Env) (call : LedgerCall) (s : ContentPayment.State)
    (b : gmap N Z) : option ContentPayment.State :=
  match call with
  | CreateContentCall msg c t h p =>
      match ContentPayment.createContent msg c t h p s with
      | Ok (_, s') => Some s'
      | Err _ => None
      end
  | PurchaseContentCall msg v buyer id =>
      match ContentPayment.purchaseContent E msg v buyer id {| store := s; ether := b |} with
      | Ok (_, f') => Some (store f')
      | Err _ => None
      end
  | UpdateContentPriceCall msg id p =>
      match ContentPayment.updateContentPrice msg id p s with
      | Ok (_, s') => Some s'
      | Err _ => None
      end
  | DeactivateContentCall msg id =>
      match ContentPayment.deactivateContent msg id s with
      | Ok (_, s') => Some s'
      | Err _ => None
      end
  end.

(** The buyer and the content of a purchase transaction: through the hub
    the buyer is the caller. *)
Definition purchaseOf (op : Op) : option (N * Z) :=
  match op with
  | PaymentPurchaseContent _ _ buyer id => Some (buyer, id)
  | HubPurchaseContent msg _ id => Some (sender msg, id)
  | _ => None
  end.

(** ** The states successful registry calls end in *)

Definition afterRegister (msg : Msg) (c : N) (u b : string) (s : CreatorProfile.State)
  : CreatorProfile.State :=
  {| CreatorProfile.creators :=
       <[c := {| CreatorProfile.username := u; CreatorProfile.bio := b;
                 CreatorProfile.wallet := c;
                 CreatorProfile.createdAt := timestamp msg;
                 CreatorProfile.isActive := true |}]> (CreatorProfile.creators s);
     CreatorProfile.totalCreators := CreatorProfile.totalCreators s + 1;
     CreatorProfile.events :=
       CreatorProfile.CreatorRegistered c u (timestamp msg) :: CreatorProfile.events s |}.

Definition afterUpdate (msg : Msg) (u b : string) (s : CreatorProfile.State)
  : CreatorProfile.State :=
  let old := CreatorProfile.creatorOf s (sender msg) in
  {| CreatorProfile.creators :=
       <[sender msg := {| CreatorProfile.username := u; CreatorProfile.bio := b;
                          CreatorProfile.wallet := CreatorProfile.wallet old;
                          CreatorProfile.createdAt := CreatorProfile.createdAt old;
                          CreatorProfile.isActive := CreatorProfile.isActive old |}]>
         (CreatorProfile.creators s);
     CreatorProfile.totalCreators := CreatorProfile.totalCreators s;
     CreatorProfile.events :=
       CreatorProfile.CreatorUpdated (sender msg) u (timestamp msg)
       :: CreatorProfile.events s |}.

(** ** The states successful ledger calls end in *)

Definition afterCreate (msg : Msg) (c : N) (t h : string) (p : Z)
    (s : ContentPayment.State) : ContentPayment.State :=
  {| ContentPayment.contents :=
       <[ContentPayment.nextContentId s :=
           {| ContentPayment.contentId := ContentPayment.nextContentId s;
              ContentPayment.creator := c;
              ContentPayment.title := t;
              ContentPayment.contentHash := h;
              ContentPayment.price := p;
              ContentPayment.createdAt := timestamp msg;
              ContentPayment.isActive := true |}]> (ContentPayment.contents s);
     ContentPayment.userAccess := ContentPayment.userAccess s;
     ContentPayment.creatorContents :=
       <[c := ContentPayment.contentsBy s c ++ [ContentPayment.nextContentId s]]>
         (ContentPayment.creatorContents s);
     ContentPayment.nextContentId := ContentPayment.nextContentId s + 1;
     ContentPayment.totalRevenue := ContentPayment.totalRevenue s;
     ContentPayment.events :=
       ContentPayment.ContentCreated (ContentPayment.nextContentId s) c t p
       :: ContentPayment.events s |}.

(** The record of content [id] with another price, or switched off. *)
Definition repriced (p : Z) (c : ContentPayment.Content) : ContentPayment.Content :=
  {| ContentPayment.contentId := ContentPayment.contentId c;
     ContentPayment.creator := ContentPayment.creator c;
     ContentPayment.title := ContentPayment.title c;
     ContentPayment.contentHash := ContentPayment.contentHash c;
     ContentPayment.price := p;
     ContentPayment.createdAt := ContentPayment.createdAt c;
     ContentPayment.isActive := ContentPayment.isActive c |}.

Definition switchedOff (c : ContentPayment.Content) : ContentPayment.Content :=
  {| ContentPayment.contentId := ContentPayment.contentId c;
     ContentPayment.creator := ContentPayment.creator c;
     ContentPayment.title := ContentPayment.title c;
     ContentPayment.contentHash := ContentPayment.contentHash c;
     ContentPayment.price := ContentPayment.price c;
     ContentPayment.createdAt := ContentPayment.createdAt c;
     ContentPayment.isActive := false |}.

Definition afterReprice (id p : Z) (s : ContentPayment.State) : ContentPayment.State :=
  {| ContentPayment.contents :=
       <[id := repriced p (ContentPayment.contentOf s id)]> (ContentPayment.contents s);
     ContentPayment.userAccess := ContentPayment.userAccess s;
     ContentPayment.creatorContents := ContentPayment.creatorContents s;
     ContentPayment.nextContentId := ContentPayment.nextContentId s;
     ContentPayment.totalRevenue := ContentPayment.totalRevenue s;
     ContentPayment.events :=
       ContentPayment.ContentUpdated id p :: ContentPayment.events s |}.

Definition afterDeactivate (id : Z) (s : ContentPayment.State) : ContentPayment.State :=
  ContentPayment.set_content id (switchedOff (ContentPayment.contentOf s id)) s.

(** Whether a transaction is an [updateContentPrice] or a
    [deactivateContent] of content [id] sent by [c]. *)
Definition managesContent (c : N) (id : Z) (op : Op) : bool :=
  match op with
  | PaymentUpdateContentPrice msg i _ => (sender msg =? c)%N && (i =? id)
  | PaymentDeactivateContent msg i => (sender msg =? c)%N && (i =? id)
  | _ => false
  end.

(** Whether a transaction is an [updateCreator] sent by [a]. *)
Definition updatesProfileOf (a : N) (op : Op) : bool :=
  match op with
  | ProfileUpdateCreator msg _ _ => (sender msg =? a)%N
  | _ => false
  end.

(** ** The ledger's event log *)

(** The prices, and the (buyer, content) pairs, of the purchases logged. *)
Fixpoint loggedPrices (ev : list ContentPayment.Event) : list Z :=
  match ev with
  | [] => []
  | ContentPayment.ContentPurchased _ _ _ price :: rest => price :: loggedPrices rest
  | _ :: rest => loggedPrices rest
  end.

Fixpoint loggedGrants (ev : list ContentPayment.Event) : list (N * Z) :=
  match ev with
  | [] => []
  | ContentPayment.ContentPurchased id buyer _ _ :: rest => (buyer, id) :: loggedGrants rest
  | _ :: rest => loggedGrants rest
  end.

(** The event log as a journal of the purchases: the revenue is the sum of
    the logged prices, and the grants are the logged (buyer, content)
    pairs, each logged once. *)
Definition journalOk (s : ContentPayment.State) : Prop :=
  ContentPayment.totalRevenue s = sumZ (loggedPrices (ContentPayment.events s))
  /\ NoDup (loggedGrants (ContentPayment.events s))
  /\ forall u i, ContentPayment.accessOf s u i = true
                 <-> (u, i) ∈ loggedGrants (ContentPayment.events s).

(** The ids below the counter whose content was created by [c], in
    increasing order. *)
Definition createdBy (s : ContentPayment.State) (c : N) : list Z :=
  filter (fun id => ContentPayment.creator (ContentPayment.contentOf s id) = c)
         (seqZ 1 (ContentPayment.nextContentId s - 1)).

(** ** Well-formed registries and ledgers *)

(** The registry's counter is the number of its records, every record is
    active, carries its own address and a profile that passes the checks. *)
Definition registryOk (s : CreatorProfile.State) : Prop :=
  CreatorProfile.totalCreators s = Z.of_nat (size (CreatorProfile.creators s))
  /\ forall a c, CreatorProfile.creators s !! a = Some c ->
                 CreatorProfile.isActive c = true
                 /\ CreatorProfile.wallet c = a
                 /\ validProfile (CreatorProfile.username c) (CreatorProfile.bio c) = true.

(** The ledger's records are those of the ids from 1 up to the counter,
    each carrying its own id and a title, reference and price that pass the
    checks. *)
Definition ledgerOk (s : ContentPayment.State) : Prop :=
  1 <= ContentPayment.nextContentId s
  /\ Z.of_nat (size (ContentPayment.contents s)) = ContentPayment.nextContentId s - 1
  /\ (forall id, is_Some (ContentPayment.contents s !! id)
                 <-> 1 <= id < ContentPayment.nextContentId s)
  /\ forall id c, ContentPayment.contents s !! id = Some c ->
                  ContentPayment.contentId c = id
                  /\ validContent (ContentPayment.title c) (ContentPayment.contentHash c)
                       (ContentPayment.price c) = true.

(** ** Where a transaction comes from *)

(** The account that submits a transaction: the [msg.sender] of the entry
    point, or the account a plain transfer is sent from. *)
Definition origin (op : Op) : N :=
  match op with
  | ProfileRegisterCreator msg _ _ _ => sender msg
  | ProfileUpdateCreator msg _ _ => sender msg
  | PaymentCreateContent msg _ _ _ _ => sender msg
  | PaymentPurchaseContent msg _ _ _ => sender msg
  | PaymentUpdateContentPrice msg _ _ => sender msg
  | PaymentDeactivateContent msg _ => sender msg
  | HubRegisterCreator msg _ _ => sender msg
  | HubCreateContent msg _ _ _ => sender msg
  | HubRegisterAndCreateContent msg _ _ _ _ _ => sender msg
  | HubPurchaseContent msg _ _ => sender msg
  | HubUpdatePlatformFee msg _ => sender msg
  | SendEther src _ _ => src
  end.

(** One of the three contracts of the deployment. *)
Definition isContract (E : Env) (a : N) : bool :=
  (a =? hubAddress E)%N || (a =? profileAddress E)%N || (a =? paymentAddress E)%N.

(** * Properties *)

(** Case analysis on the innermost call whose result is being matched. *)
Ltac case_call :=
  match goal with
  | |- context [match ?m with Ok _ => _ | Err _ => _ end] =>
      lazymatch m with
      | context [match _ with Ok _ => _ | Err _ => _ end] => fail
      | context [if _ then _ else _] => fail
      | _ => destruct m as [[? ?] | ?] eqn:?
      end
  | |- context [if ?c then _ else _] =>
      lazymatch c with
      | context [match _ with Ok _ => _ | Err _ => _ end] => fail
      | _ => destruct c eqn:?
      end
  end.

Ltac unfold_monad :=
  unfold onStore, onEther, require, checked_add, checked_sub in *;
  unfold zoom, bind, ret, fail, get, modify in *.

(** ** hasAccess *)

Lemma hasAccess_creator (s : ContentPayment.State) (u : N) (id : Z) :
  ContentPayment.creator (ContentPayment.contentOf s id) = u ->
  ContentPayment.hasAccess s u id = true.
Proof.
  intros H. unfold ContentPayment.hasAccess. rewrite H, N.eqb_refl. reflexivity.
Qed.

Lemma hasAccess_not_creator (s : ContentPayment.State) (u : N) (id : Z) :
  ContentPayment.creator (ContentPayment.contentOf s id) <> u ->
  ContentPayment.hasAccess s u id = ContentPayment.accessOf s u id.
Proof.
  intros H. unfold ContentPayment.hasAccess.
  destruct (N.eqb_spec (ContentPayment.creator (ContentPayment.contentOf s id)) u);
    [contradiction | reflexivity].
Qed.

Lemma contentOf_missing (s : ContentPayment.State) (id : Z) :
  ContentPayment.contents s !! id = None ->
  ContentPayment.contentOf s id = ContentPayment.noContent.
Proof. intros H. unfold ContentPayment.contentOf. rewrite H. reflexivity. Qed.

Lemma hasAccess_missing_nonzero (s : ContentPayment.State) (u : N) (id : Z) :
  ContentPayment.contents s !! id = None -> u <> 0%N ->
  ContentPayment.hasAccess s u id = ContentPayment.accessOf s u id.
Proof.
  intros Hnone Hu. apply hasAccess_not_creator.
  rewrite contentOf_missing by assumption. simpl. congruence.
Qed.

Lemma hasAccess_missing_zero (s : ContentPayment.State) (id : Z) :
  ContentPayment.contents s !! id = None ->
  ContentPayment.hasAccess s 0%N id = true.
Proof.
  intros H. apply hasAccess_creator.
  rewrite contentOf_missing by assumption. reflexivity.
Qed.

(** The zero address "has access" to content 1 before it exists and not
    once Alice has created it. *)
Example zero_address_access_is_spurious :
  GlamoraHub.hasAccessToContent Demo.fresh 0%N 1 = true
  /\ GlamoraHub.hasAccessToContent Demo.listed 0%N 1 = false.
Proof. split; reflexivity. Qed.

(** C1. For a content id with no content record, [hasAccess] compares the
    user with the creator field of an unwritten slot, which is the zero
    address: the zero address is reported to have access to a content id
    that does not exist, although it holds no grant. On the freshly
    deployed ledger there is no content 1 and no grant, the grant lookup
    for the zero address is [false], and [hasAccess(address(0), 1)] is
    [true]. *)
Theorem hasAccess_zero_address_on_missing_content :
  ContentPayment.contents ContentPayment.constructor !! 1 = None
  /\ ContentPayment.accessOf ContentPayment.constructor 0%N 1 = false
  /\ ContentPayment.hasAccess ContentPayment.constructor 0%N 1 = true.
Proof. repeat split. Qed.

(** ** createContent *)

Lemma createContent_invalid (msg : Msg) (c : N) (t h : string) (p : Z)
    (s : ContentPayment.State) :
  validContent t h p = false ->
  exists f, ContentPayment.createContent msg c t h p s = Err f
            /\ kindOf f = Some InvalidInput.
Proof.
  unfold validContent, ContentPayment.createContent. unfold_monad. intros H.
  destruct (0 <? String.length t)%nat; [| eexists; split; reflexivity].
  destruct (0 <? String.length h)%nat; [| eexists; split; reflexivity].
  destruct (0 <? p); [discriminate | eexists; split; reflexivity].
Qed.

Lemma createContent_valid (msg : Msg) (c : N) (t h : string) (p : Z)
    (s : ContentPayment.State) :
  validContent t h p = true ->
  ContentPayment.nextContentId s < MAX_UINT256 ->
  ContentPayment.createContent msg c t h p s =
  Ok (ContentPayment.nextContentId s,
      {| ContentPayment.contents :=
           <[ContentPayment.nextContentId s :=
               {| ContentPayment.contentId := ContentPayment.nextContentId s;
                  ContentPayment.creator := c;
                  ContentPayment.title := t;
                  ContentPayment.contentHash := h;
                  ContentPayment.price := p;
                  ContentPayment.createdAt := timestamp msg;
                  ContentPayment.isActive := true |}]> (ContentPayment.contents s);
         ContentPayment.userAccess := ContentPayment.userAccess s;
         ContentPayment.creatorContents :=
           <[c := ContentPayment.contentsBy s c ++ [ContentPayment.nextContentId s]]>
             (ContentPayment.creatorContents s);
         ContentPayment.nextContentId := ContentPayment.nextContentId s + 1;
         ContentPayment.totalRevenue := ContentPayment.totalRevenue s;
         ContentPayment.events :=
           ContentPayment.ContentCreated (ContentPayment.nextContentId s) c t p
           :: ContentPayment.events s |}).
Proof.
  unfold validContent, ContentPayment.createContent. unfold_monad.
  intros H Hn. apply andb_prop in H as [H Hp]. apply andb_prop in H as [Ht Hh].
  rewrite Ht, Hh, Hp. simpl.
  destruct (Z.leb_spec (ContentPayment.nextContentId s + 1) MAX_UINT256); [| lia].
  reflexivity.
Qed.

Lemma createContent_overflow (msg : Msg) (c : N) (t h : string) (p : Z)
    (s : ContentPayment.State) :
  validContent t h p = true ->
  MAX_UINT256 <= ContentPayment.nextContentId s ->
  ContentPayment.createContent msg c t h p s = Err (Panic 17).
Proof.
  unfold validContent, ContentPayment.createContent. unfold_monad.
  intros H Hn. apply andb_prop in H as [H Hp]. apply andb_prop in H as [Ht Hh].
  rewrite Ht, Hh, Hp. simpl.
  destruct (Z.leb_spec (ContentPayment.nextContentId s + 1) MAX_UINT256); [lia |].
  reflexivity.
Qed.

(** C9, as stated, fails: on the freshly deployed ledger a direct call
    [createContent(address(0), "T", "r", 100)] succeeds, returns id 1 and
    stores a content whose creator is the zero address. *)
Lemma createContent_accepts_zero_creator :
  fst (step Demo.E Demo.fresh
         (PaymentCreateContent (Demo.at_ Demo.carol) 0%N "T" "r" 100)) = Ok (Some 1)
  /\ ContentPayment.creator
       (ContentPayment.contentOf
          (GlamoraHub.payment
             (snd (step Demo.E Demo.fresh
                     (PaymentCreateContent (Demo.at_ Demo.carol) 0%N "T" "r" 100)))) 1)
     = 0%N.
Proof. split; reflexivity. Qed.

(** C9, amended. The ledger's [createContent] does not look at the
    creatorId: with the zero creatorId it fails with [InvalidInput], leaving
    the state as it was, when the title is empty, the content reference is
    empty or the price is not positive; with valid arguments (and the id
    counter below its maximum) it succeeds, returns the next id and stores
    an active content attributed to the zero address. *)
Theorem createContent_zero_creator (msg : Msg) (t h : string) (p : Z)
    (s : ContentPayment.State) :
  (validContent t h p = false ->
   exists f, transact (ContentPayment.createContent msg 0%N t h p) s = (Err f, s)
             /\ kindOf f = Some InvalidInput)
  /\ (validContent t h p = true ->
      ContentPayment.nextContentId s < MAX_UINT256 ->
      exists s',
        transact (ContentPayment.createContent msg 0%N t h p) s
        = (Ok (ContentPayment.nextContentId s), s')
        /\ ContentPayment.creator
             (ContentPayment.contentOf s' (ContentPayment.nextContentId s)) = 0%N
        /\ ContentPayment.isActive
             (ContentPayment.contentOf s' (ContentPayment.nextContentId s)) = true).
Proof.
  split.
  - intros H. destruct (createContent_invalid msg 0%N t h p s H) as [f [Hf Hk]].
    exists f. unfold transact. rewrite Hf. auto.
  - intros H Hn. unfold transact. rewrite createContent_valid by assumption.
    eexists. split; [reflexivity |].
    unfold ContentPayment.contentOf. simpl. rewrite lookup_insert_eq. auto.
Qed.

Lemma createContent_zero_creator_witness :
  validContent "" "r" 100 = false
  /\ validContent "T" "r" 100 = true
  /\ ContentPayment.nextContentId ContentPayment.constructor < MAX_UINT256
  /\ (exists f,
        transact (ContentPayment.createContent (Demo.at_ Demo.carol) 0%N "" "r" 100)
                 ContentPayment.constructor = (Err f, ContentPayment.constructor)
        /\ kindOf f = Some InvalidInput)
  /\ (exists s',
        transact (ContentPayment.createContent (Demo.at_ Demo.carol) 0%N "T" "r" 100)
                 ContentPayment.constructor = (Ok 1, s')
        /\ ContentPayment.creator (ContentPayment.contentOf s' 1) = 0%N
        /\ ContentPayment.isActive (ContentPayment.contentOf s' 1) = true).
Proof.
  split; [reflexivity |]. split; [reflexivity |]. split; [reflexivity |].
  split.
  - apply (proj1 (createContent_zero_creator (Demo.at_ Demo.carol) "" "r" 100
                    ContentPayment.constructor)).
    reflexivity.
  - apply (proj2 (createContent_zero_creator (Demo.at_ Demo.carol) "T" "r" 100
                    ContentPayment.constructor)); reflexivity.
Defined.

(** ** registerCreator *)

Lemma registerCreator_invalid (msg : Msg) (c : N) (u b : string)
    (s : CreatorProfile.State) :
  validProfile u b = false ->
  exists f, CreatorProfile.registerCreator msg c u b s = Err f
            /\ kindOf f = Some InvalidInput.
Proof.
  unfold validProfile, CreatorProfile.registerCreator. unfold_monad. intros H.
  destruct (0 <? String.length u)%nat; [| eexists; split; reflexivity].
  destruct (String.length u <=? 50)%nat; [| eexists; split; reflexivity].
  destruct (String.length b <=? 500)%nat; [discriminate | eexists; split; reflexivity].
Qed.

Lemma registerCreator_taken (msg : Msg) (c : N) (u b : string)
    (s : CreatorProfile.State) :
  validProfile u b = true ->
  CreatorProfile.isCreator s c = true ->
  CreatorProfile.registerCreator msg c u b s = Err (Revert "Creator already registered").
Proof.
  unfold validProfile, CreatorProfile.registerCreator, CreatorProfile.isCreator.
  unfold_monad. intros H Hc.
  apply andb_prop in H as [H Hb]. apply andb_prop in H as [Hu1 Hu2].
  rewrite Hu1, Hu2, Hb. simpl. rewrite Hc. reflexivity.
Qed.

Lemma registerCreator_fresh (msg : Msg) (c : N) (u b : string)
    (s : CreatorProfile.State) :
  validProfile u b = true ->
  CreatorProfile.isCreator s c = false ->
  CreatorProfile.totalCreators s < MAX_UINT256 ->
  CreatorProfile.registerCreator msg c u b s =
  Ok (tt, {| CreatorProfile.creators :=
               <[c := {| CreatorProfile.username := u; CreatorProfile.bio := b;
                         CreatorProfile.wallet := c;
                         CreatorProfile.createdAt := timestamp msg;
                         CreatorProfile.isActive := true |}]>
                 (CreatorProfile.creators s);
             CreatorProfile.totalCreators := CreatorProfile.totalCreators s + 1;
             CreatorProfile.events :=
               CreatorProfile.CreatorRegistered c u (timestamp msg)
               :: CreatorProfile.events s |}).
Proof.
  unfold validProfile, CreatorProfile.registerCreator, CreatorProfile.isCreator.
  unfold_monad. intros H Hc Hn.
  apply andb_prop in H as [H Hb]. apply andb_prop in H as [Hu1 Hu2].
  rewrite Hu1, Hu2, Hb. simpl. rewrite Hc. simpl.
  destruct (Z.leb_spec (CreatorProfile.totalCreators s + 1) MAX_UINT256); [| lia].
  reflexivity.
Qed.

Lemma registerCreator_overflow (msg : Msg) (c : N) (u b : string)
    (s : CreatorProfile.State) :
  validProfile u b = true ->
  CreatorProfile.isCreator s c = false ->
  MAX_UINT256 <= CreatorProfile.totalCreators s ->
  CreatorProfile.registerCreator msg c u b s = Err (Panic 17).
Proof.
  unfold validProfile, CreatorProfile.registerCreator, CreatorProfile.isCreator.
  unfold_monad. intros H Hc Hn.
  apply andb_prop in H as [H Hb]. apply andb_prop in H as [Hu1 Hu2].
  rewrite Hu1, Hu2, Hb. simpl. rewrite Hc. simpl.
  destruct (Z.leb_spec (CreatorProfile.totalCreators s + 1) MAX_UINT256); [lia |].
  reflexivity.
Qed.

(** ** The functions that authorise against the caller *)

Lemma updateCreator_unregistered (msg : Msg) (u b : string) (s : CreatorProfile.State) :
  CreatorProfile.isCreator s (sender msg) = false ->
  CreatorProfile.updateCreator msg u b s = Err (Revert "Creator not registered").
Proof.
  unfold CreatorProfile.updateCreator, CreatorProfile.isCreator. unfold_monad.
  intros H. rewrite H. reflexivity.
Qed.

Lemma updateContentPrice_stranger (msg : Msg) (id p : Z) (s : ContentPayment.State) :
  ContentPayment.isActive (ContentPayment.contentOf s id) = true ->
  ContentPayment.creator (ContentPayment.contentOf s id) <> sender msg ->
  ContentPayment.updateContentPrice msg id p s = Err (Revert "Only creator can update").
Proof.
  unfold ContentPayment.updateContentPrice. unfold_monad. intros Ha Hc.
  rewrite Ha. simpl.
  destruct (N.eqb_spec (ContentPayment.creator (ContentPayment.contentOf s id))
              (sender msg)); [contradiction | reflexivity].
Qed.

Lemma deactivateContent_stranger (msg : Msg) (id : Z) (s : ContentPayment.State) :
  ContentPayment.isActive (ContentPayment.contentOf s id) = true ->
  ContentPayment.creator (ContentPayment.contentOf s id) <> sender msg ->
  ContentPayment.deactivateContent msg id s = Err (Revert "Only creator can deactivate").
Proof.
  unfold ContentPayment.deactivateContent. unfold_monad. intros Ha Hc.
  rewrite Ha. simpl.
  destruct (N.eqb_spec (ContentPayment.creator (ContentPayment.contentOf s id))
              (sender msg)); [contradiction | reflexivity].
Qed.

Lemma deactivateContent_owner (msg : Msg) (id : Z) (s : ContentPayment.State) :
  ContentPayment.isActive (ContentPayment.contentOf s id) = true ->
  ContentPayment.creator (ContentPayment.contentOf s id) = sender msg ->
  ContentPayment.deactivateContent msg id s =
  Ok (tt, ContentPayment.set_content id
            {| ContentPayment.contentId :=
                 ContentPayment.contentId (ContentPayment.contentOf s id);
               ContentPayment.creator := sender msg;
               ContentPayment.title := ContentPayment.title (ContentPayment.contentOf s id);
               ContentPayment.contentHash :=
                 ContentPayment.contentHash (ContentPayment.contentOf s id);
               ContentPayment.price := ContentPayment.price (ContentPayment.contentOf s id);
               ContentPayment.createdAt :=
                 ContentPayment.createdAt (ContentPayment.contentOf s id);
               ContentPayment.isActive := false |} s).
Proof.
  unfold ContentPayment.deactivateContent. unfold_monad. intros Ha Hc.
  rewrite Ha, Hc, N.eqb_refl. reflexivity.
Qed.

(** C10. [CreatorProfile.registerCreator] and [ContentPayment.createContent]
    never read [msg.sender]: two calls in the same block with equal
    arguments on equal states give the same result and the same state,
    whoever makes them. So any account registers any unregistered identity
    by calling the registry, and any account creates content attributed to
    an unregistered creator by calling the ledger, a call the hub refuses
    with "Must be registered creator". [updateCreator],
    [updateContentPrice] and [deactivateContent] do read [msg.sender]: a
    caller who is not the registered creator, or not the content's creator,
    is turned away. *)
Theorem sub_contracts_ignore_the_caller (msg1 msg2 : Msg) :
  timestamp msg1 = timestamp msg2 ->
  (forall c u b s,
      CreatorProfile.registerCreator msg1 c u b s
      = CreatorProfile.registerCreator msg2 c u b s)
  /\ (forall c t h p s,
         ContentPayment.createContent msg1 c t h p s
         = ContentPayment.createContent msg2 c t h p s)
  /\ (forall E w identity u b,
         validProfile u b = true ->
         GlamoraHub.isCreator w identity = false ->
         CreatorProfile.totalCreators (GlamoraHub.profile w) < MAX_UINT256 ->
         fst (step E w (ProfileRegisterCreator msg1 identity u b)) = Ok None
         /\ GlamoraHub.isCreator
              (snd (step E w (ProfileRegisterCreator msg1 identity u b))) identity = true)
  /\ (forall E w c t h p,
         validContent t h p = true ->
         GlamoraHub.isCreator w c = false ->
         ContentPayment.nextContentId (GlamoraHub.payment w) < MAX_UINT256 ->
         step E w (HubCreateContent {| sender := c; timestamp := timestamp msg1 |} t h p)
         = (Err (Revert "Must be registered creator"), w)
         /\ fst (step E w (PaymentCreateContent msg1 c t h p))
            = Ok (Some (ContentPayment.nextContentId (GlamoraHub.payment w)))
         /\ ContentPayment.creator
              (ContentPayment.contentOf
                 (GlamoraHub.payment (snd (step E w (PaymentCreateContent msg1 c t h p))))
                 (ContentPayment.nextContentId (GlamoraHub.payment w))) = c)
  /\ (forall u b s,
         CreatorProfile.isCreator s (sender msg1) = false ->
         CreatorProfile.updateCreator msg1 u b s = Err (Revert "Creator not registered"))
  /\ (forall id p s,
         ContentPayment.isActive (ContentPayment.contentOf s id) = true ->
         ContentPayment.creator (ContentPayment.contentOf s id) <> sender msg1 ->
         ContentPayment.updateContentPrice msg1 id p s
         = Err (Revert "Only creator can update"))
  /\ (forall id s,
         ContentPayment.isActive (ContentPayment.contentOf s id) = true ->
         ContentPayment.creator (ContentPayment.contentOf s id) <> sender msg1 ->
         ContentPayment.deactivateContent msg1 id s
         = Err (Revert "Only creator can deactivate")).
Proof.
  intros Hts. repeat apply conj.
  - intros. unfold CreatorProfile.registerCreator. rewrite Hts. reflexivity.
  - intros. unfold ContentPayment.createContent. rewrite Hts. reflexivity.
  - intros E w identity u b Hv Hc Hn.
    unfold step, exec, transact, GlamoraHub.atProfile. unfold_monad.
    rewrite registerCreator_fresh by assumption. simpl. split; [reflexivity |].
    unfold GlamoraHub.isCreator, CreatorProfile.isCreator, CreatorProfile.creatorOf.
    simpl. rewrite lookup_insert_eq. reflexivity.
  - intros E w c t h p Hv Hc Hn. repeat apply conj.
    + unfold step, exec, transact, GlamoraHub.createContent. unfold_monad. simpl.
      unfold GlamoraHub.isCreator in Hc. rewrite Hc. reflexivity.
    + unfold step, exec, transact, GlamoraHub.atPayment. unfold_monad.
      rewrite createContent_valid by assumption. reflexivity.
    + unfold step, exec, transact, GlamoraHub.atPayment. unfold_monad.
      rewrite createContent_valid by assumption. simpl.
      unfold ContentPayment.contentOf. simpl. rewrite lookup_insert_eq. reflexivity.
  - intros. apply updateCreator_unregistered. assumption.
  - intros. apply updateContentPrice_stranger; assumption.
  - intros. apply deactivateContent_stranger; assumption.
Qed.

Lemma sub_contracts_ignore_the_caller_witness :
  timestamp (Demo.at_ Demo.bob) = timestamp (Demo.at_ Demo.carol)
  /\ CreatorProfile.registerCreator (Demo.at_ Demo.bob) Demo.alice "Alice" "bio"
       CreatorProfile.constructor
     = CreatorProfile.registerCreator (Demo.at_ Demo.carol) Demo.alice "Alice" "bio"
         CreatorProfile.constructor
  /\ ContentPayment.createContent (Demo.at_ Demo.bob) Demo.alice "T" "r" 100
       ContentPayment.constructor
     = ContentPayment.createContent (Demo.at_ Demo.carol) Demo.alice "T" "r" 100
         ContentPayment.constructor
  /\ GlamoraHub.isCreator
       (snd (step Demo.E Demo.fresh
               (ProfileRegisterCreator (Demo.at_ Demo.bob) Demo.alice "Alice" "bio")))
       Demo.alice = true
  /\ step Demo.E Demo.fresh (HubCreateContent (Demo.at_ Demo.alice) "T" "r" 100)
     = (Err (Revert "Must be registered creator"), Demo.fresh)
  /\ fst (step Demo.E Demo.fresh
            (PaymentCreateContent (Demo.at_ Demo.bob) Demo.alice "T" "r" 100))
     = Ok (Some 1)
  /\ ContentPayment.deactivateContent (Demo.at_ Demo.bob) 1
       (GlamoraHub.payment Demo.listed)
     = Err (Revert "Only creator can deactivate").
Proof.
  pose proof (sub_contracts_ignore_the_caller (Demo.at_ Demo.bob) (Demo.at_ Demo.carol)
                eq_refl) as (Hreg & Hcreate & Hany & Hhub & _ & _ & Hdeact).
  split; [reflexivity |].
  split; [apply Hreg |].
  split; [apply Hcreate |].
  split; [apply (Hany Demo.E Demo.fresh Demo.alice "Alice" "bio"); reflexivity |].
  split; [apply (Hhub Demo.E Demo.fresh Demo.alice "T" "r" 100); reflexivity |].
  split; [apply (Hhub Demo.E Demo.fresh Demo.alice "T" "r" 100); reflexivity |].
  apply Hdeact; [reflexivity | discriminate].
Defined.

(** ** Ether *)

Lemma balanceOf_move (src dst : N) (v : Z) (b : gmap N Z) (a : N) :
  balanceOf (move src dst v b) a
  = balanceOf b a - (if (a =? src)%N then v else 0) + (if (a =? dst)%N then v else 0).
Proof.
  unfold move, balanceOf.
  destruct (N.eqb_spec a dst) as [-> | Hd].
  - rewrite lookup_insert_eq. simpl.
    destruct (N.eqb_spec dst src) as [-> | Hs].
    + rewrite lookup_insert_eq. simpl. lia.
    + rewrite lookup_insert_ne by congruence. lia.
  - rewrite lookup_insert_ne by congruence.
    destruct (N.eqb_spec a src) as [-> | Hs].
    + rewrite lookup_insert_eq. simpl. lia.
    + rewrite lookup_insert_ne by congruence. lia.
Qed.

Lemma canReceive_not_contract (E : Env) (a : N) :
  canReceive E a = true ->
  a <> hubAddress E /\ a <> profileAddress E /\ a <> paymentAddress E.
Proof.
  unfold canReceive. intros H.
  repeat (apply andb_prop in H as [H ?]).
  repeat split; intros ->; rewrite N.eqb_refl in *; discriminate.
Qed.

Lemma funded_spec (b : gmap N Z) (a : N) (v : Z) :
  funded b a v = true <-> 0 <= v <= balanceOf b a.
Proof. unfold funded. rewrite andb_true_iff, !Z.leb_le. tauto. Qed.

(** ** purchaseContent *)

Section Purchase.
Variable E : Env.
Variables (msg : Msg) (v : Z) (buyer : N) (id : Z).
Variable f : Funded ContentPayment.State.

Let c := ContentPayment.contentOf (store f) id.
Let P := paymentAddress E.

Lemma purchaseContent_unfunded :
  funded (ether f) (sender msg) v = false ->
  ContentPayment.purchaseContent E msg v buyer id f = Err TransferReverted.
Proof.
  intros H. unfold ContentPayment.purchaseContent, pay. unfold_monad.
  cbv beta. rewrite H. reflexivity.
Qed.

Lemma purchaseContent_violation (k : ErrorKind) :
  funded (ether f) (sender msg) v = true ->
  firstViolation (store f) v buyer id = Some k ->
  exists r, ContentPayment.purchaseContent E msg v buyer id f = Err (Revert r)
            /\ kindOf (Revert r) = Some k.
Proof.
  intros Hf. unfold firstViolation, ContentPayment.purchaseContent, pay.
  unfold_monad. cbv beta. rewrite Hf. simpl. fold c.
  destruct (ContentPayment.isActive c); simpl;
    [| intros [= <-]; eexists; split; reflexivity].
  rewrite Z.leb_antisym.
  destruct (v <? ContentPayment.price c); simpl;
    [intros [= <-]; eexists; split; reflexivity |].
  destruct (ContentPayment.accessOf (store f) buyer id); simpl;
    [intros [= <-]; eexists; split; reflexivity |].
  destruct (buyer =? ContentPayment.creator c)%N; simpl;
    [intros [= <-]; eexists; split; reflexivity | discriminate].
Qed.

(** Past the four preconditions the grant is written first; the payments
    run in a state that already holds it. *)
Lemma purchaseContent_passed :
  funded (ether f) (sender msg) v = true ->
  firstViolation (store f) v buyer id = None ->
  ContentPayment.purchaseContent E msg v buyer id f
  = settlement E v buyer id c (granted E msg v buyer id f).
Proof.
  intros Hf. unfold firstViolation, ContentPayment.purchaseContent, settlement,
    granted, pay.
  unfold_monad. cbv beta. rewrite Hf. simpl. fold c. fold P.
  destruct (ContentPayment.isActive c); simpl; [| discriminate].
  rewrite Z.leb_antisym.
  destruct (v <? ContentPayment.price c); simpl; [discriminate |].
  destruct (ContentPayment.accessOf (store f) buyer id); simpl; [discriminate |].
  destruct (buyer =? ContentPayment.creator c)%N; simpl; [discriminate |].
  intros _. reflexivity.
Qed.

Lemma firstViolation_None :
  firstViolation (store f) v buyer id = None ->
  ContentPayment.isActive c = true
  /\ ContentPayment.price c <= v
  /\ ContentPayment.accessOf (store f) buyer id = false
  /\ buyer <> ContentPayment.creator c.
Proof.
  unfold firstViolation. fold c.
  destruct (ContentPayment.isActive c); simpl; [| discriminate].
  destruct (Z.ltb_spec v (ContentPayment.price c)); [discriminate |].
  destruct (ContentPayment.accessOf (store f) buyer id); [discriminate |].
  destruct (N.eqb_spec buyer (ContentPayment.creator c)); [discriminate |].
  auto.
Qed.

Hypothesis Hfunded : funded (ether f) (sender msg) v = true.
Hypothesis Hpassed : firstViolation (store f) v buyer id = None.
Hypothesis Hbalance : 0 <= balanceOf (ether f) P.
Hypothesis Hprice : 0 <= ContentPayment.price c.

Lemma balance_after_deposit :
  v <= balanceOf (move (sender msg) P v (ether f)) P.
Proof.
  apply funded_spec in Hfunded.
  rewrite balanceOf_move, N.eqb_refl.
  destruct (P =? sender msg)%N eqn:He; [apply N.eqb_eq in He; rewrite He in * |]; lia.
Qed.

Lemma funded_after_deposit :
  funded (move (sender msg) P v (ether f)) P (ContentPayment.price c) = true.
Proof.
  apply funded_spec. pose proof balance_after_deposit.
  destruct (firstViolation_None Hpassed) as (_ & Hle & _). lia.
Qed.

Lemma funded_for_refund :
  ContentPayment.creator c <> P ->
  funded (move P (ContentPayment.creator c) (ContentPayment.price c)
            (move (sender msg) P v (ether f))) P (v - ContentPayment.price c) = true.
Proof.
  intros Hc. pose proof balance_after_deposit as Hd. apply funded_spec.
  destruct (firstViolation_None Hpassed) as (_ & Hle & _).
  rewrite balanceOf_move, N.eqb_refl.
  destruct (N.eqb_spec P (ContentPayment.creator c)); [congruence | lia].
Qed.

Lemma settlement_creator_rejects :
  canReceive E (ContentPayment.creator c) = false ->
  settlement E v buyer id c (granted E msg v buyer id f) = Err TransferReverted.
Proof.
  intros Hc. unfold settlement, transfer. rewrite Hc. reflexivity.
Qed.

Lemma settlement_overflow :
  canReceive E (ContentPayment.creator c) = true ->
  MAX_UINT256 < ContentPayment.totalRevenue (store f) + ContentPayment.price c ->
  settlement E v buyer id c (granted E msg v buyer id f) = Err (Panic 17).
Proof.
  intros Hc Ho. unfold settlement, transfer, pay, granted. rewrite Hc.
  unfold_monad. cbv beta. simpl. fold P. rewrite funded_after_deposit. simpl.
  destruct (Z.leb_spec (ContentPayment.totalRevenue (store f) + ContentPayment.price c)
              MAX_UINT256); [lia | reflexivity].
Qed.

Lemma settlement_buyer_rejects :
  canReceive E (ContentPayment.creator c) = true ->
  ContentPayment.totalRevenue (store f) + ContentPayment.price c <= MAX_UINT256 ->
  ContentPayment.price c < v ->
  canReceive E buyer = false ->
  settlement E v buyer id c (granted E msg v buyer id f) = Err TransferReverted.
Proof.
  intros Hc Ho Hlt Hb. unfold settlement, transfer, pay, granted. rewrite Hc, Hb.
  unfold_monad. cbv beta. simpl. fold P. rewrite funded_after_deposit. simpl.
  destruct (Z.leb_spec (ContentPayment.totalRevenue (store f) + ContentPayment.price c)
              MAX_UINT256); [| lia].
  simpl. destruct (Z.ltb_spec (ContentPayment.price c) v); [reflexivity | lia].
Qed.

Lemma settlement_settles :
  settles E (store f) v buyer id = true ->
  settlement E v buyer id c (granted E msg v buyer id f)
  = Ok (tt, purchased E msg v buyer id f).
Proof.
  unfold settles. fold c. intros H.
  apply andb_prop in H as [H Hb]. apply andb_prop in H as [Hc Ho].
  apply Z.leb_le in Ho.
  unfold settlement, transfer, pay, granted, purchased. rewrite Hc.
  unfold_monad. cbv beta. simpl. fold c. fold P. rewrite funded_after_deposit. simpl.
  destruct (Z.leb_spec (ContentPayment.totalRevenue (store f) + ContentPayment.price c)
              MAX_UINT256); [| lia].
  simpl. destruct (ContentPayment.price c <? v) eqn:Hlt; [| reflexivity].
  rewrite Hb. simpl. rewrite funded_for_refund; [reflexivity |].
  apply canReceive_not_contract in Hc. tauto.
Qed.

End Purchase.

Lemma settlement_inv (E : Env) (msg : Msg) (v : Z) (buyer : N) (id : Z)
    (f f' : Funded ContentPayment.State) (u : unit) :
  let c := ContentPayment.contentOf (store f) id in
  settlement E v buyer id c (granted E msg v buyer id f) = Ok (u, f') ->
  f' = purchased E msg v buyer id f
  /\ canReceive E (ContentPayment.creator c) = true
  /\ ContentPayment.totalRevenue (store f) + ContentPayment.price c <= MAX_UINT256
  /\ (ContentPayment.price c < v -> canReceive E buyer = true).
Proof.
  intros c. unfold settlement, transfer, pay, granted, purchased. fold c.
  destruct (canReceive E (ContentPayment.creator c)); [| discriminate].
  unfold_monad. cbv beta. simpl.
  destruct (funded _ _ (ContentPayment.price c)); [| discriminate]. simpl.
  destruct (Z.leb_spec (ContentPayment.totalRevenue (store f) + ContentPayment.price c)
              MAX_UINT256); [| discriminate].
  simpl. destruct (Z.ltb_spec (ContentPayment.price c) v).
  - destruct (canReceive E buyer); [| discriminate]. simpl.
    destruct (funded _ _ (v - ContentPayment.price c)); [| discriminate]. simpl.
    intros [= <-]. auto.
  - simpl. intros [= <-]. repeat split; auto. lia.
Qed.

Lemma purchaseContent_ok_inv (E : Env) (msg : Msg) (v : Z) (buyer : N) (id : Z)
    (f f' : Funded ContentPayment.State) (u : unit) :
  let c := ContentPayment.contentOf (store f) id in
  ContentPayment.purchaseContent E msg v buyer id f = Ok (u, f') ->
  funded (ether f) (sender msg) v = true
  /\ firstViolation (store f) v buyer id = None
  /\ f' = purchased E msg v buyer id f
  /\ canReceive E (ContentPayment.creator c) = true
  /\ ContentPayment.totalRevenue (store f) + ContentPayment.price c <= MAX_UINT256
  /\ (ContentPayment.price c < v -> canReceive E buyer = true).
Proof.
  intros c H.
  destruct (funded (ether f) (sender msg) v) eqn:Hf;
    [| rewrite purchaseContent_unfunded in H by assumption; discriminate].
  destruct (firstViolation (store f) v buyer id) as [k |] eqn:Hv.
  - destruct (purchaseContent_violation E msg v buyer id f k Hf Hv) as [r [Hr _]].
    rewrite Hr in H. discriminate.
  - rewrite purchaseContent_passed in H by assumption.
    apply settlement_inv in H. tauto.
Qed.

(** ** Transactions on the ledger's payable function *)

Lemma step_purchase_failed (E : Env) (w : World) (msg : Msg) (v : Z) (buyer : N)
    (id : Z) (e : Failure) :
  ContentPayment.purchaseContent E msg v buyer id (GlamoraHub.funds w) = Err e ->
  step E w (PaymentPurchaseContent msg v buyer id) = (Err e, w).
Proof.
  intros H. unfold step, exec, transact, GlamoraHub.atPaymentFunded.
  unfold_monad. rewrite H. reflexivity.
Qed.

Lemma step_purchase_done (E : Env) (w : World) (msg : Msg) (v : Z) (buyer : N)
    (id : Z) (f' : Funded ContentPayment.State) :
  ContentPayment.purchaseContent E msg v buyer id (GlamoraHub.funds w) = Ok (tt, f') ->
  step E w (PaymentPurchaseContent msg v buyer id)
  = (Ok None, GlamoraHub.commit f' w).
Proof.
  intros H. unfold step, exec, transact, GlamoraHub.atPaymentFunded.
  unfold_monad. rewrite H. reflexivity.
Qed.

Lemma step_purchase_ok_inv (E : Env) (w w' : World) (msg : Msg) (v : Z) (buyer : N)
    (id : Z) (r : option Z) :
  step E w (PaymentPurchaseContent msg v buyer id) = (Ok r, w') ->
  ContentPayment.purchaseContent E msg v buyer id (GlamoraHub.funds w)
  = Ok (tt, purchased E msg v buyer id (GlamoraHub.funds w))
  /\ w' = GlamoraHub.commit (purchased E msg v buyer id (GlamoraHub.funds w)) w.
Proof.
  unfold step, exec, transact, GlamoraHub.atPaymentFunded. unfold_monad.
  destruct (ContentPayment.purchaseContent E msg v buyer id (GlamoraHub.funds w))
    as [[[] f'] | e] eqn:H; [| discriminate].
  intros [= <- <-]. apply purchaseContent_ok_inv in H as (_ & _ & -> & _). auto.
Qed.

(** C2, as stated, fails in its last clause. On the ledger where carol has
    listed content 1 with the ledger contract itself as creator, bob's
    purchase with exactly the price passes all four preconditions, and it
    does not succeed: the ledger contract has no [receive] function, the
    transfer of the price to the creator reverts, and the call fails with
    the bare revert of a failed transfer. *)
Lemma purchase_can_fail_past_the_preconditions :
  ContentPayment.isActive (ContentPayment.contentOf (GlamoraHub.payment Demo.trapped) 1) = true
  /\ ContentPayment.price (ContentPayment.contentOf (GlamoraHub.payment Demo.trapped) 1) <= 100
  /\ ContentPayment.accessOf (GlamoraHub.payment Demo.trapped) Demo.bob 1 = false
  /\ Demo.bob
     <> ContentPayment.creator
          (ContentPayment.contentOf (GlamoraHub.payment Demo.trapped) 1)
  /\ firstViolation (GlamoraHub.payment Demo.trapped) 100 Demo.bob 1 = None
  /\ funded (GlamoraHub.balances Demo.trapped) Demo.bob 100 = true
  /\ ContentPayment.creator
       (ContentPayment.contentOf (GlamoraHub.payment Demo.trapped) 1)
     = paymentAddress Demo.E
  /\ step Demo.E Demo.trapped (PaymentPurchaseContent (Demo.at_ Demo.bob) 100 Demo.bob 1)
     = (Err TransferReverted, Demo.trapped).
Proof. repeat split; discriminate. Qed.

(** C2, amended. For every purchase call that carries its payment, the four
    preconditions are checked in the order content exists and is active,
    amountPaid >= price, no existing grant, buyer is not the creator, and
    the first that fails determines the error ([NotFound],
    [InsufficientPayment], [AlreadyPurchased], [SelfPurchaseForbidden]),
    the state staying as it was. When all four hold the purchase succeeds
    if the payments go through (the creator accepts the price, the revenue
    counter has room, and on overpayment the buyer accepts the refund);
    otherwise it fails with the transfer's revert or an arithmetic panic
    and the state stays as it was. *)
Theorem purchase_checks_in_order (E : Env) (w : World) (msg : Msg) (v : Z)
    (buyer : N) (id : Z) :
  funded (GlamoraHub.balances w) (sender msg) v = true ->
  (forall k, firstViolation (GlamoraHub.payment w) v buyer id = Some k ->
     exists e, step E w (PaymentPurchaseContent msg v buyer id) = (Err e, w)
               /\ kindOf e = Some k)
  /\ (firstViolation (GlamoraHub.payment w) v buyer id = None ->
      0 <= balanceOf (GlamoraHub.balances w) (paymentAddress E) ->
      0 <= ContentPayment.price (ContentPayment.contentOf (GlamoraHub.payment w) id) ->
      (settles E (GlamoraHub.payment w) v buyer id = true ->
       step E w (PaymentPurchaseContent msg v buyer id)
       = (Ok None,
          GlamoraHub.commit (purchased E msg v buyer id (GlamoraHub.funds w)) w))
      /\ (settles E (GlamoraHub.payment w) v buyer id = false ->
          exists e, step E w (PaymentPurchaseContent msg v buyer id) = (Err e, w)
                    /\ (e = TransferReverted \/ e = Panic 17))).
Proof.
  intros Hf. split.
  - intros k Hk.
    destruct (purchaseContent_violation E msg v buyer id (GlamoraHub.funds w) k Hf Hk)
      as [r [Hr Hkind]].
    exists (Revert r). split; [apply step_purchase_failed; assumption | assumption].
  - intros Hv Hb Hp. split.
    + intros Hs. apply step_purchase_done.
      rewrite purchaseContent_passed by assumption.
      apply settlement_settles; assumption.
    + intros Hs. unfold settles in Hs.
      pose proof (purchaseContent_passed E msg v buyer id (GlamoraHub.funds w) Hf Hv)
        as Hrun.
      destruct (canReceive E (ContentPayment.creator
                  (ContentPayment.contentOf (GlamoraHub.payment w) id))) eqn:Hc.
      * destruct (Z.leb_spec
                    (ContentPayment.totalRevenue (GlamoraHub.payment w)
                     + ContentPayment.price
                         (ContentPayment.contentOf (GlamoraHub.payment w) id))
                    MAX_UINT256) as [Ho | Ho].
        -- simpl in Hs.
           destruct (Z.ltb_spec
                       (ContentPayment.price
                          (ContentPayment.contentOf (GlamoraHub.payment w) id)) v);
             [| discriminate].
           exists TransferReverted. split; [| auto].
           apply step_purchase_failed. rewrite Hrun.
           apply settlement_buyer_rejects; assumption.
        -- exists (Panic 17). split; [| auto].
           apply step_purchase_failed. rewrite Hrun.
           apply settlement_overflow; assumption.
      * exists TransferReverted. split; [| auto].
        apply step_purchase_failed. rewrite Hrun.
        apply settlement_creator_rejects; assumption.
Qed.

Lemma purchase_checks_in_order_witness :
  funded (GlamoraHub.balances Demo.listed) Demo.bob 100 = true
  /\ firstViolation (GlamoraHub.payment Demo.listed) 100 Demo.bob 2 = Some NotFound
  /\ (exists e,
        step Demo.E Demo.listed (PaymentPurchaseContent (Demo.at_ Demo.bob) 100 Demo.bob 2)
        = (Err e, Demo.listed) /\ kindOf e = Some NotFound)
  /\ firstViolation (GlamoraHub.payment Demo.listed) 100 Demo.bob 1 = None
  /\ 0 <= balanceOf (GlamoraHub.balances Demo.listed) (paymentAddress Demo.E)
  /\ 0 <= ContentPayment.price
            (ContentPayment.contentOf (GlamoraHub.payment Demo.listed) 1)
  /\ settles Demo.E (GlamoraHub.payment Demo.listed) 100 Demo.bob 1 = true
  /\ step Demo.E Demo.listed (PaymentPurchaseContent (Demo.at_ Demo.bob) 100 Demo.bob 1)
     = (Ok None,
        GlamoraHub.commit
          (purchased Demo.E (Demo.at_ Demo.bob) 100 Demo.bob 1
             (GlamoraHub.funds Demo.listed)) Demo.listed).
Proof.
  split; [reflexivity |]. split; [reflexivity |].
  split; [apply (proj1 (purchase_checks_in_order Demo.E Demo.listed
                          (Demo.at_ Demo.bob) 100 Demo.bob 2 eq_refl)); reflexivity |].
  split; [reflexivity |]. split; [discriminate |]. split; [discriminate |].
  split; [reflexivity |].
  apply (proj2 (purchase_checks_in_order Demo.E Demo.listed
                  (Demo.at_ Demo.bob) 100 Demo.bob 1 eq_refl));
    [reflexivity | discriminate | discriminate | reflexivity].
Defined.

(** C3. A purchase whose transfer of the price to the creator fails, or
    whose refund of the overpayment to the buyer fails, fails as a whole
    with the transfer's revert ([TransferFailed]) and leaves the state
    exactly as it was: the grant, which the body had already written when
    the transfer ran, is not there afterwards, and [totalRevenue] has not
    moved. A purchase that succeeds commits the grant, the credit of the
    price to the creator, the refund and the revenue increment together. *)
Theorem failed_transfer_rolls_back (E : Env) (w : World) (msg : Msg) (v : Z)
    (buyer : N) (id : Z) :
  let c := ContentPayment.contentOf (GlamoraHub.payment w) id in
  let outcome := step E w (PaymentPurchaseContent msg v buyer id) in
  funded (GlamoraHub.balances w) (sender msg) v = true ->
  firstViolation (GlamoraHub.payment w) v buyer id = None ->
  0 <= balanceOf (GlamoraHub.balances w) (paymentAddress E) ->
  0 <= ContentPayment.price c ->
  (ContentPayment.purchaseContent E msg v buyer id (GlamoraHub.funds w)
   = settlement E v buyer id c (granted E msg v buyer id (GlamoraHub.funds w))
   /\ ContentPayment.accessOf
        (store (granted E msg v buyer id (GlamoraHub.funds w))) buyer id = true)
  /\ (canReceive E (ContentPayment.creator c) = false
      \/ (canReceive E (ContentPayment.creator c) = true
          /\ ContentPayment.totalRevenue (GlamoraHub.payment w)
             + ContentPayment.price c <= MAX_UINT256
          /\ ContentPayment.price c < v
          /\ canReceive E buyer = false) ->
      outcome = (Err TransferReverted, w)
      /\ kindOf TransferReverted = Some TransferFailed
      /\ ContentPayment.accessOf (GlamoraHub.payment (snd outcome)) buyer id = false
      /\ ContentPayment.totalRevenue (GlamoraHub.payment (snd outcome))
         = ContentPayment.totalRevenue (GlamoraHub.payment w))
  /\ (fst outcome = Ok None ->
      snd outcome
      = GlamoraHub.commit (purchased E msg v buyer id (GlamoraHub.funds w)) w
      /\ ContentPayment.accessOf (GlamoraHub.payment (snd outcome)) buyer id = true
      /\ ContentPayment.totalRevenue (GlamoraHub.payment (snd outcome))
         = ContentPayment.totalRevenue (GlamoraHub.payment w) + ContentPayment.price c
      /\ GlamoraHub.balances (snd outcome)
         = (let paid := move (paymentAddress E) (ContentPayment.creator c)
                          (ContentPayment.price c)
                          (move (sender msg) (paymentAddress E) v
                             (GlamoraHub.balances w)) in
            if ContentPayment.price c <? v
            then move (paymentAddress E) buyer (v - ContentPayment.price c) paid
            else paid)).
Proof.
  intros c outcome Hf Hv Hb Hp.
  pose proof (purchaseContent_passed E msg v buyer id (GlamoraHub.funds w) Hf Hv)
    as Hrun.
  split; [| split].
  - split; [exact Hrun |].
    unfold granted, ContentPayment.accessOf. simpl. rewrite lookup_insert_eq.
    reflexivity.
  - intros Hfail.
    assert (outcome = (Err TransferReverted, w)) as Hout.
    { apply step_purchase_failed. rewrite Hrun.
      destruct Hfail as [Hc | (Hc & Ho & Hlt & Hbuyer)].
      - apply settlement_creator_rejects; assumption.
      - apply settlement_buyer_rejects; assumption. }
    rewrite Hout. simpl. repeat split.
    apply (firstViolation_None v buyer id (GlamoraHub.funds w) Hv).
  - intros Hok. destruct outcome as [r w'] eqn:Hout. simpl in Hok. subst r.
    apply step_purchase_ok_inv in Hout as [_ ->]. simpl.
    repeat split.
    unfold ContentPayment.accessOf. simpl. rewrite lookup_insert_eq. reflexivity.
Qed.

Lemma failed_transfer_rolls_back_witness :
  funded (GlamoraHub.balances Demo.trapped) Demo.bob 100 = true
  /\ firstViolation (GlamoraHub.payment Demo.trapped) 100 Demo.bob 1 = None
  /\ 0 <= balanceOf (GlamoraHub.balances Demo.trapped) (paymentAddress Demo.E)
  /\ 0 <= ContentPayment.price
            (ContentPayment.contentOf (GlamoraHub.payment Demo.trapped) 1)
  /\ canReceive Demo.E
       (ContentPayment.creator
          (ContentPayment.contentOf (GlamoraHub.payment Demo.trapped) 1)) = false
  /\ step Demo.E Demo.trapped (PaymentPurchaseContent (Demo.at_ Demo.bob) 100 Demo.bob 1)
     = (Err TransferReverted, Demo.trapped)
  /\ funded (GlamoraHub.balances Demo.listed) Demo.bob 150 = true
  /\ firstViolation (GlamoraHub.payment Demo.listed) 150 Demo.hubAddr 1 = None
  /\ canReceive Demo.E Demo.hubAddr = false
  /\ step Demo.E Demo.listed
       (PaymentPurchaseContent (Demo.at_ Demo.bob) 150 Demo.hubAddr 1)
     = (Err TransferReverted, Demo.listed).
Proof.
  split; [reflexivity |]. split; [reflexivity |]. split; [discriminate |].
  split; [discriminate |]. split; [reflexivity |].
  split.
  - apply (failed_transfer_rolls_back Demo.E Demo.trapped (Demo.at_ Demo.bob) 100
             Demo.bob 1 eq_refl eq_refl);
      [discriminate | discriminate | left; reflexivity].
  - split; [reflexivity |]. split; [reflexivity |]. split; [reflexivity |].
    apply (failed_transfer_rolls_back Demo.E Demo.listed (Demo.at_ Demo.bob) 150
             Demo.hubAddr 1 eq_refl eq_refl);
      [discriminate | discriminate |].
    right. repeat split. discriminate.
Defined.

(** ** Failed transactions *)

Lemma failed_step_keeps_world (E : Env) (w : World) (op : Op) (e : Failure) :
  fst (step E w op) = Err e -> snd (step E w op) = w.
Proof.
  unfold step, transact. destruct (exec E op w) as [[r w'] | e']; [discriminate |].
  reflexivity.
Qed.

(** ** Purchases through the hub *)

(** The hub takes the payment and makes the ledger's call in its own name
    for the caller as buyer; a failure of that call undoes the hub's part
    too. *)
Lemma hub_purchase_forwards (E : Env) (w : World) (msg : Msg) (v : Z) (id : Z) :
  step E w (HubPurchaseContent msg v id)
  = if funded (GlamoraHub.balances w) (sender msg) v
    then match step E
                 (GlamoraHub.set_balances
                    (move (sender msg) (hubAddress E) v (GlamoraHub.balances w)) w)
                 (PaymentPurchaseContent (GlamoraHub.asHub E msg) v (sender msg) id)
         with
         | (Ok r, w') => (Ok r, w')
         | (Err e, _) => (Err e, w)
         end
    else (Err TransferReverted, w).
Proof.
  unfold step, exec, transact, GlamoraHub.purchaseContent,
    GlamoraHub.atPaymentFunded, GlamoraHub.atBalances, pay.
  unfold_monad. cbv beta.
  destruct (funded (GlamoraHub.balances w) (sender msg) v); [| reflexivity].
  simpl.
  destruct (ContentPayment.purchaseContent E (GlamoraHub.asHub E msg) v (sender msg) id _)
    as [[[] f'] | e]; reflexivity.
Qed.

(** The scenario of the specification: Alice registers and lists a
    tutorial for 100, Bob buys it through the hub for 100. *)
Example tutorial_scenario :
  GlamoraHub.hasAccessToContent Demo.sold Demo.bob 1 = true
  /\ ContentPayment.totalRevenue (GlamoraHub.payment Demo.sold) = 100
  /\ balanceOf (GlamoraHub.balances Demo.sold) Demo.alice
     = balanceOf (GlamoraHub.balances Demo.listed) Demo.alice + 100
  /\ balanceOf (GlamoraHub.balances Demo.sold) Demo.bob
     = balanceOf (GlamoraHub.balances Demo.listed) Demo.bob - 100
  /\ balanceOf (GlamoraHub.balances Demo.sold) Demo.hubAddr = 0
  /\ balanceOf (GlamoraHub.balances Demo.sold) Demo.paymentAddr = 0.
Proof. repeat split. Qed.

(** Calls that break several preconditions at once report the first one:
    a missing content before the payment, the payment before the grant and
    before the creator test; and a repeated or a creator's purchase is
    refused whatever the amount. *)
Example purchase_reports_the_first_violation :
  fst (step Demo.E Demo.sold (HubPurchaseContent (Demo.at_ Demo.bob) 0 7))
  = Err (Revert "Content not found or inactive")
  /\ fst (step Demo.E Demo.sold (HubPurchaseContent (Demo.at_ Demo.bob) 99 1))
     = Err (Revert "Insufficient payment")
  /\ fst (step Demo.E Demo.sold (HubPurchaseContent (Demo.at_ Demo.alice) 99 1))
     = Err (Revert "Insufficient payment")
  /\ fst (step Demo.E Demo.sold (HubPurchaseContent (Demo.at_ Demo.bob) 100 1))
     = Err (Revert "Already purchased")
  /\ fst (step Demo.E Demo.sold (HubPurchaseContent (Demo.at_ Demo.bob) 900 1))
     = Err (Revert "Already purchased")
  /\ fst (step Demo.E Demo.sold (HubPurchaseContent (Demo.at_ Demo.alice) 100 1))
     = Err (Revert "Creators cannot buy their own content")
  /\ fst (step Demo.E Demo.sold (HubPurchaseContent (Demo.at_ Demo.alice) 1000 1))
     = Err (Revert "Creators cannot buy their own content")
  /\ fst (step Demo.E Demo.sold (HubPurchaseContent (Demo.at_ Demo.carol) 100 1))
     = Ok None.
Proof. repeat split. Qed.

(** ** Overpayment *)

(** C5. A successful purchase with amountPaid = price + k, k > 0, credits
    exactly price to the content's creator and exactly k to the buyer, out
    of the amountPaid that arrived at the ledger, whose own balance ends
    where it started; [totalRevenue] grows by exactly price. A buyer who
    paid for themself is in the end out of exactly price. *)
Theorem overpayment_is_refunded (E : Env) (w w' : World) (msg : Msg) (k : Z)
    (buyer : N) (id : Z) :
  let c := ContentPayment.contentOf (GlamoraHub.payment w) id in
  let p := ContentPayment.price c in
  let arrived := move (sender msg) (paymentAddress E) (p + k) (GlamoraHub.balances w) in
  0 < k ->
  step E w (PaymentPurchaseContent msg (p + k) buyer id) = (Ok None, w') ->
  ContentPayment.totalRevenue (GlamoraHub.payment w')
  = ContentPayment.totalRevenue (GlamoraHub.payment w) + p
  /\ balanceOf (GlamoraHub.balances w') (ContentPayment.creator c)
     = balanceOf arrived (ContentPayment.creator c) + p
  /\ balanceOf (GlamoraHub.balances w') buyer = balanceOf arrived buyer + k
  /\ balanceOf (GlamoraHub.balances w') (paymentAddress E)
     = balanceOf arrived (paymentAddress E) - (p + k)
  /\ (forall a, a <> ContentPayment.creator c -> a <> buyer -> a <> paymentAddress E ->
        balanceOf (GlamoraHub.balances w') a = balanceOf arrived a)
  /\ (sender msg = buyer ->
      balanceOf (GlamoraHub.balances w') buyer
      = balanceOf (GlamoraHub.balances w) buyer - p).
Proof.
  intros c p arrived Hk Hstep.
  apply step_purchase_ok_inv in Hstep as [Hrun ->].
  apply purchaseContent_ok_inv in Hrun as (_ & Hv & _ & Hc & _ & Hb).
  simpl in Hc, Hb. fold c in Hc, Hb. fold p in Hb.
  assert (p < p + k) as Hover by lia. specialize (Hb Hover).
  apply firstViolation_None in Hv as (_ & _ & _ & Hne). simpl in Hne. fold c in Hne.
  apply canReceive_not_contract in Hc as (_ & _ & Hc).
  apply canReceive_not_contract in Hb as (_ & _ & Hb).
  assert ((p <? p + k) = true) as Hlt by (apply Z.ltb_lt; lia).
  unfold GlamoraHub.commit, purchased. simpl. fold c. fold p. rewrite Hlt.
  fold arrived. replace (p + k - p) with k by lia.
  split; [reflexivity |].
  repeat split; intros; rewrite !balanceOf_move.
  - rewrite N.eqb_refl.
    destruct (N.eqb_spec (ContentPayment.creator c) (paymentAddress E)); [congruence |].
    destruct (N.eqb_spec (ContentPayment.creator c) buyer); [congruence |]. lia.
  - rewrite N.eqb_refl.
    destruct (N.eqb_spec buyer (paymentAddress E)); [congruence |].
    destruct (N.eqb_spec buyer (ContentPayment.creator c)); [congruence |]. lia.
  - rewrite N.eqb_refl.
    destruct (N.eqb_spec (paymentAddress E) (ContentPayment.creator c)); [congruence |].
    destruct (N.eqb_spec (paymentAddress E) buyer); [congruence |]. lia.
  - destruct (N.eqb_spec a (paymentAddress E)); [congruence |].
    destruct (N.eqb_spec a (ContentPayment.creator c)); [congruence |].
    destruct (N.eqb_spec a buyer); [congruence |]. lia.
  - subst arrived. rewrite balanceOf_move. subst buyer. rewrite N.eqb_refl.
    destruct (N.eqb_spec (sender msg) (paymentAddress E)); [congruence |].
    destruct (N.eqb_spec (sender msg) (ContentPayment.creator c)); [congruence |]. lia.
Qed.

Lemma overpayment_is_refunded_witness :
  0 < 50
  /\ step Demo.E Demo.listed (PaymentPurchaseContent (Demo.at_ Demo.bob) (100 + 50) Demo.bob 1)
     = (Ok None,
        snd (step Demo.E Demo.listed
               (PaymentPurchaseContent (Demo.at_ Demo.bob) (100 + 50) Demo.bob 1)))
  /\ ContentPayment.totalRevenue
       (GlamoraHub.payment
          (snd (step Demo.E Demo.listed
                  (PaymentPurchaseContent (Demo.at_ Demo.bob) (100 + 50) Demo.bob 1))))
     = ContentPayment.totalRevenue (GlamoraHub.payment Demo.listed) + 100.
Proof.
  split; [reflexivity |]. split; [reflexivity |].
  apply (overpayment_is_refunded Demo.E Demo.listed _ (Demo.at_ Demo.bob) 50 Demo.bob 1);
    reflexivity.
Defined.

(** ** registerAndCreateContent *)

Lemma registerCreator_ok_inv (msg : Msg) (c : N) (u b : string) (x : unit)
    (s s' : CreatorProfile.State) :
  CreatorProfile.registerCreator msg c u b s = Ok (x, s') ->
  CreatorProfile.totalCreators s' = CreatorProfile.totalCreators s + 1.
Proof.
  intros H. destruct (validProfile u b) eqn:Hv.
  - destruct (CreatorProfile.isCreator s c) eqn:Hc.
    + rewrite registerCreator_taken in H by assumption. discriminate.
    + destruct (Z.ltb_spec (CreatorProfile.totalCreators s) MAX_UINT256).
      * rewrite registerCreator_fresh in H by assumption. inversion H.
        reflexivity.
      * rewrite registerCreator_overflow in H by assumption. discriminate.
  - destruct (registerCreator_invalid msg c u b s Hv) as [e [He _]].
    rewrite He in H. discriminate.
Qed.

Lemma updateCreator_ok_inv (msg : Msg) (u b : string) (x : unit)
    (s s' : CreatorProfile.State) :
  CreatorProfile.updateCreator msg u b s = Ok (x, s') ->
  CreatorProfile.totalCreators s' = CreatorProfile.totalCreators s.
Proof.
  unfold CreatorProfile.updateCreator, CreatorProfile.emit. unfold_monad. cbv beta.
  destruct (CreatorProfile.isActive _); [| discriminate]. simpl.
  destruct (0 <? String.length u)%nat; [| discriminate]. simpl.
  destruct (String.length u <=? 50)%nat; [| discriminate]. simpl.
  destruct (String.length b <=? 500)%nat; [| discriminate]. simpl.
  intros [= <- <-]. reflexivity.
Qed.

(** A transaction registers at most one creator. *)
Lemma totalCreators_step (E : Env) (w : World) (op : Op) :
  CreatorProfile.totalCreators (GlamoraHub.profile (snd (step E w op)))
  <= CreatorProfile.totalCreators (GlamoraHub.profile w) + 1.
Proof.
  destruct op; unfold step, exec, transact;
    unfold GlamoraHub.registerCreator, GlamoraHub.createContent,
      GlamoraHub.registerAndCreateContent, GlamoraHub.purchaseContent,
      GlamoraHub.atProfile, GlamoraHub.atPayment, GlamoraHub.atPaymentFunded,
      GlamoraHub.atBalances, GlamoraHub.atHub;
    unfold_monad; cbv beta;
    repeat (case_call; simpl);
    repeat match goal with
           | H : CreatorProfile.registerCreator _ _ _ _ _ = Ok _ |- _ =>
               apply registerCreator_ok_inv in H
           | H : CreatorProfile.updateCreator _ _ _ _ = Ok _ |- _ =>
               apply updateCreator_ok_inv in H
           end;
    lia.
Qed.

Lemma totalCreators_run (E : Env) (ops : list Op) (w : World) :
  CreatorProfile.totalCreators (GlamoraHub.profile (run E ops w))
  <= CreatorProfile.totalCreators (GlamoraHub.profile w) + Z.of_nat (length ops).
Proof.
  revert w. induction ops as [| op rest IH]; intros w; simpl length; simpl run.
  - lia.
  - specialize (IH (snd (step E w op))). pose proof (totalCreators_step E w op). lia.
Qed.

(** Whatever the creator counter, the call fails and nothing is kept. *)
Lemma registerAndCreateContent_rejected (E : Env) (w : World) (msg : Msg)
    (u b t h : string) (p : Z) :
  GlamoraHub.isCreator w (sender msg) = false ->
  validContent t h p = false ->
  exists e, step E w (HubRegisterAndCreateContent msg u b t h p) = (Err e, w)
            /\ (CreatorProfile.totalCreators (GlamoraHub.profile w) < MAX_UINT256 ->
                kindOf e = Some InvalidInput).
Proof.
  intros Hc Hv.
  unfold step, exec, transact, GlamoraHub.registerAndCreateContent,
    GlamoraHub.atProfile, GlamoraHub.atPayment, GlamoraHub.atHub.
  unfold_monad. cbv beta. unfold GlamoraHub.isCreator in Hc. rewrite Hc. simpl.
  destruct (validProfile u b) eqn:Hu.
  - destruct (Z.ltb_spec (CreatorProfile.totalCreators (GlamoraHub.profile w))
                MAX_UINT256) as [Hn | Hn].
    + rewrite registerCreator_fresh by assumption. simpl.
      destruct (createContent_invalid (GlamoraHub.asHub E msg) (sender msg) t h p
                  (GlamoraHub.payment w) Hv) as [e [He Hk]].
      rewrite He. exists e. auto.
    + rewrite registerCreator_overflow by assumption.
      exists (Panic 17). split; [reflexivity | lia].
  - destruct (registerCreator_invalid (GlamoraHub.asHub E msg) (sender msg) u b
                (GlamoraHub.profile w) Hu) as [e [He Hk]].
    rewrite He. exists e. auto.
Qed.

(** C4. When an unregistered identity calls [registerAndCreateContent] with
    a content part that fails validation (an empty title, an empty content
    reference or a price that is not positive), the whole call fails with
    an [InvalidInput] and the state is exactly what it was: the identity is
    still unregistered, although with a valid profile part the registration
    had been performed inside the call before the content creation failed.
    (The creator counter is below its maximum: it grows by at most one per
    transaction, [totalCreators_run].) *)
Theorem registerAndCreateContent_is_atomic (E : Env) (w : World) (msg : Msg)
    (u b t h : string) (p : Z) :
  let outcome := step E w (HubRegisterAndCreateContent msg u b t h p) in
  GlamoraHub.isCreator w (sender msg) = false ->
  validContent t h p = false ->
  CreatorProfile.totalCreators (GlamoraHub.profile w) < MAX_UINT256 ->
  (exists e, outcome = (Err e, w) /\ kindOf e = Some InvalidInput)
  /\ GlamoraHub.isCreator (snd outcome) (sender msg) = false
  /\ (validProfile u b = true ->
      exists w1,
        GlamoraHub.atProfile
          (CreatorProfile.registerCreator (GlamoraHub.asHub E msg) (sender msg) u b) w
        = Ok (tt, w1)
        /\ GlamoraHub.isCreator w1 (sender msg) = true
        /\ exists e, GlamoraHub.atPayment
                       (ContentPayment.createContent (GlamoraHub.asHub E msg)
                          (sender msg) t h p) w1 = Err e).
Proof.
  intros outcome Hc Hv Hn.
  destruct (registerAndCreateContent_rejected E w msg u b t h p Hc Hv) as [e [He Hk]].
  fold outcome in He. split; [exists e; auto |]. split.
  - rewrite He. exact Hc.
  - intros Hu. unfold GlamoraHub.atProfile, GlamoraHub.atPayment. unfold_monad.
    rewrite registerCreator_fresh by assumption. eexists. split; [reflexivity |].
    split.
    + unfold GlamoraHub.isCreator, CreatorProfile.isCreator, CreatorProfile.creatorOf.
      simpl. rewrite lookup_insert_eq. reflexivity.
    + simpl.
      destruct (createContent_invalid (GlamoraHub.asHub E msg) (sender msg) t h p
                  (GlamoraHub.payment w) Hv) as [e' [He' _]].
      rewrite He'. eauto.
Qed.

Lemma registerAndCreateContent_is_atomic_witness :
  GlamoraHub.isCreator Demo.fresh (sender (Demo.at_ Demo.alice)) = false
  /\ validContent "" "ref1" 100 = false
  /\ CreatorProfile.totalCreators (GlamoraHub.profile Demo.fresh) < MAX_UINT256
  /\ (exists e,
        step Demo.E Demo.fresh
          (HubRegisterAndCreateContent (Demo.at_ Demo.alice) "Alice" "Fashion creator"
             "" "ref1" 100) = (Err e, Demo.fresh)
        /\ kindOf e = Some InvalidInput)
  /\ GlamoraHub.isCreator
       (snd (step Demo.E Demo.fresh
               (HubRegisterAndCreateContent (Demo.at_ Demo.alice) "Alice"
                  "Fashion creator" "" "ref1" 100)))
       (sender (Demo.at_ Demo.alice)) = false.
Proof.
  split; [reflexivity |]. split; [reflexivity |]. split; [reflexivity |].
  pose proof (registerAndCreateContent_is_atomic Demo.E Demo.fresh (Demo.at_ Demo.alice)
                "Alice" "Fashion creator" "" "ref1" 100 eq_refl eq_refl eq_refl)
    as (Hfail & Hstill & _).
  split; [exact Hfail | exact Hstill].
Defined.

(** ** What a transaction does to the ledger *)

Lemma step_effect (E : Env) (w : World) (op : Op) :
  LedgerEffect E (GlamoraHub.payment w) op (fst (step E w op))
    (GlamoraHub.payment (snd (step E w op))).
Proof.
  destruct op; unfold step, exec, transact.
  - (* CreatorProfile.registerCreator *)
    unfold GlamoraHub.atProfile. unfold_monad.
    destruct (CreatorProfile.registerCreator msg _creator _username _bio _)
      as [[[] s'] | e]; simpl; apply Untouched; try discriminate; auto.
  - unfold GlamoraHub.atProfile. unfold_monad.
    destruct (CreatorProfile.updateCreator msg _username _bio _)
      as [[[] s'] | e]; simpl; apply Untouched; try discriminate; auto.
  - (* ContentPayment.createContent *)
    unfold GlamoraHub.atPayment. unfold_monad.
    destruct (ContentPayment.createContent msg _creator _title _contentHash _price _)
      as [[i s'] | e] eqn:H; simpl.
    + eapply Created; [exact H | reflexivity].
    + apply Untouched; try discriminate; auto.
  - (* ContentPayment.purchaseContent *)
    unfold GlamoraHub.atPaymentFunded. unfold_monad.
    destruct (ContentPayment.purchaseContent E msg value _buyer _contentId _)
      as [[[] f'] | e] eqn:H; simpl.
    + eapply Purchased; [exact H | reflexivity].
    + apply Untouched; [discriminate | eauto].
  - unfold GlamoraHub.atPayment. unfold_monad.
    destruct (ContentPayment.updateContentPrice msg _contentId _newPrice _)
      as [[[] s'] | e] eqn:H; simpl.
    + eapply Repriced; [exact H | reflexivity].
    + apply Untouched; try discriminate; auto.
  - unfold GlamoraHub.atPayment. unfold_monad.
    destruct (ContentPayment.deactivateContent msg _contentId _)
      as [[[] s'] | e] eqn:H; simpl.
    + eapply Deactivated; [exact H | reflexivity].
    + apply Untouched; try discriminate; auto.
  - (* GlamoraHub.registerCreator *)
    unfold GlamoraHub.registerCreator, GlamoraHub.atProfile. unfold_monad.
    destruct (CreatorProfile.registerCreator _ _ username bio _)
      as [[[] s'] | e]; simpl; apply Untouched; try discriminate; auto.
  - (* GlamoraHub.createContent *)
    unfold GlamoraHub.createContent, GlamoraHub.atPayment. unfold_monad. cbv beta.
    destruct (CreatorProfile.isCreator _ _); simpl;
      [| apply Untouched; try discriminate; auto].
    destruct (ContentPayment.createContent _ _ title contentHash price _)
      as [[i s'] | e] eqn:H; simpl.
    + eapply Created; [exact H | reflexivity].
    + apply Untouched; try discriminate; auto.
  - (* GlamoraHub.registerAndCreateContent *)
    unfold GlamoraHub.registerAndCreateContent, GlamoraHub.atPayment,
      GlamoraHub.atProfile, GlamoraHub.atHub.
    unfold_monad. cbv beta.
    destruct (CreatorProfile.isCreator _ _); simpl.
    + destruct (ContentPayment.createContent _ _ title contentHash price _)
        as [[i s'] | e] eqn:H; simpl.
      * eapply Created; [exact H | reflexivity].
      * apply Untouched; try discriminate; auto.
    + destruct (CreatorProfile.registerCreator _ _ username bio _)
        as [[[] p'] | e]; simpl; [| apply Untouched; try discriminate; auto].
      destruct (ContentPayment.createContent _ _ title contentHash price _)
        as [[i s'] | e] eqn:H; simpl.
      * eapply Created; [exact H | reflexivity].
      * apply Untouched; try discriminate; auto.
  - (* GlamoraHub.purchaseContent *)
    unfold GlamoraHub.purchaseContent, GlamoraHub.atPaymentFunded,
      GlamoraHub.atBalances, pay.
    unfold_monad. cbv beta.
    destruct (funded _ _ _); simpl; [| apply Untouched; [discriminate | eauto]].
    destruct (ContentPayment.purchaseContent E _ value _ contentId _)
      as [[[] f'] | e] eqn:H; simpl.
    + eapply Purchased; [exact H | reflexivity].
    + apply Untouched; [discriminate | eauto].
  - unfold GlamoraHub.atHub. unfold_monad.
    destruct (GlamoraHub.updatePlatformFee msg _newFee _)
      as [[[] s'] | e]; simpl; apply Untouched; try discriminate; auto.
  - unfold GlamoraHub.atBalances. unfold_monad.
    destruct (transfer E src dst v _)
      as [[[] s'] | e]; simpl; apply Untouched; try discriminate; auto.
Qed.

Lemma createContent_ok_inv (msg : Msg) (c : N) (t h : string) (p id : Z)
    (s s' : ContentPayment.State) :
  ContentPayment.createContent msg c t h p s = Ok (id, s') ->
  id = ContentPayment.nextContentId s
  /\ ContentPayment.nextContentId s < MAX_UINT256
  /\ ContentPayment.nextContentId s' = ContentPayment.nextContentId s + 1
  /\ ContentPayment.totalRevenue s' = ContentPayment.totalRevenue s
  /\ ContentPayment.userAccess s' = ContentPayment.userAccess s
  /\ exists rec, ContentPayment.contents s'
                 = <[ContentPayment.nextContentId s := rec]> (ContentPayment.contents s)
                 /\ ContentPayment.creator rec = c.
Proof.
  intros H. destruct (validContent t h p) eqn:Hv.
  - destruct (Z.ltb_spec (ContentPayment.nextContentId s) MAX_UINT256) as [Hn | Hn].
    + rewrite createContent_valid in H by assumption. injection H as <- <-.
      simpl. repeat split; try assumption. eexists. split; reflexivity.
    + rewrite createContent_overflow in H by assumption. discriminate.
  - destruct (createContent_invalid msg c t h p s Hv) as [e [He _]].
    rewrite He in H. discriminate.
Qed.

Lemma updateContentPrice_ok_inv (msg : Msg) (id p : Z) (u : unit)
    (s s' : ContentPayment.State) :
  ContentPayment.updateContentPrice msg id p s = Ok (u, s') ->
  ContentPayment.isActive (ContentPayment.contentOf s id) = true
  /\ ContentPayment.nextContentId s' = ContentPayment.nextContentId s
  /\ ContentPayment.totalRevenue s' = ContentPayment.totalRevenue s
  /\ ContentPayment.userAccess s' = ContentPayment.userAccess s
  /\ exists rec, ContentPayment.contents s' = <[id := rec]> (ContentPayment.contents s)
                 /\ ContentPayment.creator rec
                    = ContentPayment.creator (ContentPayment.contentOf s id).
Proof.
  unfold ContentPayment.updateContentPrice, ContentPayment.emit. unfold_monad.
  cbv beta.
  destruct (ContentPayment.isActive (ContentPayment.contentOf s id)); [| discriminate].
  simpl.
  destruct (ContentPayment.creator (ContentPayment.contentOf s id) =? sender msg)%N;
    [| discriminate].
  simpl. destruct (0 <? p); [| discriminate]. simpl. intros [= <- <-]. simpl.
  repeat split. eexists. split; reflexivity.
Qed.

Lemma deactivateContent_ok_inv (msg : Msg) (id : Z) (u : unit)
    (s s' : ContentPayment.State) :
  ContentPayment.deactivateContent msg id s = Ok (u, s') ->
  ContentPayment.isActive (ContentPayment.contentOf s id) = true
  /\ ContentPayment.creator (ContentPayment.contentOf s id) = sender msg
  /\ ContentPayment.nextContentId s' = ContentPayment.nextContentId s
  /\ ContentPayment.totalRevenue s' = ContentPayment.totalRevenue s
  /\ ContentPayment.userAccess s' = ContentPayment.userAccess s
  /\ exists rec, ContentPayment.contents s' = <[id := rec]> (ContentPayment.contents s)
                 /\ ContentPayment.creator rec
                    = ContentPayment.creator (ContentPayment.contentOf s id)
                 /\ ContentPayment.isActive rec = false.
Proof.
  unfold ContentPayment.deactivateContent. unfold_monad. cbv beta.
  destruct (ContentPayment.isActive (ContentPayment.contentOf s id)); [| discriminate].
  simpl.
  destruct (N.eqb_spec (ContentPayment.creator (ContentPayment.contentOf s id))
              (sender msg)); [| discriminate].
  simpl. intros [= <- <-]. simpl.
  repeat split; try assumption. eexists. repeat split; reflexivity.
Qed.

(** ** Revenue *)

Lemma effect_revenue (E : Env) (s s' : ContentPayment.State) (op : Op)
    (r : Result (option Z)) :
  LedgerEffect E s op r s' ->
  ContentPayment.totalRevenue s'
  = ContentPayment.totalRevenue s
    + match purchasedId op, r with
      | Some id, Ok _ => ContentPayment.price (ContentPayment.contentOf s id)
      | _, _ => 0
      end.
Proof.
  intros H. destruct H as [op r Hr Hp | op msg c t h p id s' H Hp
                          | op msg v buyer id b f' H Hp
                          | op msg id p s' H Hp | op msg id s' H Hp].
  - destruct Hp as [-> | [e ->]]; [lia |]. destruct (purchasedId op); lia.
  - rewrite Hp. apply createContent_ok_inv in H as (_ & _ & _ & -> & _). lia.
  - rewrite Hp. apply purchaseContent_ok_inv in H as (_ & _ & -> & _). reflexivity.
  - rewrite Hp. apply updateContentPrice_ok_inv in H as (_ & _ & -> & _). lia.
  - rewrite Hp. apply deactivateContent_ok_inv in H as (_ & _ & _ & -> & _). lia.
Qed.

Lemma revenue_of_history (E : Env) (ops : list Op) (w : World) :
  ContentPayment.totalRevenue (GlamoraHub.payment (run E ops w))
  = ContentPayment.totalRevenue (GlamoraHub.payment w) + sumZ (salePrices E ops w).
Proof.
  revert w. induction ops as [| op rest IH]; intros w; simpl.
  - unfold sumZ. simpl. lia.
  - rewrite IH. rewrite (effect_revenue E _ _ op _ (step_effect E w op)).
    destruct (purchasedId op) as [id |]; [| lia].
    destruct (fst (step E w op)); unfold sumZ; simpl; lia.
Qed.

Lemma updateContentPrice_keeps_revenue (E : Env) (w : World) (msg : Msg) (id p : Z) :
  ContentPayment.totalRevenue
    (GlamoraHub.payment (snd (step E w (PaymentUpdateContentPrice msg id p))))
  = ContentPayment.totalRevenue (GlamoraHub.payment w).
Proof.
  rewrite (effect_revenue E _ _ _ _ (step_effect E w _)). simpl. lia.
Qed.

Lemma updateContentPrice_sets_price (E : Env) (w : World) (msg : Msg) (id p : Z) :
  fst (step E w (PaymentUpdateContentPrice msg id p)) = Ok None ->
  ContentPayment.price
    (ContentPayment.contentOf
       (GlamoraHub.payment (snd (step E w (PaymentUpdateContentPrice msg id p)))) id)
  = p.
Proof.
  unfold step, exec, transact, GlamoraHub.atPayment,
    ContentPayment.updateContentPrice, ContentPayment.emit.
  unfold_monad. cbv beta.
  repeat (case_call; simpl); try discriminate.
  intros _. unfold ContentPayment.contentOf. simpl. rewrite lookup_insert_eq.
  reflexivity.
Qed.

(** C6. After every history of transactions from deployment,
    [totalRevenue] is the sum, over the successful purchases of the
    history, of the price the purchased content had in the state the
    purchase ran in. An [updateContentPrice] that follows leaves
    [totalRevenue] as it is; when it succeeds the new price is what a
    later purchase reads; and whatever happens later, [totalRevenue] is
    what it was before the update plus the sale prices of the later
    purchases: the earlier sales keep counting at the price they ran at. *)
Theorem revenue_is_the_sum_of_sale_prices (E : Env) (deployer : Msg)
    (b : gmap N Z) (ops : list Op) :
  let w := run E ops (GlamoraHub.constructor E deployer b) in
  ContentPayment.totalRevenue (GlamoraHub.payment w)
  = sumZ (salePrices E ops (GlamoraHub.constructor E deployer b))
  /\ (forall (msg : Msg) (id p : Z) (later : list Op),
        let w' := snd (step E w (PaymentUpdateContentPrice msg id p)) in
        ContentPayment.totalRevenue (GlamoraHub.payment w')
        = ContentPayment.totalRevenue (GlamoraHub.payment w)
        /\ (fst (step E w (PaymentUpdateContentPrice msg id p)) = Ok None ->
            ContentPayment.price (ContentPayment.contentOf (GlamoraHub.payment w') id)
            = p)
        /\ ContentPayment.totalRevenue (GlamoraHub.payment (run E later w'))
           = ContentPayment.totalRevenue (GlamoraHub.payment w)
             + sumZ (salePrices E later w')).
Proof.
  intros w. split.
  - unfold w. rewrite revenue_of_history. reflexivity.
  - intros msg id p later w'. split; [| split].
    + apply updateContentPrice_keeps_revenue.
    + apply updateContentPrice_sets_price.
    + rewrite revenue_of_history. unfold w'.
      rewrite updateContentPrice_keeps_revenue. reflexivity.
Qed.

Lemma revenue_is_the_sum_of_sale_prices_witness :
  ContentPayment.totalRevenue (GlamoraHub.payment Demo.sold) = 100
  /\ fst (step Demo.E Demo.sold (PaymentUpdateContentPrice (Demo.at_ Demo.alice) 1 250))
     = Ok None
  /\ ContentPayment.price
       (ContentPayment.contentOf
          (GlamoraHub.payment
             (snd (step Demo.E Demo.sold
                     (PaymentUpdateContentPrice (Demo.at_ Demo.alice) 1 250)))) 1)
     = 250
  /\ ContentPayment.totalRevenue
       (GlamoraHub.payment
          (run Demo.E [HubPurchaseContent (Demo.at_ Demo.carol) 250 1]
             (snd (step Demo.E Demo.sold
                     (PaymentUpdateContentPrice (Demo.at_ Demo.alice) 1 250)))))
     = 100 + sumZ [250].
Proof.
  pose proof (revenue_is_the_sum_of_sale_prices Demo.E (Demo.at_ Demo.deployer)
                Demo.purse
                [HubRegisterCreator (Demo.at_ Demo.alice) "Alice" "Fashion creator";
                 HubCreateContent (Demo.at_ Demo.alice) "Tutorial" "ref1" 100;
                 HubPurchaseContent (Demo.at_ Demo.bob) 100 1])
    as [Hsum Hupdate].
  split; [exact Hsum |]. split; [reflexivity |].
  destruct (Hupdate (Demo.at_ Demo.alice) 1 250
              [HubPurchaseContent (Demo.at_ Demo.carol) 250 1])
    as (_ & Hprice & Hlater).
  split; [exact (Hprice eq_refl) | exact Hlater].
Defined.

Example revenue_keeps_old_prices :
  let history :=
    [HubPurchaseContent (Demo.at_ Demo.bob) 100 1;
     PaymentUpdateContentPrice (Demo.at_ Demo.alice) 1 250;
     HubPurchaseContent (Demo.at_ Demo.carol) 250 1] in
  salePrices Demo.E history Demo.listed = [100; 250]
  /\ ContentPayment.totalRevenue (GlamoraHub.payment (run Demo.E history Demo.listed))
     = 350.
Proof. split; reflexivity. Qed.

(** ** Content ids *)

Lemma effect_ids (E : Env) (s s' : ContentPayment.State) (op : Op)
    (r : Result (option Z)) :
  LedgerEffect E s op r s' ->
  match r with
  | Ok (Some id) =>
      id = ContentPayment.nextContentId s
      /\ ContentPayment.nextContentId s' = ContentPayment.nextContentId s + 1
  | _ => ContentPayment.nextContentId s' = ContentPayment.nextContentId s
  end.
Proof.
  intros H. destruct H as [op r Hr Hp | op msg c t h p id s' H Hp
                          | op msg v buyer id b f' H Hp
                          | op msg id p s' H Hp | op msg id s' H Hp].
  - destruct r as [[id |] | e]; [exfalso; apply (Hr id) |..]; reflexivity.
  - apply createContent_ok_inv in H as (-> & _ & -> & _). auto.
  - apply purchaseContent_ok_inv in H as (_ & _ & -> & _). reflexivity.
  - apply updateContentPrice_ok_inv in H as (_ & -> & _). reflexivity.
  - apply deactivateContent_ok_inv in H as (_ & _ & -> & _). reflexivity.
Qed.

Lemma createdIds_consecutive (E : Env) (ops : list Op) (w : World) :
  createdIds E ops w
  = seqZ (ContentPayment.nextContentId (GlamoraHub.payment w))
         (Z.of_nat (length (createdIds E ops w))).
Proof.
  revert w. induction ops as [| op rest IH]; intros w; simpl.
  - reflexivity.
  - pose proof (effect_ids E _ _ op _ (step_effect E w op)) as Hid.
    destruct (fst (step E w op)) as [[id |] | e].
    + destruct Hid as [-> Hnext]. simpl length.
      rewrite seqZ_cons by lia. f_equal.
      rewrite IH at 1. rewrite Hnext. f_equal; lia.
    + rewrite IH at 1. rewrite Hid. reflexivity.
    + rewrite IH at 1. rewrite Hid. reflexivity.
Qed.

Lemma seqZ_increasing (n : nat) (m : Z) : StronglySorted Z.lt (seqZ m (Z.of_nat n)).
Proof.
  revert m. induction n as [| n IH]; intros m.
  - rewrite seqZ_nil by lia. constructor.
  - rewrite seqZ_cons by lia. constructor.
    + replace (Z.pred (Z.of_nat (S n))) with (Z.of_nat n) by lia. apply IH.
    + apply Forall_seqZ. intros. lia.
Qed.

(** C7. Over every history of transactions from deployment, through the
    hub or directly on the ledger and whoever the creators are, the content
    ids returned by the successful creations are 1, 2, 3, ... in this
    order: a strictly increasing sequence that starts at 1 and never
    repeats an id, whatever else the history does in between, deactivation
    of a content included. *)
Theorem content_ids_count_up_from_one (E : Env) (deployer : Msg) (b : gmap N Z)
    (ops : list Op) :
  let ids := createdIds E ops (GlamoraHub.constructor E deployer b) in
  ids = seqZ 1 (Z.of_nat (length ids))
  /\ StronglySorted Z.lt ids
  /\ NoDup ids.
Proof.
  intros ids.
  assert (ids = seqZ 1 (Z.of_nat (length ids))) as H
    by apply createdIds_consecutive.
  split; [exact H |]. rewrite H. split; [apply seqZ_increasing | apply NoDup_seqZ].
Qed.

Example ids_survive_deactivation :
  createdIds Demo.E
    [HubRegisterAndCreateContent (Demo.at_ Demo.alice) "Alice" "bio" "T1" "r1" 100;
     PaymentDeactivateContent (Demo.at_ Demo.alice) 1;
     HubCreateContent (Demo.at_ Demo.bob) "T" "r" 5;
     PaymentCreateContent (Demo.at_ Demo.carol) Demo.bob "T2" "r2" 7;
     HubCreateContent (Demo.at_ Demo.alice) "T3" "r3" 9]
    Demo.fresh
  = [1; 2; 3].
Proof. reflexivity. Qed.

(** ** Access *)

Lemma contentOf_active_exists (s : ContentPayment.State) (id : Z) :
  ContentPayment.isActive (ContentPayment.contentOf s id) = true ->
  is_Some (ContentPayment.contents s !! id).
Proof.
  unfold ContentPayment.contentOf.
  destruct (ContentPayment.contents s !! id); [eauto | discriminate].
Qed.

(** Overwriting the record of an existing content with one of the same
    creator keeps the ids, the records' existence and their creators. *)
Lemma overwrite_keeps_contents (s s' : ContentPayment.State) (id : Z)
    (rec : ContentPayment.Content) :
  is_Some (ContentPayment.contents s !! id) ->
  ContentPayment.contents s' = <[id := rec]> (ContentPayment.contents s) ->
  ContentPayment.creator rec = ContentPayment.creator (ContentPayment.contentOf s id) ->
  ContentPayment.nextContentId s' = ContentPayment.nextContentId s ->
  idsBelowCounter s ->
  idsBelowCounter s'
  /\ (forall i, is_Some (ContentPayment.contents s !! i) ->
        is_Some (ContentPayment.contents s' !! i)
        /\ ContentPayment.creator (ContentPayment.contentOf s' i)
           = ContentPayment.creator (ContentPayment.contentOf s i)).
Proof.
  intros Hex Hc Hcr Hn Hinv.
  unfold idsBelowCounter, ContentPayment.contentOf in *. rewrite Hn, Hc. split.
  - intros i Hi. destruct (decide (id = i)) as [<- | Hne]; [auto |].
    rewrite lookup_insert_ne in Hi by assumption. auto.
  - intros i Hi. destruct (decide (id = i)) as [<- | Hne].
    + rewrite lookup_insert_eq. simpl. eauto.
    + rewrite lookup_insert_ne by assumption. auto.
Qed.

Lemma effect_access (E : Env) (s s' : ContentPayment.State) (op : Op)
    (r : Result (option Z)) :
  LedgerEffect E s op r s' ->
  idsBelowCounter s ->
  idsBelowCounter s'
  /\ (forall id, is_Some (ContentPayment.contents s !! id) ->
        is_Some (ContentPayment.contents s' !! id)
        /\ ContentPayment.creator (ContentPayment.contentOf s' id)
           = ContentPayment.creator (ContentPayment.contentOf s id))
  /\ (forall u id, ContentPayment.accessOf s u id = true ->
                   ContentPayment.accessOf s' u id = true).
Proof.
  intros H Hinv. destruct H as [op r Hr Hp | op msg c t h p id s' H Hp
                               | op msg v buyer id b f' H Hp
                               | op msg id p s' H Hp | op msg id s' H Hp].
  - auto.
  - (* a new record at the counter, above every existing one *)
    apply createContent_ok_inv in H as (_ & _ & Hn & _ & Ha & rec & Hc & _).
    unfold idsBelowCounter, ContentPayment.contentOf, ContentPayment.accessOf.
    rewrite Hn, Hc, Ha. split; [| split].
    + intros i Hi. destruct (decide (ContentPayment.nextContentId s = i)) as [<- | Hne].
      * lia.
      * rewrite lookup_insert_ne in Hi by assumption. apply Hinv in Hi. lia.
    + intros i Hi. pose proof (Hinv i Hi).
      rewrite lookup_insert_ne by lia. auto.
    + auto.
  - (* one more grant *)
    apply purchaseContent_ok_inv in H as (_ & _ & -> & _).
    unfold idsBelowCounter, ContentPayment.contentOf, ContentPayment.accessOf.
    simpl. split; [| split]; auto.
    intros u i Hu. destruct (decide ((buyer, id) = (u, i))) as [<- | Hne].
    + rewrite lookup_insert_eq. reflexivity.
    + rewrite lookup_insert_ne by assumption. exact Hu.
  - apply updateContentPrice_ok_inv in H as (Hact & Hn & _ & Ha & rec & Hc & Hcr).
    apply contentOf_active_exists in Hact.
    destruct (overwrite_keeps_contents s s' id rec Hact Hc Hcr Hn Hinv) as [Hinv' Hkeep].
    split; [exact Hinv' |]. split; [exact Hkeep |].
    unfold ContentPayment.accessOf. rewrite Ha. auto.
  - apply deactivateContent_ok_inv in H
      as (Hact & _ & Hn & _ & Ha & rec & Hc & Hcr & _).
    apply contentOf_active_exists in Hact.
    destruct (overwrite_keeps_contents s s' id rec Hact Hc Hcr Hn Hinv) as [Hinv' Hkeep].
    split; [exact Hinv' |]. split; [exact Hkeep |].
    unfold ContentPayment.accessOf. rewrite Ha. auto.
Qed.

Lemma idsBelowCounter_deployed (E : Env) (deployer : Msg) (b : gmap N Z) :
  idsBelowCounter (GlamoraHub.payment (GlamoraHub.constructor E deployer b)).
Proof.
  intros id [x Hx]. simpl in Hx. rewrite lookup_empty in Hx. discriminate.
Qed.

Lemma idsBelowCounter_run (E : Env) (ops : list Op) (w : World) :
  idsBelowCounter (GlamoraHub.payment w) ->
  idsBelowCounter (GlamoraHub.payment (run E ops w)).
Proof.
  revert w. induction ops as [| op rest IH]; intros w Hinv; simpl; [assumption |].
  apply IH. apply (effect_access E _ _ op _ (step_effect E w op) Hinv).
Qed.

Lemma run_keeps_access (E : Env) (ops : list Op) (w : World) (u : N) (id : Z) :
  idsBelowCounter (GlamoraHub.payment w) ->
  (is_Some (ContentPayment.contents (GlamoraHub.payment w) !! id) ->
   is_Some (ContentPayment.contents (GlamoraHub.payment (run E ops w)) !! id)
   /\ ContentPayment.creator (ContentPayment.contentOf (GlamoraHub.payment (run E ops w)) id)
      = ContentPayment.creator (ContentPayment.contentOf (GlamoraHub.payment w) id))
  /\ (ContentPayment.accessOf (GlamoraHub.payment w) u id = true ->
      ContentPayment.accessOf (GlamoraHub.payment (run E ops w)) u id = true).
Proof.
  revert w. induction ops as [| op rest IH]; intros w Hinv; simpl; [auto |].
  destruct (effect_access E _ _ op _ (step_effect E w op) Hinv) as (Hinv' & Hc & Ha).
  destruct (IH _ Hinv') as [IHc IHa]. split.
  - intros Hex. destruct (Hc id Hex) as [Hex' Hcr].
    destruct (IHc Hex') as [Hex'' Hcr']. split; [assumption | congruence].
  - auto.
Qed.

(** Access persists for a content that has a record and, on an id that has
    none, for every user but the zero address (whose access to a missing
    content, see [hasAccess_missing_zero], ends when the id is assigned). *)
Lemma hasAccess_persists (E : Env) (ops : list Op) (w : World) (u : N) (id : Z) :
  idsBelowCounter (GlamoraHub.payment w) ->
  is_Some (ContentPayment.contents (GlamoraHub.payment w) !! id) \/ u <> 0%N ->
  GlamoraHub.hasAccessToContent w u id = true ->
  GlamoraHub.hasAccessToContent (run E ops w) u id = true.
Proof.
  intros Hinv Hor. destruct (run_keeps_access E ops w u id Hinv) as [Hc Ha].
  unfold GlamoraHub.hasAccessToContent, ContentPayment.hasAccess.
  destruct (N.eqb_spec
              (ContentPayment.creator (ContentPayment.contentOf (GlamoraHub.payment w) id))
              u) as [Heq | Hne].
  - intros _.
    destruct (ContentPayment.contents (GlamoraHub.payment w) !! id) as [rec |] eqn:Hl.
    + destruct Hc as [_ Hcr]; [eauto |]. rewrite Hcr, Heq, N.eqb_refl. reflexivity.
    + destruct Hor as [[x Hx] | Hu]; [discriminate |].
      unfold ContentPayment.contentOf in Heq. rewrite Hl in Heq. simpl in Heq.
      congruence.
  - intros Hacc. rewrite (Ha Hacc). destruct (_ =? _)%N; reflexivity.
Qed.

(** C8. In every state reached from deployment, a user who has access to a
    content keeps it through every later history of transactions: no
    transaction removes a grant or changes the creator of a content. In
    particular, once the owning creator has deactivated the content,
    [getContent] fails with "Content not found" ([NotFound]) and the user
    still has access, then and ever after. *)
Theorem access_is_never_revoked (E : Env) (deployer : Msg) (b : gmap N Z)
    (before : list Op) (u : N) (c : Z) :
  let w := run E before (GlamoraHub.constructor E deployer b) in
  is_Some (ContentPayment.contents (GlamoraHub.payment w) !! c) ->
  GlamoraHub.hasAccessToContent w u c = true ->
  (forall after, GlamoraHub.hasAccessToContent (run E after w) u c = true)
  /\ (forall msg w',
        step E w (PaymentDeactivateContent msg c) = (Ok None, w') ->
        ContentPayment.getContent c (GlamoraHub.payment w')
        = Err (Revert "Content not found")
        /\ kindOf (Revert "Content not found") = Some NotFound
        /\ GlamoraHub.hasAccessToContent w' u c = true
        /\ forall after, GlamoraHub.hasAccessToContent (run E after w') u c = true).
Proof.
  intros w Hex Hacc.
  assert (idsBelowCounter (GlamoraHub.payment w)) as Hinv
    by (apply idsBelowCounter_run, idsBelowCounter_deployed).
  assert (forall after, GlamoraHub.hasAccessToContent (run E after w) u c = true)
    as Hall by (intros after; apply hasAccess_persists; auto).
  split; [exact Hall |].
  intros msg w' Hstep.
  assert (w' = run E [PaymentDeactivateContent msg c] w) as Hw'
    by (simpl; rewrite Hstep; reflexivity).
  split; [| split; [reflexivity | split]].
  - unfold step, exec, transact, GlamoraHub.atPayment in Hstep. unfold_monad.
    destruct (ContentPayment.deactivateContent msg c (GlamoraHub.payment w))
      as [[[] s'] | e] eqn:Hd; [| discriminate].
    injection Hstep as <-. simpl.
    apply deactivateContent_ok_inv in Hd as (_ & _ & _ & _ & _ & rec & Hc & _ & Hoff).
    unfold ContentPayment.getContent, ContentPayment.contentOf. unfold_monad.
    cbv beta. rewrite Hc, lookup_insert_eq. simpl. rewrite Hoff. reflexivity.
  - rewrite Hw'. apply Hall.
  - intros after. rewrite Hw'. apply (Hall (PaymentDeactivateContent msg c :: after)).
Qed.

Lemma access_is_never_revoked_witness :
  is_Some (ContentPayment.contents (GlamoraHub.payment Demo.sold) !! 1)
  /\ GlamoraHub.hasAccessToContent Demo.sold Demo.bob 1 = true
  /\ step Demo.E Demo.sold (PaymentDeactivateContent (Demo.at_ Demo.alice) 1)
     = (Ok None,
        snd (step Demo.E Demo.sold (PaymentDeactivateContent (Demo.at_ Demo.alice) 1)))
  /\ ContentPayment.getContent 1
       (GlamoraHub.payment
          (snd (step Demo.E Demo.sold
                  (PaymentDeactivateContent (Demo.at_ Demo.alice) 1))))
     = Err (Revert "Content not found")
  /\ GlamoraHub.hasAccessToContent
       (snd (step Demo.E Demo.sold (PaymentDeactivateContent (Demo.at_ Demo.alice) 1)))
       Demo.bob 1 = true.
Proof.
  assert (is_Some (ContentPayment.contents (GlamoraHub.payment Demo.sold) !! 1))
    as Hex by (eexists; reflexivity).
  split; [exact Hex |]. split; [reflexivity |]. split; [reflexivity |].
  pose proof (access_is_never_revoked Demo.E (Demo.at_ Demo.deployer) Demo.purse
                [HubRegisterCreator (Demo.at_ Demo.alice) "Alice" "Fashion creator";
                 HubCreateContent (Demo.at_ Demo.alice) "Tutorial" "ref1" 100;
                 HubPurchaseContent (Demo.at_ Demo.bob) 100 1]
                Demo.bob 1 Hex eq_refl) as [_ Hdeact].
  destruct (Hdeact (Demo.at_ Demo.alice) _ eq_refl) as (Hget & _ & Hacc & _).
  split; [exact Hget | exact Hacc].
Defined.

(** * Further properties of the contracts *)

(** ** What a transaction does to the registry *)

Lemma step_registry (E : Env) (w : World) (op : Op) :
  GlamoraHub.profile (snd (step E w op)) = GlamoraHub.profile w
  \/ exists call,
       registryCall E op = Some call
       /\ registryRun call (GlamoraHub.profile w)
          = Ok (tt, GlamoraHub.profile (snd (step E w op))).
Proof.
  destruct op; unfold step, exec, transact;
    unfold GlamoraHub.registerCreator, GlamoraHub.createContent,
      GlamoraHub.registerAndCreateContent, GlamoraHub.purchaseContent,
      GlamoraHub.atProfile, GlamoraHub.atPayment, GlamoraHub.atPaymentFunded,
      GlamoraHub.atBalances, GlamoraHub.atHub;
    unfold_monad; cbv beta;
    repeat (case_call; simpl); auto;
    right; eexists; (split; [reflexivity |]); simpl;
    match goal with
    | H : _ = Ok (?u, _) |- _ => destruct u; exact H
    end.
Qed.

Lemma step_ledger (E : Env) (w : World) (op : Op) :
  GlamoraHub.payment (snd (step E w op)) = GlamoraHub.payment w
  \/ exists call b,
       ledgerCall E op = Some call
       /\ ledgerRun E call (GlamoraHub.payment w) b
          = Some (GlamoraHub.payment (snd (step E w op))).
Proof.
  destruct op; unfold step, exec, transact;
    unfold GlamoraHub.registerCreator, GlamoraHub.createContent,
      GlamoraHub.registerAndCreateContent, GlamoraHub.purchaseContent,
      GlamoraHub.atProfile, GlamoraHub.atPayment, GlamoraHub.atPaymentFunded,
      GlamoraHub.atBalances, GlamoraHub.atHub, GlamoraHub.funds, pay;
    unfold_monad; cbv beta;
    repeat (case_call; simpl); auto;
    right; eexists; eexists; (split; [reflexivity |]); simpl;
    match goal with
    | H : ?call = Ok _ |- context [?call] => rewrite H; reflexivity
    | H : ContentPayment.purchaseContent _ _ _ _ _ _ = Ok _ |- _ =>
        erewrite H; reflexivity
    end.
  Unshelve. all: exact (GlamoraHub.balances w).
Qed.

(** ** The registry *)

Lemma registerCreator_ok_full_inv (msg : Msg) (c : N) (u b : string) (x : unit)
    (s s' : CreatorProfile.State) :
  CreatorProfile.registerCreator msg c u b s = Ok (x, s') ->
  validProfile u b = true
  /\ CreatorProfile.isCreator s c = false
  /\ CreatorProfile.totalCreators s < MAX_UINT256
  /\ s' = afterRegister msg c u b s.
Proof.
  intros H. destruct (validProfile u b) eqn:Hv.
  - destruct (CreatorProfile.isCreator s c) eqn:Hc.
    + rewrite registerCreator_taken in H by assumption. discriminate.
    + destruct (Z.ltb_spec (CreatorProfile.totalCreators s) MAX_UINT256).
      * rewrite registerCreator_fresh in H by assumption. inversion H. auto.
      * rewrite registerCreator_overflow in H by assumption. discriminate.
  - destruct (registerCreator_invalid msg c u b s Hv) as [e [He _]].
    rewrite He in H. discriminate.
Qed.

Lemma creatorOf_set_creator (s : CreatorProfile.State) (a : N)
    (c : CreatorProfile.Creator) :
  CreatorProfile.creatorOf (CreatorProfile.set_creator a c s) a = c.
Proof.
  unfold CreatorProfile.creatorOf, CreatorProfile.set_creator. simpl.
  rewrite lookup_insert_eq. reflexivity.
Qed.

Lemma updateCreator_registered (msg : Msg) (u b : string) (s : CreatorProfile.State) :
  CreatorProfile.isCreator s (sender msg) = true ->
  validProfile u b = true ->
  CreatorProfile.updateCreator msg u b s = Ok (tt, afterUpdate msg u b s).
Proof.
  unfold validProfile, CreatorProfile.updateCreator, CreatorProfile.isCreator,
    CreatorProfile.emit, afterUpdate.
  unfold_monad. cbv beta. intros Hc H.
  apply andb_prop in H as [H Hb]. apply andb_prop in H as [Hu1 Hu2].
  rewrite Hc. simpl. rewrite Hu1. simpl. rewrite Hu2. simpl. rewrite Hb. simpl.
  rewrite !creatorOf_set_creator. simpl. unfold CreatorProfile.set_creator. simpl.
  rewrite insert_insert_eq. reflexivity.
Qed.

Lemma updateCreator_invalid (msg : Msg) (u b : string) (s : CreatorProfile.State) :
  CreatorProfile.isCreator s (sender msg) = true ->
  validProfile u b = false ->
  exists e, CreatorProfile.updateCreator msg u b s = Err e
            /\ kindOf e = Some InvalidInput.
Proof.
  unfold validProfile, CreatorProfile.updateCreator, CreatorProfile.isCreator.
  unfold_monad. cbv beta. intros Hc H. rewrite Hc. simpl.
  destruct (0 <? String.length u)%nat; [| eexists; split; reflexivity].
  destruct (String.length u <=? 50)%nat; [| eexists; split; reflexivity].
  destruct (String.length b <=? 500)%nat; [discriminate | eexists; split; reflexivity].
Qed.

Lemma updateCreator_ok_full_inv (msg : Msg) (u b : string) (x : unit)
    (s s' : CreatorProfile.State) :
  CreatorProfile.updateCreator msg u b s = Ok (x, s') ->
  CreatorProfile.isCreator s (sender msg) = true
  /\ validProfile u b = true
  /\ s' = afterUpdate msg u b s.
Proof.
  intros H. destruct (CreatorProfile.isCreator s (sender msg)) eqn:Hc.
  - destruct (validProfile u b) eqn:Hv.
    + rewrite updateCreator_registered in H by assumption. inversion H. auto.
    + destruct (updateCreator_invalid msg u b s Hc Hv) as [e [He _]].
      rewrite He in H. discriminate.
  - rewrite updateCreator_unregistered in H by assumption. discriminate.
Qed.

Lemma creatorOf_insert (s : CreatorProfile.State) (a a' : N) (c : CreatorProfile.Creator)
    (n : Z) (ev : list CreatorProfile.Event) :
  CreatorProfile.creatorOf
    {| CreatorProfile.creators := <[a := c]> (CreatorProfile.creators s);
       CreatorProfile.totalCreators := n; CreatorProfile.events := ev |} a'
  = if decide (a = a') then c else CreatorProfile.creatorOf s a'.
Proof.
  unfold CreatorProfile.creatorOf. simpl. rewrite lookup_insert.
  destruct (decide (a = a')); reflexivity.
Qed.

(** X1. A first registration with a valid profile succeeds; the profile
    read back by [getCreator] is the one supplied, active, dated with the
    block and carrying the registered address; the creator count grows by
    one and no other address is affected. From then on every further
    registration of that address fails and changes nothing, with
    "Creator already registered" when its profile is valid. *)
Theorem register_then_get (msg : Msg) (c : N) (u b : string)
    (s : CreatorProfile.State) :
  validProfile u b = true ->
  CreatorProfile.isCreator s c = false ->
  CreatorProfile.totalCreators s < MAX_UINT256 ->
  exists s',
    transact (CreatorProfile.registerCreator msg c u b) s = (Ok tt, s')
    /\ CreatorProfile.getCreator c s'
       = Ok ({| CreatorProfile.username := u; CreatorProfile.bio := b;
                CreatorProfile.wallet := c;
                CreatorProfile.createdAt := timestamp msg;
                CreatorProfile.isActive := true |}, s')
    /\ CreatorProfile.totalCreators s' = CreatorProfile.totalCreators s + 1
    /\ (forall a, a <> c -> CreatorProfile.creatorOf s' a = CreatorProfile.creatorOf s a)
    /\ (forall msg2 u2 b2,
          exists e,
            transact (CreatorProfile.registerCreator msg2 c u2 b2) s' = (Err e, s')
            /\ (validProfile u2 b2 = true ->
                e = Revert "Creator already registered"
                /\ kindOf e = Some AlreadyRegistered)).
Proof.
  intros Hv Hc Hn. exists (afterRegister msg c u b s).
  assert (CreatorProfile.isCreator (afterRegister msg c u b s) c = true) as Hreg.
  { unfold CreatorProfile.isCreator, afterRegister. rewrite creatorOf_insert.
    destruct (decide (c = c)); [reflexivity | congruence]. }
  split; [| split; [| split; [| split]]].
  - unfold transact. rewrite registerCreator_fresh by assumption. reflexivity.
  - unfold CreatorProfile.getCreator. unfold_monad. cbv beta.
    unfold CreatorProfile.isCreator in Hreg. rewrite Hreg. simpl.
    unfold afterRegister. rewrite creatorOf_insert.
    destruct (decide (c = c)); [reflexivity | congruence].
  - reflexivity.
  - intros a Ha. unfold afterRegister. rewrite creatorOf_insert.
    destruct (decide (c = a)); [congruence | reflexivity].
  - intros msg2 u2 b2. unfold transact. destruct (validProfile u2 b2) eqn:Hv2.
    + rewrite registerCreator_taken by assumption. eexists. split; [reflexivity |].
      intros _. split; reflexivity.
    + destruct (registerCreator_invalid msg2 c u2 b2 (afterRegister msg c u b s) Hv2)
        as [e [He _]].
      rewrite He. exists e. split; [reflexivity | discriminate].
Qed.

Lemma register_then_get_witness :
  validProfile "Alice" "Fashion creator" = true
  /\ CreatorProfile.isCreator CreatorProfile.constructor Demo.alice = false
  /\ CreatorProfile.totalCreators CreatorProfile.constructor < MAX_UINT256
  /\ exists s',
       transact (CreatorProfile.registerCreator (Demo.at_ Demo.bob) Demo.alice
                   "Alice" "Fashion creator") CreatorProfile.constructor = (Ok tt, s')
       /\ CreatorProfile.totalCreators s' = 0 + 1.
Proof.
  split; [reflexivity |]. split; [reflexivity |]. split; [reflexivity |].
  destruct (register_then_get (Demo.at_ Demo.bob) Demo.alice "Alice" "Fashion creator"
              CreatorProfile.constructor eq_refl eq_refl eq_refl)
    as (s' & Hrun & _ & Hcount & _).
  exists s'. split; [exact Hrun | exact Hcount].
Defined.

(** X2. A registered creator who calls [updateCreator] with a valid profile
    succeeds: [getCreator] then returns the new username and bio with the
    address, the registration date and the active flag of before; the
    creator count and every other creator's record are as they were. *)
Theorem updateCreator_overwrites_profile (msg : Msg) (u b : string)
    (s : CreatorProfile.State) :
  CreatorProfile.isCreator s (sender msg) = true ->
  validProfile u b = true ->
  exists s',
    transact (CreatorProfile.updateCreator msg u b) s = (Ok tt, s')
    /\ CreatorProfile.getCreator (sender msg) s'
       = Ok ({| CreatorProfile.username := u; CreatorProfile.bio := b;
                CreatorProfile.wallet :=
                  CreatorProfile.wallet (CreatorProfile.creatorOf s (sender msg));
                CreatorProfile.createdAt :=
                  CreatorProfile.createdAt (CreatorProfile.creatorOf s (sender msg));
                CreatorProfile.isActive := true |}, s')
    /\ CreatorProfile.totalCreators s' = CreatorProfile.totalCreators s
    /\ (forall a, a <> sender msg ->
                  CreatorProfile.creatorOf s' a = CreatorProfile.creatorOf s a).
Proof.
  intros Hc Hv. exists (afterUpdate msg u b s).
  split; [| split; [| split]].
  - unfold transact. rewrite updateCreator_registered by assumption. reflexivity.
  - unfold CreatorProfile.getCreator, afterUpdate. unfold_monad. cbv beta.
    rewrite creatorOf_insert.
    destruct (decide (sender msg = sender msg)); [| congruence]. simpl.
    unfold CreatorProfile.isCreator in Hc. rewrite Hc. reflexivity.
  - reflexivity.
  - intros a Ha. unfold afterUpdate. rewrite creatorOf_insert.
    destruct (decide (sender msg = a)); [congruence | reflexivity].
Qed.

Lemma updateCreator_overwrites_profile_witness :
  CreatorProfile.isCreator (GlamoraHub.profile Demo.listed) (sender (Demo.at_ Demo.alice))
  = true
  /\ validProfile "Alice" "New bio" = true
  /\ exists s',
       transact (CreatorProfile.updateCreator (Demo.at_ Demo.alice) "Alice" "New bio")
         (GlamoraHub.profile Demo.listed) = (Ok tt, s')
       /\ CreatorProfile.totalCreators s'
          = CreatorProfile.totalCreators (GlamoraHub.profile Demo.listed).
Proof.
  split; [reflexivity |]. split; [reflexivity |].
  destruct (updateCreator_overwrites_profile (Demo.at_ Demo.alice) "Alice" "New bio"
              (GlamoraHub.profile Demo.listed) eq_refl eq_refl)
    as (s' & Hrun & _ & Hcount & _).
  exists s'. split; [exact Hrun | exact Hcount].
Defined.

(** X3. [updateCreator] checks the registration of the caller before it
    looks at the arguments: an unregistered caller is told
    "Creator not registered" whatever the profile, a registered one with an
    empty or over-long username or an over-long bio gets an [InvalidInput];
    either way the registry is unchanged. *)
Theorem updateCreator_rejects (msg : Msg) (u b : string) (s : CreatorProfile.State) :
  (CreatorProfile.isCreator s (sender msg) = false ->
   transact (CreatorProfile.updateCreator msg u b) s
   = (Err (Revert "Creator not registered"), s)
   /\ kindOf (Revert "Creator not registered") = Some NotRegistered)
  /\ (CreatorProfile.isCreator s (sender msg) = true ->
      validProfile u b = false ->
      exists e, transact (CreatorProfile.updateCreator msg u b) s = (Err e, s)
                /\ kindOf e = Some InvalidInput).
Proof.
  split.
  - intros Hc. unfold transact. rewrite updateCreator_unregistered by assumption.
    split; reflexivity.
  - intros Hc Hv. destruct (updateCreator_invalid msg u b s Hc Hv) as [e [He Hk]].
    exists e. unfold transact. rewrite He. auto.
Qed.

Lemma updateCreator_rejects_witness :
  CreatorProfile.isCreator CreatorProfile.constructor (sender (Demo.at_ Demo.bob)) = false
  /\ transact (CreatorProfile.updateCreator (Demo.at_ Demo.bob) "" "bio")
       CreatorProfile.constructor
     = (Err (Revert "Creator not registered"), CreatorProfile.constructor)
  /\ CreatorProfile.isCreator (GlamoraHub.profile Demo.listed)
       (sender (Demo.at_ Demo.alice)) = true
  /\ validProfile "" "bio" = false
  /\ exists e,
       transact (CreatorProfile.updateCreator (Demo.at_ Demo.alice) "" "bio")
         (GlamoraHub.profile Demo.listed) = (Err e, GlamoraHub.profile Demo.listed)
       /\ kindOf e = Some InvalidInput.
Proof.
  split; [reflexivity |].
  split; [apply (proj1 (updateCreator_rejects (Demo.at_ Demo.bob) "" "bio"
                          CreatorProfile.constructor)); reflexivity |].
  split; [reflexivity |]. split; [reflexivity |].
  apply (proj2 (updateCreator_rejects (Demo.at_ Demo.alice) "" "bio"
                  (GlamoraHub.profile Demo.listed))); reflexivity.
Defined.

(** ** The registry over histories *)

Lemma registryCall_update (E : Env) (op : Op) (msg : Msg) (u b : string) :
  registryCall E op = Some (UpdateCreatorCall msg u b) ->
  op = ProfileUpdateCreator msg u b.
Proof. destruct op; simpl; intros [=]; subst; reflexivity. Qed.

Lemma step_keeps_creator (E : Env) (w : World) (op : Op) (a : N) :
  CreatorProfile.isCreator (GlamoraHub.profile w) a = true ->
  CreatorProfile.isCreator (GlamoraHub.profile (snd (step E w op))) a = true
  /\ CreatorProfile.wallet
       (CreatorProfile.creatorOf (GlamoraHub.profile (snd (step E w op))) a)
     = CreatorProfile.wallet (CreatorProfile.creatorOf (GlamoraHub.profile w) a)
  /\ CreatorProfile.createdAt
       (CreatorProfile.creatorOf (GlamoraHub.profile (snd (step E w op))) a)
     = CreatorProfile.createdAt (CreatorProfile.creatorOf (GlamoraHub.profile w) a)
  /\ (updatesProfileOf a op = false ->
      CreatorProfile.creatorOf (GlamoraHub.profile (snd (step E w op))) a
      = CreatorProfile.creatorOf (GlamoraHub.profile w) a).
Proof.
  intros Ha.
  destruct (step_registry E w op) as [-> | (call & Hcall & Hrun)]; [auto |].
  destruct call as [msg c u b | msg u b]; simpl in Hrun.
  - apply registerCreator_ok_full_inv in Hrun as (_ & Hc & _ & ->).
    assert (c <> a) as Hne by (intros ->; congruence).
    unfold CreatorProfile.isCreator, afterRegister. rewrite !creatorOf_insert.
    destruct (decide (c = a)); [contradiction | auto].
  - apply registryCall_update in Hcall. subst op.
    apply updateCreator_ok_full_inv in Hrun as (_ & _ & ->).
    unfold CreatorProfile.isCreator, afterUpdate in *. rewrite !creatorOf_insert.
    simpl. destruct (decide (sender msg = a)) as [-> | Hne]; simpl.
    + repeat split; auto. rewrite N.eqb_refl. discriminate.
    + auto.
Qed.

(** X4. Registration is permanent: through every history of transactions a
    registered address stays registered, and the address and the
    registration date stored in its profile never change. *)
Theorem registration_is_permanent (E : Env) (ops : list Op) (w : World) (a : N) :
  GlamoraHub.isCreator w a = true ->
  GlamoraHub.isCreator (run E ops w) a = true
  /\ CreatorProfile.wallet (CreatorProfile.creatorOf (GlamoraHub.profile (run E ops w)) a)
     = CreatorProfile.wallet (CreatorProfile.creatorOf (GlamoraHub.profile w) a)
  /\ CreatorProfile.createdAt
       (CreatorProfile.creatorOf (GlamoraHub.profile (run E ops w)) a)
     = CreatorProfile.createdAt (CreatorProfile.creatorOf (GlamoraHub.profile w) a).
Proof.
  unfold GlamoraHub.isCreator. revert w.
  induction ops as [| op rest IH]; intros w Ha; simpl; [auto |].
  destruct (step_keeps_creator E w op a Ha) as (Ha' & Hw & Hd & _).
  destruct (IH _ Ha') as (IHa & IHw & IHd).
  split; [exact IHa |]. split; congruence.
Qed.

Lemma registration_is_permanent_witness :
  GlamoraHub.isCreator Demo.listed Demo.alice = true
  /\ GlamoraHub.isCreator
       (run Demo.E
          [HubRegisterCreator (Demo.at_ Demo.alice) "Alice2" "again";
           ProfileRegisterCreator (Demo.at_ Demo.bob) Demo.alice "Mallory" "";
           ProfileUpdateCreator (Demo.at_ Demo.alice) "Alicia" "New bio"]
          Demo.listed) Demo.alice = true.
Proof.
  split; [reflexivity |].
  apply (registration_is_permanent Demo.E _ Demo.listed Demo.alice). reflexivity.
Defined.

(** X5. Only its owner changes a profile: through every history that
    contains no [updateCreator] transaction sent by a registered address,
    the record of that address is what it was, whatever registrations,
    updates by others and hub calls the history contains. *)
Theorem profile_changes_only_by_owner (E : Env) (ops : list Op) (w : World) (a : N) :
  GlamoraHub.isCreator w a = true ->
  Forall (fun op => updatesProfileOf a op = false) ops ->
  CreatorProfile.creatorOf (GlamoraHub.profile (run E ops w)) a
  = CreatorProfile.creatorOf (GlamoraHub.profile w) a.
Proof.
  unfold GlamoraHub.isCreator. revert w.
  induction ops as [| op rest IH]; intros w Ha Hops; simpl; [reflexivity |].
  inversion Hops as [| ? ? Hop Hrest]; subst.
  destruct (step_keeps_creator E w op a Ha) as (Ha' & _ & _ & Hsame).
  rewrite (IH _ Ha' Hrest). auto.
Qed.

Lemma profile_changes_only_by_owner_witness :
  GlamoraHub.isCreator Demo.listed Demo.alice = true
  /\ Forall (fun op => updatesProfileOf Demo.alice op = false)
       [ProfileRegisterCreator (Demo.at_ Demo.bob) Demo.alice "Mallory" "";
        HubRegisterAndCreateContent (Demo.at_ Demo.alice) "Other" "" "T2" "r2" 5;
        ProfileUpdateCreator (Demo.at_ Demo.bob) "Bob" ""]
  /\ CreatorProfile.creatorOf
       (GlamoraHub.profile
          (run Demo.E
             [ProfileRegisterCreator (Demo.at_ Demo.bob) Demo.alice "Mallory" "";
              HubRegisterAndCreateContent (Demo.at_ Demo.alice) "Other" "" "T2" "r2" 5;
              ProfileUpdateCreator (Demo.at_ Demo.bob) "Bob" ""]
             Demo.listed)) Demo.alice
     = CreatorProfile.creatorOf (GlamoraHub.profile Demo.listed) Demo.alice.
Proof.
  assert (Forall (fun op => updatesProfileOf Demo.alice op = false)
            [ProfileRegisterCreator (Demo.at_ Demo.bob) Demo.alice "Mallory" "";
             HubRegisterAndCreateContent (Demo.at_ Demo.alice) "Other" "" "T2" "r2" 5;
             ProfileUpdateCreator (Demo.at_ Demo.bob) "Bob" ""]) as Hops
    by (repeat constructor).
  split; [reflexivity |]. split; [exact Hops |].
  apply (profile_changes_only_by_owner Demo.E _ Demo.listed Demo.alice eq_refl Hops).
Defined.

Lemma isCreator_lookup (s : CreatorProfile.State) (a : N) :
  CreatorProfile.isCreator s a = true ->
  exists c, CreatorProfile.creators s !! a = Some c /\ CreatorProfile.isActive c = true.
Proof.
  unfold CreatorProfile.isCreator, CreatorProfile.creatorOf.
  destruct (CreatorProfile.creators s !! a) as [c |]; simpl; [eauto | discriminate].
Qed.

Lemma registryOk_lookup (s : CreatorProfile.State) (a : N) :
  registryOk s ->
  CreatorProfile.isCreator s a = false ->
  CreatorProfile.creators s !! a = None.
Proof.
  intros [_ Hrec] Ha. unfold CreatorProfile.isCreator, CreatorProfile.creatorOf in Ha.
  destruct (CreatorProfile.creators s !! a) as [c |] eqn:Hl; [| reflexivity].
  destruct (Hrec a c Hl) as [Hact _]. simpl in Ha. congruence.
Qed.

Lemma registryOk_step (E : Env) (w : World) (op : Op) :
  registryOk (GlamoraHub.profile w) ->
  registryOk (GlamoraHub.profile (snd (step E w op))).
Proof.
  intros Hok.
  destruct (step_registry E w op) as [-> | (call & _ & Hrun)]; [assumption |].
  pose proof Hok as [Hsize Hrec].
  destruct call as [msg c u b | msg u b]; simpl in Hrun.
  - apply registerCreator_ok_full_inv in Hrun as (Hv & Hc & _ & ->).
    pose proof (registryOk_lookup _ _ Hok Hc) as Hnone.
    split; simpl.
    + rewrite map_size_insert_None by assumption. lia.
    + intros a rec Ha. destruct (decide (c = a)) as [<- | Hne].
      * rewrite lookup_insert_eq in Ha. injection Ha as <-. simpl. auto.
      * rewrite lookup_insert_ne in Ha by assumption. eauto.
  - apply updateCreator_ok_full_inv in Hrun as (Hc & Hv & ->).
    destruct (isCreator_lookup _ _ Hc) as (old & Hold & Hact).
    destruct (Hrec _ _ Hold) as (_ & Hwallet & _).
    split; simpl.
    + rewrite map_size_insert_Some by eauto. assumption.
    + intros a rec Ha. destruct (decide (sender msg = a)) as [<- | Hne].
      * rewrite lookup_insert_eq in Ha. injection Ha as <-. simpl.
        unfold CreatorProfile.creatorOf. rewrite Hold. simpl. auto.
      * rewrite lookup_insert_ne in Ha by assumption. eauto.
Qed.

Lemma registryOk_run (E : Env) (ops : list Op) (w : World) :
  registryOk (GlamoraHub.profile w) ->
  registryOk (GlamoraHub.profile (run E ops w)).
Proof.
  revert w. induction ops as [| op rest IH]; intros w Hok; simpl; [assumption |].
  apply IH, registryOk_step, Hok.
Qed.

Lemma registryOk_deployed (E : Env) (deployer : Msg) (b : gmap N Z) :
  registryOk (GlamoraHub.profile (GlamoraHub.constructor E deployer b)).
Proof.
  split; simpl; [reflexivity |]. intros a c H. rewrite lookup_empty in H. discriminate.
Qed.

Lemma registryOk_counts (s : CreatorProfile.State) :
  registryOk s ->
  exists registered : gset N,
    (forall a, a ∈ registered <-> CreatorProfile.isCreator s a = true)
    /\ CreatorProfile.totalCreators s = Z.of_nat (size registered).
Proof.
  intros Hok. exists (dom (CreatorProfile.creators s)). split.
  - intros a. rewrite elem_of_dom. split.
    + intros [c Hc]. destruct Hok as [_ Hrec]. destruct (Hrec a c Hc) as [Hact _].
      unfold CreatorProfile.isCreator, CreatorProfile.creatorOf. rewrite Hc. exact Hact.
    + intros Ha. destruct (isCreator_lookup _ _ Ha) as (c & Hc & _). eauto.
  - rewrite size_dom. apply Hok.
Qed.

(** X6. In every state reached from deployment, [totalCreators] is the
    number of registered addresses: there is a finite set holding exactly
    the addresses for which [isCreator] answers true, and [totalCreators]
    is its size. *)
Theorem totalCreators_counts_the_registered (E : Env) (deployer : Msg)
    (b : gmap N Z) (ops : list Op) :
  let s := GlamoraHub.profile (run E ops (GlamoraHub.constructor E deployer b)) in
  exists registered : gset N,
    (forall a, a ∈ registered <-> CreatorProfile.isCreator s a = true)
    /\ CreatorProfile.totalCreators s = Z.of_nat (size registered).
Proof.
  intros s. apply registryOk_counts, registryOk_run, registryOk_deployed.
Qed.

(** X7. In every state reached from deployment, the profile [getCreator]
    returns for a registered address carries that address as its wallet, a
    username of 1 to 50 bytes and a bio of at most 500 bytes. *)
Theorem stored_profiles_are_valid (E : Env) (deployer : Msg) (b : gmap N Z)
    (ops : list Op) (a : N) :
  let s := GlamoraHub.profile (run E ops (GlamoraHub.constructor E deployer b)) in
  CreatorProfile.isCreator s a = true ->
  exists c,
    CreatorProfile.getCreator a s = Ok (c, s)
    /\ CreatorProfile.wallet c = a
    /\ (1 <= String.length (CreatorProfile.username c) <= 50)%nat
    /\ (String.length (CreatorProfile.bio c) <= 500)%nat.
Proof.
  intros s Ha.
  assert (registryOk s) as [_ Hrec] by apply registryOk_run, registryOk_deployed.
  destruct (isCreator_lookup _ _ Ha) as (c & Hc & Hact).
  destruct (Hrec a c Hc) as (_ & Hw & Hv).
  exists c. split; [| split; [exact Hw |]].
  - unfold CreatorProfile.getCreator. unfold_monad. cbv beta.
    unfold CreatorProfile.isCreator in Ha. rewrite Ha. simpl.
    unfold CreatorProfile.creatorOf. rewrite Hc. reflexivity.
  - unfold validProfile in Hv.
    apply andb_prop in Hv as [Hv Hb]. apply andb_prop in Hv as [Hu1 Hu2].
    apply Nat.ltb_lt in Hu1. apply Nat.leb_le in Hu2. apply Nat.leb_le in Hb. lia.
Qed.

Lemma stored_profiles_are_valid_witness :
  CreatorProfile.isCreator (GlamoraHub.profile Demo.listed) Demo.alice = true
  /\ exists c,
       CreatorProfile.getCreator Demo.alice (GlamoraHub.profile Demo.listed)
       = Ok (c, GlamoraHub.profile Demo.listed)
       /\ CreatorProfile.wallet c = Demo.alice
       /\ (1 <= String.length (CreatorProfile.username c) <= 50)%nat
       /\ (String.length (CreatorProfile.bio c) <= 500)%nat.
Proof.
  split; [reflexivity |].
  apply (stored_profiles_are_valid Demo.E (Demo.at_ Demo.deployer) Demo.purse
           [HubRegisterCreator (Demo.at_ Demo.alice) "Alice" "Fashion creator";
            HubCreateContent (Demo.at_ Demo.alice) "Tutorial" "ref1" 100]
           Demo.alice).
  reflexivity.
Defined.

(** ** The ledger's calls, one by one *)

Lemma createContent_ok_full_inv (msg : Msg) (c : N) (t h : string) (p id : Z)
    (s s' : ContentPayment.State) :
  ContentPayment.createContent msg c t h p s = Ok (id, s') ->
  validContent t h p = true
  /\ ContentPayment.nextContentId s < MAX_UINT256
  /\ id = ContentPayment.nextContentId s
  /\ s' = afterCreate msg c t h p s.
Proof.
  intros H. destruct (validContent t h p) eqn:Hv.
  - destruct (Z.ltb_spec (ContentPayment.nextContentId s) MAX_UINT256) as [Hn | Hn].
    + rewrite createContent_valid in H by assumption. inversion H. auto.
    + rewrite createContent_overflow in H by assumption. discriminate.
  - destruct (createContent_invalid msg c t h p s Hv) as [e [He _]].
    rewrite He in H. discriminate.
Qed.

Lemma updateContentPrice_owner (msg : Msg) (id p : Z) (s : ContentPayment.State) :
  ContentPayment.isActive (ContentPayment.contentOf s id) = true ->
  ContentPayment.creator (ContentPayment.contentOf s id) = sender msg ->
  0 < p ->
  ContentPayment.updateContentPrice msg id p s = Ok (tt, afterReprice id p s).
Proof.
  unfold ContentPayment.updateContentPrice, ContentPayment.emit, afterReprice.
  unfold_monad. cbv beta. intros Ha Hc Hp.
  unfold repriced. rewrite Ha. simpl. rewrite Hc, N.eqb_refl. simpl.
  destruct (Z.ltb_spec 0 p); [| lia]. reflexivity.
Qed.

Lemma updateContentPrice_ok_full_inv (msg : Msg) (id p : Z) (u : unit)
    (s s' : ContentPayment.State) :
  ContentPayment.updateContentPrice msg id p s = Ok (u, s') ->
  ContentPayment.isActive (ContentPayment.contentOf s id) = true
  /\ ContentPayment.creator (ContentPayment.contentOf s id) = sender msg
  /\ 0 < p
  /\ s' = afterReprice id p s.
Proof.
  unfold ContentPayment.updateContentPrice, ContentPayment.emit, afterReprice,
    repriced.
  unfold_monad. cbv beta.
  destruct (ContentPayment.isActive (ContentPayment.contentOf s id)); [| discriminate].
  simpl.
  destruct (N.eqb_spec (ContentPayment.creator (ContentPayment.contentOf s id))
              (sender msg)); [| discriminate].
  simpl. destruct (Z.ltb_spec 0 p); [| discriminate]. simpl.
  intros [= <- <-]. auto.
Qed.

Lemma deactivateContent_ok_full_inv (msg : Msg) (id : Z) (u : unit)
    (s s' : ContentPayment.State) :
  ContentPayment.deactivateContent msg id s = Ok (u, s') ->
  ContentPayment.isActive (ContentPayment.contentOf s id) = true
  /\ ContentPayment.creator (ContentPayment.contentOf s id) = sender msg
  /\ s' = afterDeactivate id s.
Proof.
  unfold ContentPayment.deactivateContent, afterDeactivate, switchedOff.
  unfold_monad. cbv beta.
  destruct (ContentPayment.isActive (ContentPayment.contentOf s id)); [| discriminate].
  simpl.
  destruct (N.eqb_spec (ContentPayment.creator (ContentPayment.contentOf s id))
              (sender msg)); [| discriminate].
  simpl. intros [= <- <-]. auto.
Qed.

(** The ledger's storage after each kind of successful call. *)
Lemma ledgerRun_inv (E : Env) (call : LedgerCall) (s s' : ContentPayment.State)
    (b : gmap N Z) :
  ledgerRun E call s b = Some s' ->
  match call with
  | CreateContentCall msg c t h p =>
      validContent t h p = true
      /\ ContentPayment.nextContentId s < MAX_UINT256
      /\ s' = afterCreate msg c t h p s
  | PurchaseContentCall msg v buyer id =>
      firstViolation s v buyer id = None
      /\ s' = store (purchased E msg v buyer id {| store := s; ether := b |})
  | UpdateContentPriceCall msg id p =>
      ContentPayment.isActive (ContentPayment.contentOf s id) = true
      /\ ContentPayment.creator (ContentPayment.contentOf s id) = sender msg
      /\ 0 < p
      /\ s' = afterReprice id p s
  | DeactivateContentCall msg id =>
      ContentPayment.isActive (ContentPayment.contentOf s id) = true
      /\ ContentPayment.creator (ContentPayment.contentOf s id) = sender msg
      /\ s' = afterDeactivate id s
  end.
Proof.
  destruct call as [msg c t h p | msg v buyer id | msg id p | msg id]; simpl.
  - destruct (ContentPayment.createContent msg c t h p s) as [[i s1] | e] eqn:H;
      [| discriminate].
    intros [= <-]. apply createContent_ok_full_inv in H. tauto.
  - destruct (ContentPayment.purchaseContent E msg v buyer id _) as [[u f'] | e] eqn:H;
      [| discriminate].
    intros [= <-]. apply purchaseContent_ok_inv in H as (_ & Hv & -> & _). auto.
  - destruct (ContentPayment.updateContentPrice msg id p s) as [[u s1] | e] eqn:H;
      [| discriminate].
    intros [= <-]. apply updateContentPrice_ok_full_inv in H. exact H.
  - destruct (ContentPayment.deactivateContent msg id s) as [[u s1] | e] eqn:H;
      [| discriminate].
    intros [= <-]. apply deactivateContent_ok_full_inv in H. exact H.
Qed.

Lemma contentOf_insert (m : gmap Z ContentPayment.Content) (i j : Z)
    (c : ContentPayment.Content) ua cc n r ev :
  ContentPayment.contentOf
    {| ContentPayment.contents := <[i := c]> m; ContentPayment.userAccess := ua;
       ContentPayment.creatorContents := cc; ContentPayment.nextContentId := n;
       ContentPayment.totalRevenue := r; ContentPayment.events := ev |} j
  = if decide (i = j) then c
    else default ContentPayment.noContent (m !! j).
Proof.
  unfold ContentPayment.contentOf. simpl. rewrite lookup_insert.
  destruct (decide (i = j)); reflexivity.
Qed.

(** X8. A [createContent] with a non-empty title, a non-empty content
    reference and a positive price succeeds and returns the id counter.
    [getContent] of that id then returns the supplied data, active and
    attributed to the given creator, who has access to it; the id is
    appended to that creator's list and to no other; every other content,
    every grant and the revenue are untouched; and the id is the new
    counter minus one. *)
Theorem create_then_get (msg : Msg) (c : N) (t h : string) (p : Z)
    (s : ContentPayment.State) :
  validContent t h p = true ->
  ContentPayment.nextContentId s < MAX_UINT256 ->
  exists s',
    transact (ContentPayment.createContent msg c t h p) s
    = (Ok (ContentPayment.nextContentId s), s')
    /\ ContentPayment.getContent (ContentPayment.nextContentId s) s'
       = Ok ({| ContentPayment.contentId := ContentPayment.nextContentId s;
                ContentPayment.creator := c;
                ContentPayment.title := t;
                ContentPayment.contentHash := h;
                ContentPayment.price := p;
                ContentPayment.createdAt := timestamp msg;
                ContentPayment.isActive := true |}, s')
    /\ ContentPayment.hasAccess s' c (ContentPayment.nextContentId s) = true
    /\ ContentPayment.getCreatorContent s' c
       = ContentPayment.getCreatorContent s c ++ [ContentPayment.nextContentId s]
    /\ (forall c', c' <> c ->
          ContentPayment.getCreatorContent s' c' = ContentPayment.getCreatorContent s c')
    /\ (forall id, id <> ContentPayment.nextContentId s ->
          ContentPayment.contentOf s' id = ContentPayment.contentOf s id)
    /\ (forall u id, ContentPayment.accessOf s' u id = ContentPayment.accessOf s u id)
    /\ ContentPayment.totalRevenue s' = ContentPayment.totalRevenue s
    /\ ContentPayment.nextContentId s' - 1 = ContentPayment.nextContentId s.
Proof.
  intros Hv Hn. exists (afterCreate msg c t h p s).
  assert (ContentPayment.contentOf (afterCreate msg c t h p s)
            (ContentPayment.nextContentId s)
          = {| ContentPayment.contentId := ContentPayment.nextContentId s;
               ContentPayment.creator := c; ContentPayment.title := t;
               ContentPayment.contentHash := h; ContentPayment.price := p;
               ContentPayment.createdAt := timestamp msg;
               ContentPayment.isActive := true |}) as Hnew.
  { unfold afterCreate. rewrite contentOf_insert.
    destruct (decide (ContentPayment.nextContentId s = ContentPayment.nextContentId s));
      [reflexivity | congruence]. }
  repeat apply conj.
  - unfold transact. rewrite createContent_valid by assumption. reflexivity.
  - unfold ContentPayment.getContent. unfold_monad. cbv beta. rewrite Hnew.
    reflexivity.
  - apply hasAccess_creator. rewrite Hnew. reflexivity.
  - unfold ContentPayment.getCreatorContent, afterCreate.
    unfold ContentPayment.contentsBy at 1. simpl. rewrite lookup_insert_eq. reflexivity.
  - intros c' Hc'. unfold ContentPayment.getCreatorContent, afterCreate.
    unfold ContentPayment.contentsBy at 1. simpl.
    rewrite lookup_insert_ne by congruence. reflexivity.
  - intros id Hid. unfold afterCreate. rewrite contentOf_insert.
    destruct (decide (ContentPayment.nextContentId s = id)); [congruence | reflexivity].
  - reflexivity.
  - reflexivity.
  - simpl. lia.
Qed.

Lemma create_then_get_witness :
  validContent "Tutorial" "ref1" 100 = true
  /\ ContentPayment.nextContentId ContentPayment.constructor < MAX_UINT256
  /\ exists s',
       transact (ContentPayment.createContent (Demo.at_ Demo.alice) Demo.alice
                   "Tutorial" "ref1" 100) ContentPayment.constructor = (Ok 1, s')
       /\ ContentPayment.hasAccess s' Demo.alice 1 = true
       /\ ContentPayment.getCreatorContent s' Demo.alice = [] ++ [1].
Proof.
  split; [reflexivity |]. split; [reflexivity |].
  destruct (create_then_get (Demo.at_ Demo.alice) Demo.alice "Tutorial" "ref1" 100
              ContentPayment.constructor eq_refl eq_refl)
    as (s' & Hrun & _ & Hacc & Hlist & _).
  exists s'. split; [exact Hrun |]. split; [exact Hacc | exact Hlist].
Defined.

(** X9. The creator of an active content who calls [updateContentPrice]
    with a positive price succeeds: [getContent] then returns the same
    record with the new price; every other content, every grant, the
    creators' lists, the id counter and the revenue are as they were. *)
Theorem updateContentPrice_by_creator (msg : Msg) (id p : Z)
    (s : ContentPayment.State) :
  ContentPayment.isActive (ContentPayment.contentOf s id) = true ->
  ContentPayment.creator (ContentPayment.contentOf s id) = sender msg ->
  0 < p ->
  exists s',
    transact (ContentPayment.updateContentPrice msg id p) s = (Ok tt, s')
    /\ ContentPayment.getContent id s'
       = Ok (repriced p (ContentPayment.contentOf s id), s')
    /\ (forall i, i <> id ->
          ContentPayment.contentOf s' i = ContentPayment.contentOf s i)
    /\ (forall u i, ContentPayment.accessOf s' u i = ContentPayment.accessOf s u i)
    /\ (forall c, ContentPayment.getCreatorContent s' c
                  = ContentPayment.getCreatorContent s c)
    /\ ContentPayment.nextContentId s' = ContentPayment.nextContentId s
    /\ ContentPayment.totalRevenue s' = ContentPayment.totalRevenue s.
Proof.
  intros Ha Hc Hp. exists (afterReprice id p s).
  assert (ContentPayment.contentOf (afterReprice id p s) id
          = repriced p (ContentPayment.contentOf s id)) as Hnew.
  { unfold afterReprice. rewrite contentOf_insert.
    destruct (decide (id = id)); [reflexivity | congruence]. }
  repeat apply conj; try reflexivity.
  - unfold transact. rewrite updateContentPrice_owner by assumption. reflexivity.
  - unfold ContentPayment.getContent. unfold_monad. cbv beta. rewrite Hnew.
    simpl. rewrite Ha. reflexivity.
  - intros i Hi. unfold afterReprice. rewrite contentOf_insert.
    destruct (decide (id = i)); [congruence | reflexivity].
Qed.

Lemma updateContentPrice_by_creator_witness :
  ContentPayment.isActive (ContentPayment.contentOf (GlamoraHub.payment Demo.sold) 1)
  = true
  /\ ContentPayment.creator (ContentPayment.contentOf (GlamoraHub.payment Demo.sold) 1)
     = sender (Demo.at_ Demo.alice)
  /\ 0 < 250
  /\ exists s',
       transact (ContentPayment.updateContentPrice (Demo.at_ Demo.alice) 1 250)
         (GlamoraHub.payment Demo.sold) = (Ok tt, s')
       /\ ContentPayment.totalRevenue s' = 100.
Proof.
  split; [reflexivity |]. split; [reflexivity |]. split; [reflexivity |].
  destruct (updateContentPrice_by_creator (Demo.at_ Demo.alice) 1 250
              (GlamoraHub.payment Demo.sold) eq_refl eq_refl eq_refl)
    as (s' & Hrun & _ & _ & _ & _ & _ & Hrev).
  exists s'. split; [exact Hrun | exact Hrev].
Defined.

(** X10. [updateContentPrice] checks, in this order, that the content is
    active, that the caller is its creator and that the new price is
    positive: a missing or deactivated content gives "Content not found"
    to any caller and for any price, an active content gives a stranger
    "Only creator can update" for any price, and its creator
    "Price must be greater than 0" for a price of zero. Each failure
    leaves the ledger unchanged. *)
Theorem updateContentPrice_rejects (msg : Msg) (id p : Z) (s : ContentPayment.State) :
  (ContentPayment.isActive (ContentPayment.contentOf s id) = false ->
   transact (ContentPayment.updateContentPrice msg id p) s
   = (Err (Revert "Content not found"), s)
   /\ kindOf (Revert "Content not found") = Some NotFound)
  /\ (ContentPayment.isActive (ContentPayment.contentOf s id) = true ->
      ContentPayment.creator (ContentPayment.contentOf s id) <> sender msg ->
      transact (ContentPayment.updateContentPrice msg id p) s
      = (Err (Revert "Only creator can update"), s)
      /\ kindOf (Revert "Only creator can update") = Some Forbidden)
  /\ (ContentPayment.isActive (ContentPayment.contentOf s id) = true ->
      ContentPayment.creator (ContentPayment.contentOf s id) = sender msg ->
      p <= 0 ->
      transact (ContentPayment.updateContentPrice msg id p) s
      = (Err (Revert "Price must be greater than 0"), s)
      /\ kindOf (Revert "Price must be greater than 0") = Some InvalidInput).
Proof.
  repeat apply conj.
  - intros Ha. unfold transact, ContentPayment.updateContentPrice. unfold_monad.
    cbv beta. rewrite Ha. split; reflexivity.
  - intros Ha Hc. unfold transact.
    rewrite updateContentPrice_stranger by assumption. split; reflexivity.
  - intros Ha Hc Hp. unfold transact, ContentPayment.updateContentPrice.
    unfold_monad. cbv beta. rewrite Ha. simpl. rewrite Hc, N.eqb_refl. simpl.
    destruct (Z.ltb_spec 0 p); [lia |]. split; reflexivity.
Qed.

Lemma updateContentPrice_rejects_witness :
  ContentPayment.isActive (ContentPayment.contentOf (GlamoraHub.payment Demo.sold) 7)
  = false
  /\ transact (ContentPayment.updateContentPrice (Demo.at_ Demo.alice) 7 0)
       (GlamoraHub.payment Demo.sold)
     = (Err (Revert "Content not found"), GlamoraHub.payment Demo.sold)
  /\ ContentPayment.isActive (ContentPayment.contentOf (GlamoraHub.payment Demo.sold) 1)
     = true
  /\ ContentPayment.creator (ContentPayment.contentOf (GlamoraHub.payment Demo.sold) 1)
     <> sender (Demo.at_ Demo.bob)
  /\ transact (ContentPayment.updateContentPrice (Demo.at_ Demo.bob) 1 0)
       (GlamoraHub.payment Demo.sold)
     = (Err (Revert "Only creator can update"), GlamoraHub.payment Demo.sold)
  /\ ContentPayment.creator (ContentPayment.contentOf (GlamoraHub.payment Demo.sold) 1)
     = sender (Demo.at_ Demo.alice)
  /\ 0 <= 0
  /\ transact (ContentPayment.updateContentPrice (Demo.at_ Demo.alice) 1 0)
       (GlamoraHub.payment Demo.sold)
     = (Err (Revert "Price must be greater than 0"), GlamoraHub.payment Demo.sold).
Proof.
  pose proof (updateContentPrice_rejects (Demo.at_ Demo.alice) 7 0
                (GlamoraHub.payment Demo.sold)) as (Hmissing & _ & _).
  pose proof (updateContentPrice_rejects (Demo.at_ Demo.bob) 1 0
                (GlamoraHub.payment Demo.sold)) as (_ & Hstranger & _).
  pose proof (updateContentPrice_rejects (Demo.at_ Demo.alice) 1 0
                (GlamoraHub.payment Demo.sold)) as (_ & _ & Hzero).
  split; [reflexivity |]. split; [apply Hmissing; reflexivity |].
  split; [reflexivity |]. split; [discriminate |].
  split; [apply Hstranger; [reflexivity | discriminate] |].
  split; [reflexivity |]. split; [discriminate |].
  apply Hzero; [reflexivity | reflexivity | discriminate].
Defined.

Lemma purchaseContent_inactive (E : Env) (msg : Msg) (v : Z) (buyer : N) (id : Z)
    (f : Funded ContentPayment.State) :
  funded (ether f) (sender msg) v = true ->
  ContentPayment.isActive (ContentPayment.contentOf (store f) id) = false ->
  ContentPayment.purchaseContent E msg v buyer id f
  = Err (Revert "Content not found or inactive").
Proof.
  intros Hf Ha. unfold ContentPayment.purchaseContent, pay. unfold_monad. cbv beta.
  rewrite Hf. simpl. rewrite Ha. reflexivity.
Qed.

Lemma inactive_calls_fail (s : ContentPayment.State) (id : Z) :
  ContentPayment.isActive (ContentPayment.contentOf s id) = false ->
  ContentPayment.getContent id s = Err (Revert "Content not found")
  /\ (forall msg p,
        ContentPayment.updateContentPrice msg id p s = Err (Revert "Content not found"))
  /\ (forall msg,
        ContentPayment.deactivateContent msg id s = Err (Revert "Content not found"))
  /\ (forall E msg v buyer b,
        funded b (sender msg) v = true ->
        ContentPayment.purchaseContent E msg v buyer id {| store := s; ether := b |}
        = Err (Revert "Content not found or inactive")).
Proof.
  intros Ha. repeat apply conj.
  - unfold ContentPayment.getContent. unfold_monad. cbv beta. rewrite Ha. reflexivity.
  - intros. unfold ContentPayment.updateContentPrice. unfold_monad. cbv beta.
    rewrite Ha. reflexivity.
  - intros. unfold ContentPayment.deactivateContent. unfold_monad. cbv beta.
    rewrite Ha. reflexivity.
  - intros. apply purchaseContent_inactive; assumption.
Qed.

(** X11. The creator of an active content who calls [deactivateContent]
    succeeds, and only the active flag of that one record changes. From
    then on [getContent], [updateContentPrice], [deactivateContent] and
    [purchaseContent] on it all fail with a not-found revert, for any
    caller. Every other content, every user's access and the creators'
    lists, which go on listing the deactivated id, are as they were. *)
Theorem deactivateContent_by_creator (msg : Msg) (id : Z) (s : ContentPayment.State) :
  ContentPayment.isActive (ContentPayment.contentOf s id) = true ->
  ContentPayment.creator (ContentPayment.contentOf s id) = sender msg ->
  exists s',
    transact (ContentPayment.deactivateContent msg id) s = (Ok tt, s')
    /\ ContentPayment.contentOf s' id = switchedOff (ContentPayment.contentOf s id)
    /\ ContentPayment.getContent id s' = Err (Revert "Content not found")
    /\ (forall msg' p,
          ContentPayment.updateContentPrice msg' id p s'
          = Err (Revert "Content not found"))
    /\ (forall msg',
          ContentPayment.deactivateContent msg' id s' = Err (Revert "Content not found"))
    /\ (forall E msg' v buyer b,
          funded b (sender msg') v = true ->
          ContentPayment.purchaseContent E msg' v buyer id {| store := s'; ether := b |}
          = Err (Revert "Content not found or inactive"))
    /\ (forall i, i <> id ->
          ContentPayment.contentOf s' i = ContentPayment.contentOf s i)
    /\ (forall u i, ContentPayment.hasAccess s' u i = ContentPayment.hasAccess s u i)
    /\ (forall c, ContentPayment.getCreatorContent s' c
                  = ContentPayment.getCreatorContent s c).
Proof.
  intros Ha Hc. exists (afterDeactivate id s).
  assert (ContentPayment.contentOf (afterDeactivate id s) id
          = switchedOff (ContentPayment.contentOf s id)) as Hnew.
  { unfold afterDeactivate, ContentPayment.set_content. rewrite contentOf_insert.
    destruct (decide (id = id)); [reflexivity | congruence]. }
  assert (forall i, i <> id ->
            ContentPayment.contentOf (afterDeactivate id s) i
            = ContentPayment.contentOf s i) as Hother.
  { intros i Hi. unfold afterDeactivate, ContentPayment.set_content.
    rewrite contentOf_insert. destruct (decide (id = i)); [congruence | reflexivity]. }
  assert (ContentPayment.isActive (ContentPayment.contentOf (afterDeactivate id s) id)
          = false) as Hoff by (rewrite Hnew; reflexivity).
  destruct (inactive_calls_fail _ _ Hoff) as (Hget & Hupd & Hdea & Hbuy).
  split; [| split; [exact Hnew | split; [exact Hget | split; [exact Hupd |
    split; [exact Hdea | split; [exact Hbuy | split; [exact Hother | split]]]]]]].
  - unfold transact, afterDeactivate, switchedOff.
    rewrite deactivateContent_owner by assumption. rewrite Hc. reflexivity.
  - intros u i. unfold ContentPayment.hasAccess.
    destruct (decide (i = id)) as [-> | Hi].
    + rewrite Hnew. reflexivity.
    + rewrite Hother by assumption. reflexivity.
  - reflexivity.
Qed.

Lemma deactivateContent_by_creator_witness :
  ContentPayment.isActive (ContentPayment.contentOf (GlamoraHub.payment Demo.sold) 1)
  = true
  /\ ContentPayment.creator (ContentPayment.contentOf (GlamoraHub.payment Demo.sold) 1)
     = sender (Demo.at_ Demo.alice)
  /\ exists s',
       transact (ContentPayment.deactivateContent (Demo.at_ Demo.alice) 1)
         (GlamoraHub.payment Demo.sold) = (Ok tt, s')
       /\ ContentPayment.getContent 1 s' = Err (Revert "Content not found")
       /\ ContentPayment.getCreatorContent s' Demo.alice
          = ContentPayment.getCreatorContent (GlamoraHub.payment Demo.sold) Demo.alice.
Proof.
  split; [reflexivity |]. split; [reflexivity |].
  destruct (deactivateContent_by_creator (Demo.at_ Demo.alice) 1
              (GlamoraHub.payment Demo.sold) eq_refl eq_refl)
    as (s' & Hrun & _ & Hget & _ & _ & _ & _ & _ & Hlist).
  exists s'. split; [exact Hrun |]. split; [exact Hget | apply Hlist].
Defined.

(** ** Content records over histories *)

Lemma ledgerCall_manage (E : Env) (op : Op) (msg : Msg) (id : Z) :
  (forall p, ledgerCall E op = Some (UpdateContentPriceCall msg id p) ->
             op = PaymentUpdateContentPrice msg id p)
  /\ (ledgerCall E op = Some (DeactivateContentCall msg id) ->
      op = PaymentDeactivateContent msg id).
Proof. split; [intros p |]; destruct op; simpl; intros [=]; subst; reflexivity. Qed.

Lemma idsBelowCounter_step (E : Env) (w : World) (op : Op) :
  idsBelowCounter (GlamoraHub.payment w) ->
  idsBelowCounter (GlamoraHub.payment (snd (step E w op))).
Proof.
  intros Hinv. apply (effect_access E _ _ op _ (step_effect E w op) Hinv).
Qed.

(** What one transaction can do to the record of an existing content. *)
Lemma step_keeps_content (E : Env) (w : World) (op : Op) (id : Z)
    (c : ContentPayment.Content) :
  idsBelowCounter (GlamoraHub.payment w) ->
  ContentPayment.contents (GlamoraHub.payment w) !! id = Some c ->
  exists c',
    ContentPayment.contents (GlamoraHub.payment (snd (step E w op))) !! id = Some c'
    /\ ContentPayment.contentId c' = ContentPayment.contentId c
    /\ ContentPayment.creator c' = ContentPayment.creator c
    /\ ContentPayment.title c' = ContentPayment.title c
    /\ ContentPayment.contentHash c' = ContentPayment.contentHash c
    /\ ContentPayment.createdAt c' = ContentPayment.createdAt c
    /\ (ContentPayment.isActive c = false -> c' = c)
    /\ (managesContent (ContentPayment.creator c) id op = false -> c' = c).
Proof.
  intros Hinv Hc.
  assert (ContentPayment.contentOf (GlamoraHub.payment w) id = c) as Hof
    by (unfold ContentPayment.contentOf; rewrite Hc; reflexivity).
  destruct (step_ledger E w op) as [-> | (call & b & Hcall & Hrun)];
    [exists c; repeat split; auto |].
  apply ledgerRun_inv in Hrun.
  destruct call as [msg cr t h p | msg v buyer i | msg i p | msg i].
  - destruct Hrun as (_ & _ & ->). exists c. simpl.
    rewrite lookup_insert_ne; [repeat split; auto |].
    assert (id < ContentPayment.nextContentId (GlamoraHub.payment w))
      by (apply Hinv; eauto). lia.
  - destruct Hrun as (_ & ->). exists c. simpl. repeat split; auto.
  - destruct Hrun as (Hact & Hcr & _ & ->). simpl.
    destruct (decide (i = id)) as [-> | Hne].
    + rewrite Hof in *. exists (repriced p c). rewrite lookup_insert_eq.
      repeat split; auto.
      * intros Hoff. congruence.
      * apply (proj1 (ledgerCall_manage E op msg id)) in Hcall. subst op. simpl.
        rewrite Hcr, N.eqb_refl, Z.eqb_refl. discriminate.
    + exists c. rewrite lookup_insert_ne by assumption. repeat split; auto.
  - destruct Hrun as (Hact & Hcr & ->). unfold afterDeactivate. simpl.
    destruct (decide (i = id)) as [-> | Hne].
    + rewrite Hof in *. exists (switchedOff c). rewrite lookup_insert_eq.
      repeat split; auto.
      * intros Hoff. congruence.
      * apply (proj2 (ledgerCall_manage E op msg id)) in Hcall. subst op. simpl.
        rewrite Hcr, N.eqb_refl, Z.eqb_refl. discriminate.
    + exists c. rewrite lookup_insert_ne by assumption. repeat split; auto.
Qed.

Lemma run_keeps_content (E : Env) (ops : list Op) (w : World) (id : Z)
    (c : ContentPayment.Content) :
  idsBelowCounter (GlamoraHub.payment w) ->
  ContentPayment.contents (GlamoraHub.payment w) !! id = Some c ->
  exists c',
    ContentPayment.contents (GlamoraHub.payment (run E ops w)) !! id = Some c'
    /\ ContentPayment.contentId c' = ContentPayment.contentId c
    /\ ContentPayment.creator c' = ContentPayment.creator c
    /\ ContentPayment.title c' = ContentPayment.title c
    /\ ContentPayment.contentHash c' = ContentPayment.contentHash c
    /\ ContentPayment.createdAt c' = ContentPayment.createdAt c
    /\ (ContentPayment.isActive c = false -> c' = c)
    /\ (Forall (fun op => managesContent (ContentPayment.creator c) id op = false) ops ->
        c' = c).
Proof.
  revert w c. induction ops as [| op rest IH]; intros w c Hinv Hc; simpl.
  - exists c. repeat split; auto.
  - destruct (step_keeps_content E w op id c Hinv Hc)
      as (c1 & Hc1 & Hid & Hcr & Ht & Hh & Hd & Hoff & Hman).
    destruct (IH _ c1 (idsBelowCounter_step E w op Hinv) Hc1)
      as (c2 & Hc2 & Hid2 & Hcr2 & Ht2 & Hh2 & Hd2 & Hoff2 & Hman2).
    exists c2. split; [exact Hc2 |].
    repeat split; try congruence.
    + intros Hc_off. rewrite (Hoff Hc_off) in *. auto.
    + intros Hall. inversion Hall as [| ? ? Hop Hrest]; subst.
      rewrite (Hman Hop) in *. auto.
Qed.

Lemma idsBelowCounter_reached (E : Env) (deployer : Msg) (b : gmap N Z)
    (ops : list Op) :
  idsBelowCounter
    (GlamoraHub.payment (run E ops (GlamoraHub.constructor E deployer b))).
Proof. apply idsBelowCounter_run, idsBelowCounter_deployed. Qed.

(** X12. Deactivation is permanent. In every state reached from deployment,
    the record of a deactivated content is frozen: after every later
    history it is exactly the same record, still inactive, so that
    [getContent] goes on failing with "Content not found" and a purchase
    that carries its payment with "Content not found or inactive". No
    transaction reactivates a content. *)
Theorem deactivation_is_permanent (E : Env) (deployer : Msg) (b : gmap N Z)
    (before after : list Op) (id : Z) (c : ContentPayment.Content) :
  let w := run E before (GlamoraHub.constructor E deployer b) in
  ContentPayment.contents (GlamoraHub.payment w) !! id = Some c ->
  ContentPayment.isActive c = false ->
  ContentPayment.contents (GlamoraHub.payment (run E after w)) !! id = Some c
  /\ ContentPayment.getContent id (GlamoraHub.payment (run E after w))
     = Err (Revert "Content not found")
  /\ (forall msg v buyer,
        funded (GlamoraHub.balances (run E after w)) (sender msg) v = true ->
        step E (run E after w) (PaymentPurchaseContent msg v buyer id)
        = (Err (Revert "Content not found or inactive"), run E after w)).
Proof.
  intros w Hc Hoff.
  destruct (run_keeps_content E after w id c (idsBelowCounter_reached E deployer b before)
              Hc) as (c' & Hc' & _ & _ & _ & _ & _ & Hfrozen & _).
  rewrite (Hfrozen Hoff) in Hc'.
  assert (ContentPayment.isActive
            (ContentPayment.contentOf (GlamoraHub.payment (run E after w)) id) = false)
    as Hinactive by (unfold ContentPayment.contentOf; rewrite Hc'; exact Hoff).
  destruct (inactive_calls_fail _ _ Hinactive) as (Hget & _ & _ & Hbuy).
  split; [exact Hc' |]. split; [exact Hget |].
  intros msg v buyer Hf. apply step_purchase_failed. apply Hbuy. exact Hf.
Qed.

Lemma deactivation_is_permanent_witness :
  ContentPayment.contents
    (GlamoraHub.payment
       (run Demo.E
          [HubRegisterCreator (Demo.at_ Demo.alice) "Alice" "Fashion creator";
           HubCreateContent (Demo.at_ Demo.alice) "Tutorial" "ref1" 100;
           PaymentDeactivateContent (Demo.at_ Demo.alice) 1] Demo.fresh)) !! 1
  = Some {| ContentPayment.contentId := 1; ContentPayment.creator := Demo.alice;
            ContentPayment.title := "Tutorial"; ContentPayment.contentHash := "ref1";
            ContentPayment.price := 100;
            ContentPayment.createdAt := timestamp (Demo.at_ Demo.alice);
            ContentPayment.isActive := false |}
  /\ ContentPayment.getContent 1
       (GlamoraHub.payment
          (run Demo.E
             [PaymentUpdateContentPrice (Demo.at_ Demo.alice) 1 5;
              HubCreateContent (Demo.at_ Demo.alice) "Tutorial" "ref1" 100]
             (run Demo.E
                [HubRegisterCreator (Demo.at_ Demo.alice) "Alice" "Fashion creator";
                 HubCreateContent (Demo.at_ Demo.alice) "Tutorial" "ref1" 100;
                 PaymentDeactivateContent (Demo.at_ Demo.alice) 1] Demo.fresh)))
     = Err (Revert "Content not found").
Proof.
  split; [reflexivity |].
  apply (deactivation_is_permanent Demo.E (Demo.at_ Demo.deployer) Demo.purse
           [HubRegisterCreator (Demo.at_ Demo.alice) "Alice" "Fashion creator";
            HubCreateContent (Demo.at_ Demo.alice) "Tutorial" "ref1" 100;
            PaymentDeactivateContent (Demo.at_ Demo.alice) 1]
           [PaymentUpdateContentPrice (Demo.at_ Demo.alice) 1 5;
            HubCreateContent (Demo.at_ Demo.alice) "Tutorial" "ref1" 100]
           1 _ eq_refl eq_refl).
Defined.

(** X13. In every state reached from deployment, the identity of a content
    is fixed: whatever transactions follow, its record still exists and has
    the same stored id, creator, title, content reference and creation
    date. Only the price and the active flag can ever differ. *)
Theorem content_identity_is_fixed (E : Env) (deployer : Msg) (b : gmap N Z)
    (before after : list Op) (id : Z) (c : ContentPayment.Content) :
  let w := run E before (GlamoraHub.constructor E deployer b) in
  ContentPayment.contents (GlamoraHub.payment w) !! id = Some c ->
  exists c',
    ContentPayment.contents (GlamoraHub.payment (run E after w)) !! id = Some c'
    /\ ContentPayment.contentId c' = ContentPayment.contentId c
    /\ ContentPayment.creator c' = ContentPayment.creator c
    /\ ContentPayment.title c' = ContentPayment.title c
    /\ ContentPayment.contentHash c' = ContentPayment.contentHash c
    /\ ContentPayment.createdAt c' = ContentPayment.createdAt c.
Proof.
  intros w Hc.
  destruct (run_keeps_content E after w id c (idsBelowCounter_reached E deployer b before)
              Hc) as (c' & Hc' & Hid & Hcr & Ht & Hh & Hd & _).
  exists c'. repeat split; assumption.
Qed.

Lemma content_identity_is_fixed_witness :
  ContentPayment.contents (GlamoraHub.payment Demo.listed) !! 1
  = Some {| ContentPayment.contentId := 1; ContentPayment.creator := Demo.alice;
            ContentPayment.title := "Tutorial"; ContentPayment.contentHash := "ref1";
            ContentPayment.price := 100;
            ContentPayment.createdAt := timestamp (Demo.at_ Demo.alice);
            ContentPayment.isActive := true |}
  /\ exists c',
       ContentPayment.contents
         (GlamoraHub.payment
            (run Demo.E
               [PaymentUpdateContentPrice (Demo.at_ Demo.alice) 1 5;
                PaymentCreateContent (Demo.at_ Demo.bob) Demo.bob "Other" "r" 1;
                PaymentDeactivateContent (Demo.at_ Demo.alice) 1] Demo.listed)) !! 1
       = Some c'
       /\ ContentPayment.creator c' = Demo.alice
       /\ ContentPayment.title c' = "Tutorial".
Proof.
  split; [reflexivity |].
  destruct (content_identity_is_fixed Demo.E (Demo.at_ Demo.deployer) Demo.purse
              [HubRegisterCreator (Demo.at_ Demo.alice) "Alice" "Fashion creator";
               HubCreateContent (Demo.at_ Demo.alice) "Tutorial" "ref1" 100]
              [PaymentUpdateContentPrice (Demo.at_ Demo.alice) 1 5;
               PaymentCreateContent (Demo.at_ Demo.bob) Demo.bob "Other" "r" 1;
               PaymentDeactivateContent (Demo.at_ Demo.alice) 1]
              1 _ eq_refl) as (c' & Hc' & _ & Hcr & Ht & _).
  exists c'. split; [exact Hc' |]. split; [exact Hcr | exact Ht].
Defined.

(** X14. Only its creator changes a content. In every state reached from
    deployment, through every later history that contains no
    [updateContentPrice] and no [deactivateContent] of that content sent
    by its creator, the record of the content, price and active flag
    included, is what it was: purchases, creations, hub calls and the
    attempts of others leave it alone. *)
Theorem content_changes_only_by_creator (E : Env) (deployer : Msg) (b : gmap N Z)
    (before after : list Op) (id : Z) (c : ContentPayment.Content) :
  let w := run E before (GlamoraHub.constructor E deployer b) in
  ContentPayment.contents (GlamoraHub.payment w) !! id = Some c ->
  Forall (fun op => managesContent (ContentPayment.creator c) id op = false) after ->
  ContentPayment.contents (GlamoraHub.payment (run E after w)) !! id = Some c.
Proof.
  intros w Hc Hothers.
  destruct (run_keeps_content E after w id c (idsBelowCounter_reached E deployer b before)
              Hc) as (c' & Hc' & _ & _ & _ & _ & _ & _ & Hsame).
  rewrite (Hsame Hothers) in Hc'. exact Hc'.
Qed.

Lemma content_changes_only_by_creator_witness :
  ContentPayment.contents (GlamoraHub.payment Demo.listed) !! 1
  = Some {| ContentPayment.contentId := 1; ContentPayment.creator := Demo.alice;
            ContentPayment.title := "Tutorial"; ContentPayment.contentHash := "ref1";
            ContentPayment.price := 100;
            ContentPayment.createdAt := timestamp (Demo.at_ Demo.alice);
            ContentPayment.isActive := true |}
  /\ Forall (fun op => managesContent Demo.alice 1 op = false)
       [PaymentUpdateContentPrice (Demo.at_ Demo.bob) 1 5;
        HubPurchaseContent (Demo.at_ Demo.bob) 100 1;
        PaymentDeactivateContent (Demo.at_ Demo.carol) 1]
  /\ ContentPayment.contents
       (GlamoraHub.payment
          (run Demo.E
             [PaymentUpdateContentPrice (Demo.at_ Demo.bob) 1 5;
              HubPurchaseContent (Demo.at_ Demo.bob) 100 1;
              PaymentDeactivateContent (Demo.at_ Demo.carol) 1] Demo.listed)) !! 1
     = ContentPayment.contents (GlamoraHub.payment Demo.listed) !! 1.
Proof.
  assert (Forall (fun op => managesContent Demo.alice 1 op = false)
            [PaymentUpdateContentPrice (Demo.at_ Demo.bob) 1 5;
             HubPurchaseContent (Demo.at_ Demo.bob) 100 1;
             PaymentDeactivateContent (Demo.at_ Demo.carol) 1]) as Hothers
    by (repeat constructor).
  split; [reflexivity |]. split; [exact Hothers |].
  apply (content_changes_only_by_creator Demo.E (Demo.at_ Demo.deployer) Demo.purse
           [HubRegisterCreator (Demo.at_ Demo.alice) "Alice" "Fashion creator";
            HubCreateContent (Demo.at_ Demo.alice) "Tutorial" "ref1" 100]
           [PaymentUpdateContentPrice (Demo.at_ Demo.bob) 1 5;
            HubPurchaseContent (Demo.at_ Demo.bob) 100 1;
            PaymentDeactivateContent (Demo.at_ Demo.carol) 1]
           1 _ eq_refl Hothers).
Defined.

(** ** Purchases, on the ledger or through the hub *)

Lemma purchase_step_ok (E : Env) (w : World) (op : Op) (buyer : N) (id : Z)
    (r : option Z) :
  purchaseOf op = Some (buyer, id) ->
  fst (step E w op) = Ok r ->
  exists msg v b,
    firstViolation (GlamoraHub.payment w) v buyer id = None
    /\ GlamoraHub.payment (snd (step E w op))
       = store (purchased E msg v buyer id
                  {| store := GlamoraHub.payment w; ether := b |}).
Proof.
  destruct op; simpl; try discriminate; intros [= <- <-] Hok.
  - destruct (step E w (PaymentPurchaseContent msg value _buyer _contentId))
      as [r' w'] eqn:Hstep.
    simpl in Hok. subst r'.
    apply step_purchase_ok_inv in Hstep as [Hrun ->].
    apply purchaseContent_ok_inv in Hrun as (_ & Hv & _).
    exists msg, value, (GlamoraHub.balances w). split; [exact Hv | reflexivity].
  - rewrite hub_purchase_forwards in *.
    destruct (funded (GlamoraHub.balances w) (sender msg) value); [| discriminate].
    destruct (step E _ (PaymentPurchaseContent (GlamoraHub.asHub E msg) value
                          (sender msg) contentId)) as [[r' | e] w'] eqn:Hstep;
      [| discriminate].
    apply step_purchase_ok_inv in Hstep as [Hrun ->].
    apply purchaseContent_ok_inv in Hrun as (_ & Hv & _).
    exists (GlamoraHub.asHub E msg), value,
      (move (sender msg) (hubAddress E) value (GlamoraHub.balances w)).
    split; [exact Hv | reflexivity].
Qed.

Lemma step_outcome (E : Env) (w : World) (op : Op) :
  (exists r, fst (step E w op) = Ok r)
  \/ exists e, step E w op = (Err e, w).
Proof.
  destruct (fst (step E w op)) as [r | e] eqn:H; [eauto |].
  right. exists e. rewrite (surjective_pairing (step E w op)), H.
  rewrite (failed_step_keeps_world E w op e H). reflexivity.
Qed.

Lemma granted_purchase_fails (E : Env) (w : World) (op : Op) (buyer : N) (id : Z) :
  purchaseOf op = Some (buyer, id) ->
  ContentPayment.accessOf (GlamoraHub.payment w) buyer id = true ->
  exists e, step E w op = (Err e, w).
Proof.
  intros Hop Hacc. destruct (step_outcome E w op) as [[r Hok] | Hfail]; [| exact Hfail].
  destruct (purchase_step_ok E w op buyer id r Hop Hok) as (msg & v & b & Hv & _).
  apply (firstViolation_None v buyer id
           {| store := GlamoraHub.payment w; ether := b |}) in Hv
    as (_ & _ & Hnone & _).
  simpl in Hnone. congruence.
Qed.

Lemma purchase_grants (E : Env) (w : World) (op : Op) (buyer : N) (id : Z)
    (r : option Z) :
  purchaseOf op = Some (buyer, id) ->
  fst (step E w op) = Ok r ->
  ContentPayment.accessOf (GlamoraHub.payment (snd (step E w op))) buyer id = true.
Proof.
  intros Hop Hok.
  destruct (purchase_step_ok E w op buyer id r Hop Hok) as (msg & v & b & _ & ->).
  unfold ContentPayment.accessOf. simpl. rewrite lookup_insert_eq. reflexivity.
Qed.

(** X15. Nobody pays twice. In every state reached from deployment, once a
    purchase of a content for a buyer has succeeded, on the ledger or
    through the hub, every later purchase of that content for that buyer,
    by either route, with any amount and after any history, fails and
    leaves the whole state, balances included, as it was. *)
Theorem nobody_pays_twice (E : Env) (deployer : Msg) (b : gmap N Z)
    (before after : list Op) (first again : Op) (buyer : N) (id : Z)
    (r : option Z) :
  let w := run E before (GlamoraHub.constructor E deployer b) in
  let later := run E after (snd (step E w first)) in
  purchaseOf first = Some (buyer, id) ->
  purchaseOf again = Some (buyer, id) ->
  fst (step E w first) = Ok r ->
  exists e, step E later again = (Err e, later).
Proof.
  intros w later Hfirst Hagain Hok.
  apply (granted_purchase_fails E later again buyer id Hagain).
  apply run_keeps_access.
  - apply idsBelowCounter_step, idsBelowCounter_reached.
  - apply (purchase_grants E w first buyer id r Hfirst Hok).
Qed.

Lemma nobody_pays_twice_witness :
  purchaseOf (HubPurchaseContent (Demo.at_ Demo.bob) 100 1) = Some (Demo.bob, 1)
  /\ purchaseOf (PaymentPurchaseContent (Demo.at_ Demo.carol) 300 Demo.bob 1)
     = Some (Demo.bob, 1)
  /\ fst (step Demo.E Demo.listed (HubPurchaseContent (Demo.at_ Demo.bob) 100 1))
     = Ok None
  /\ exists e,
       step Demo.E
         (run Demo.E [PaymentUpdateContentPrice (Demo.at_ Demo.alice) 1 250]
            (snd (step Demo.E Demo.listed
                    (HubPurchaseContent (Demo.at_ Demo.bob) 100 1))))
         (PaymentPurchaseContent (Demo.at_ Demo.carol) 300 Demo.bob 1)
       = (Err e,
          run Demo.E [PaymentUpdateContentPrice (Demo.at_ Demo.alice) 1 250]
            (snd (step Demo.E Demo.listed
                    (HubPurchaseContent (Demo.at_ Demo.bob) 100 1)))).
Proof.
  split; [reflexivity |]. split; [reflexivity |]. split; [reflexivity |].
  apply (nobody_pays_twice Demo.E (Demo.at_ Demo.deployer) Demo.purse
           [HubRegisterCreator (Demo.at_ Demo.alice) "Alice" "Fashion creator";
            HubCreateContent (Demo.at_ Demo.alice) "Tutorial" "ref1" 100]
           [PaymentUpdateContentPrice (Demo.at_ Demo.alice) 1 250]
           (HubPurchaseContent (Demo.at_ Demo.bob) 100 1)
           (PaymentPurchaseContent (Demo.at_ Demo.carol) 300 Demo.bob 1)
           Demo.bob 1 None eq_refl eq_refl eq_refl).
Defined.

(** X16. A creator never buys their own content: in any state, a purchase
    whose buyer is the creator recorded for the content, made on the
    ledger or through the hub and with any amount, fails and leaves the
    whole state as it was. *)
Theorem creator_never_buys_own_content (E : Env) (w : World) (op : Op)
    (buyer : N) (id : Z) :
  purchaseOf op = Some (buyer, id) ->
  ContentPayment.creator (ContentPayment.contentOf (GlamoraHub.payment w) id) = buyer ->
  exists e, step E w op = (Err e, w).
Proof.
  intros Hop Hcr. destruct (step_outcome E w op) as [[r Hok] | Hfail]; [| exact Hfail].
  destruct (purchase_step_ok E w op buyer id r Hop Hok) as (msg & v & b & Hv & _).
  apply (firstViolation_None v buyer id
           {| store := GlamoraHub.payment w; ether := b |}) in Hv
    as (_ & _ & _ & Hne).
  simpl in Hne. congruence.
Qed.

Lemma creator_never_buys_own_content_witness :
  purchaseOf (HubPurchaseContent (Demo.at_ Demo.alice) 1000 1) = Some (Demo.alice, 1)
  /\ ContentPayment.creator (ContentPayment.contentOf (GlamoraHub.payment Demo.sold) 1)
     = Demo.alice
  /\ exists e,
       step Demo.E Demo.sold (HubPurchaseContent (Demo.at_ Demo.alice) 1000 1)
       = (Err e, Demo.sold).
Proof.
  split; [reflexivity |]. split; [reflexivity |].
  apply (creator_never_buys_own_content Demo.E Demo.sold
           (HubPurchaseContent (Demo.at_ Demo.alice) 1000 1) Demo.alice 1);
    reflexivity.
Defined.

(** X17. A successful purchase, on the ledger or through the hub, gives
    access to the buyer for that content and changes no other grant; it
    logs one [ContentPurchased] event with the content's creator and
    price; and it leaves the content records, the creators' lists, the id
    counter and the registry as they were. *)
Theorem purchase_grants_only_the_buyer (E : Env) (w : World) (op : Op)
    (buyer : N) (id : Z) (r : option Z) :
  let s := GlamoraHub.payment w in
  let s' := GlamoraHub.payment (snd (step E w op)) in
  purchaseOf op = Some (buyer, id) ->
  fst (step E w op) = Ok r ->
  GlamoraHub.hasAccessToContent (snd (step E w op)) buyer id = true
  /\ ContentPayment.accessOf s buyer id = false
  /\ (forall u i, (u, i) <> (buyer, id) ->
        ContentPayment.accessOf s' u i = ContentPayment.accessOf s u i)
  /\ ContentPayment.events s'
     = ContentPayment.ContentPurchased id buyer
         (ContentPayment.creator (ContentPayment.contentOf s id))
         (ContentPayment.price (ContentPayment.contentOf s id))
       :: ContentPayment.events s
  /\ ContentPayment.contents s' = ContentPayment.contents s
  /\ ContentPayment.creatorContents s' = ContentPayment.creatorContents s
  /\ ContentPayment.nextContentId s' = ContentPayment.nextContentId s
  /\ GlamoraHub.profile (snd (step E w op)) = GlamoraHub.profile w.
Proof.
  intros s s' Hop Hok.
  destruct (purchase_step_ok E w op buyer id r Hop Hok) as (msg & v & b & Hv & Hs').
  apply (firstViolation_None v buyer id
           {| store := GlamoraHub.payment w; ether := b |}) in Hv
    as (_ & _ & Hnone & _).
  simpl in Hnone.
  split; [| split; [exact Hnone | split; [| split; [| split; [| split; [| split]]]]]].
  - unfold GlamoraHub.hasAccessToContent, ContentPayment.hasAccess.
    rewrite (purchase_grants E w op buyer id r Hop Hok).
    destruct (_ =? _)%N; reflexivity.
  - intros u i Hne. subst s'. rewrite Hs'. unfold ContentPayment.accessOf. simpl.
    rewrite lookup_insert_ne by congruence. reflexivity.
  - subst s'. rewrite Hs'. reflexivity.
  - subst s'. rewrite Hs'. reflexivity.
  - subst s'. rewrite Hs'. reflexivity.
  - subst s'. rewrite Hs'. reflexivity.
  - destruct (step_registry E w op) as [Heq | (call & Hcall & _)]; [exact Heq |].
    destruct op; simpl in Hop, Hcall; discriminate.
Qed.

Lemma purchase_grants_only_the_buyer_witness :
  purchaseOf (HubPurchaseContent (Demo.at_ Demo.bob) 100 1) = Some (Demo.bob, 1)
  /\ fst (step Demo.E Demo.listed (HubPurchaseContent (Demo.at_ Demo.bob) 100 1))
     = Ok None
  /\ GlamoraHub.hasAccessToContent
       (snd (step Demo.E Demo.listed (HubPurchaseContent (Demo.at_ Demo.bob) 100 1)))
       Demo.bob 1 = true
  /\ ContentPayment.accessOf (GlamoraHub.payment Demo.listed) Demo.bob 1 = false.
Proof.
  split; [reflexivity |]. split; [reflexivity |].
  destruct (purchase_grants_only_the_buyer Demo.E Demo.listed
              (HubPurchaseContent (Demo.at_ Demo.bob) 100 1) Demo.bob 1 None
              eq_refl eq_refl) as (Hacc & Hbefore & _).
  split; [exact Hacc | exact Hbefore].
Defined.

(** ** Well-formed ledgers *)

Lemma ledgerOk_overwrite (s s' : ContentPayment.State) (id : Z)
    (c c' : ContentPayment.Content) :
  ledgerOk s ->
  ContentPayment.contents s !! id = Some c ->
  ContentPayment.contents s' = <[id := c']> (ContentPayment.contents s) ->
  ContentPayment.nextContentId s' = ContentPayment.nextContentId s ->
  ContentPayment.contentId c' = ContentPayment.contentId c ->
  validContent (ContentPayment.title c') (ContentPayment.contentHash c')
    (ContentPayment.price c') = true ->
  ledgerOk s'.
Proof.
  intros (Hone & Hsize & Hdom & Hrec) Hc Hcs Hn Hid Hv.
  unfold ledgerOk. rewrite Hcs, Hn.
  split; [exact Hone |]. split; [| split].
  - rewrite map_size_insert_Some by eauto. exact Hsize.
  - intros i. rewrite <- Hdom, lookup_insert_is_Some. split.
    + intros [<- | [_ Hi]]; eauto.
    + intros Hi. destruct (decide (id = i)); auto.
  - intros i rec Hi. destruct (decide (id = i)) as [<- | Hne].
    + rewrite lookup_insert_eq in Hi. injection Hi as <-.
      destruct (Hrec _ _ Hc) as [Hidc _]. split; [congruence | exact Hv].
    + rewrite lookup_insert_ne in Hi by assumption. eauto.
Qed.

Lemma validContent_price (t h : string) (p q : Z) :
  validContent t h p = true -> 0 < q -> validContent t h q = true.
Proof.
  unfold validContent. intros H Hq.
  apply andb_prop in H as [H _]. rewrite H. simpl. apply Z.ltb_lt. exact Hq.
Qed.

Lemma active_lookup (s : ContentPayment.State) (id : Z) :
  ContentPayment.isActive (ContentPayment.contentOf s id) = true ->
  ContentPayment.contents s !! id = Some (ContentPayment.contentOf s id).
Proof.
  unfold ContentPayment.contentOf.
  destruct (ContentPayment.contents s !! id); simpl; [reflexivity | discriminate].
Qed.

Lemma ledgerOk_call (E : Env) (call : LedgerCall) (s s' : ContentPayment.State)
    (b : gmap N Z) :
  ledgerOk s -> ledgerRun E call s b = Some s' -> ledgerOk s'.
Proof.
  intros Hok Hrun. apply ledgerRun_inv in Hrun.
  destruct call as [msg cr t h p | msg v buyer i | msg i p | msg i].
  - destruct Hrun as (Hv & _ & ->). destruct Hok as (Hone & Hsize & Hdom & Hrec).
    assert (ContentPayment.contents s !! ContentPayment.nextContentId s = None) as Hfree.
    { destruct (ContentPayment.contents s !! ContentPayment.nextContentId s) eqn:Hl;
        [| reflexivity].
      assert (1 <= ContentPayment.nextContentId s < ContentPayment.nextContentId s)
        by (apply Hdom; eauto). lia. }
    unfold ledgerOk, afterCreate. simpl. split; [lia |]. split; [| split].
    + rewrite map_size_insert_None by assumption. lia.
    + intros i. rewrite lookup_insert_is_Some, Hdom. split.
      * intros [<- | [_ Hi]]; lia.
      * intros Hi.
        destruct (decide (ContentPayment.nextContentId s = i)); [auto | right].
        split; [assumption | lia].
    + intros i rec Hi.
      destruct (decide (ContentPayment.nextContentId s = i)) as [<- | Hne].
      * rewrite lookup_insert_eq in Hi. injection Hi as <-. simpl. auto.
      * rewrite lookup_insert_ne in Hi by assumption. eauto.
  - destruct Hrun as (_ & ->). exact Hok.
  - destruct Hrun as (Hact & _ & Hp & ->). apply active_lookup in Hact.
    eapply (ledgerOk_overwrite s _ i _ _ Hok Hact); try reflexivity.
    destruct Hok as (_ & _ & _ & Hrec). destruct (Hrec _ _ Hact) as [_ Hv].
    simpl. eapply validContent_price; eassumption.
  - destruct Hrun as (Hact & _ & ->). apply active_lookup in Hact.
    eapply (ledgerOk_overwrite s _ i _ _ Hok Hact); try reflexivity.
    destruct Hok as (_ & _ & _ & Hrec). destruct (Hrec _ _ Hact) as [_ Hv].
    exact Hv.
Qed.

Lemma ledgerOk_step (E : Env) (w : World) (op : Op) :
  ledgerOk (GlamoraHub.payment w) ->
  ledgerOk (GlamoraHub.payment (snd (step E w op))).
Proof.
  intros Hok. destruct (step_ledger E w op) as [-> | (call & b & _ & Hrun)];
    [assumption | eapply ledgerOk_call; eassumption].
Qed.

Lemma ledgerOk_run (E : Env) (ops : list Op) (w : World) :
  ledgerOk (GlamoraHub.payment w) -> ledgerOk (GlamoraHub.payment (run E ops w)).
Proof.
  revert w. induction ops as [| op rest IH]; intros w Hok; simpl; [assumption |].
  apply IH, ledgerOk_step, Hok.
Qed.

Lemma ledgerOk_reached (E : Env) (deployer : Msg) (b : gmap N Z) (ops : list Op) :
  ledgerOk (GlamoraHub.payment (run E ops (GlamoraHub.constructor E deployer b))).
Proof.
  apply ledgerOk_run. unfold ledgerOk. simpl. split; [lia |]. split; [reflexivity |].
  split.
  - intros id. rewrite lookup_empty. split; [intros [x Hx]; discriminate | lia].
  - intros id c H. rewrite lookup_empty in H. discriminate.
Qed.

(** X18. In every state reached from deployment, the ids from 1 up to the
    counter are exactly the contents that exist: each of them has a record
    that carries its own id, a non-empty title, a non-empty content
    reference and a positive price, and every other id reads as the empty
    record. *)
Theorem content_records_fill_the_ids (E : Env) (deployer : Msg) (b : gmap N Z)
    (ops : list Op) (id : Z) :
  let s := GlamoraHub.payment (run E ops (GlamoraHub.constructor E deployer b)) in
  (1 <= id < ContentPayment.nextContentId s ->
   ContentPayment.contentId (ContentPayment.contentOf s id) = id
   /\ 0 < ContentPayment.price (ContentPayment.contentOf s id)
   /\ ContentPayment.title (ContentPayment.contentOf s id) <> ""
   /\ ContentPayment.contentHash (ContentPayment.contentOf s id) <> "")
  /\ (~ 1 <= id < ContentPayment.nextContentId s ->
      ContentPayment.contentOf s id = ContentPayment.noContent).
Proof.
  intros s. destruct (ledgerOk_reached E deployer b ops) as (_ & _ & Hdom & Hrec).
  fold s in Hdom, Hrec. split.
  - intros Hid. apply Hdom in Hid as [c Hc]. destruct (Hrec _ _ Hc) as [Hcid Hv].
    unfold ContentPayment.contentOf. rewrite Hc. simpl.
    unfold validContent in Hv.
    apply andb_prop in Hv as [Hv Hp]. apply andb_prop in Hv as [Ht Hh].
    split; [exact Hcid |]. split; [apply Z.ltb_lt; exact Hp |].
    split; intros Heq; rewrite Heq in *; discriminate.
  - intros Hid. unfold ContentPayment.contentOf.
    destruct (ContentPayment.contents s !! id) as [c |] eqn:Hc; [| reflexivity].
    exfalso. apply Hid, Hdom. eauto.
Qed.

Lemma content_records_fill_the_ids_witness :
  1 <= 1 < ContentPayment.nextContentId (GlamoraHub.payment Demo.sold)
  /\ ContentPayment.contentId (ContentPayment.contentOf (GlamoraHub.payment Demo.sold) 1)
     = 1
  /\ 0 < ContentPayment.price (ContentPayment.contentOf (GlamoraHub.payment Demo.sold) 1)
  /\ ~ 1 <= 2 < ContentPayment.nextContentId (GlamoraHub.payment Demo.sold)
  /\ ContentPayment.contentOf (GlamoraHub.payment Demo.sold) 2
     = ContentPayment.noContent.
Proof.
  pose proof (content_records_fill_the_ids Demo.E (Demo.at_ Demo.deployer) Demo.purse
                [HubRegisterCreator (Demo.at_ Demo.alice) "Alice" "Fashion creator";
                 HubCreateContent (Demo.at_ Demo.alice) "Tutorial" "ref1" 100;
                 HubPurchaseContent (Demo.at_ Demo.bob) 100 1] 1) as [Hin _].
  pose proof (content_records_fill_the_ids Demo.E (Demo.at_ Demo.deployer) Demo.purse
                [HubRegisterCreator (Demo.at_ Demo.alice) "Alice" "Fashion creator";
                 HubCreateContent (Demo.at_ Demo.alice) "Tutorial" "ref1" 100;
                 HubPurchaseContent (Demo.at_ Demo.bob) 100 1] 2) as [_ Hout].
  assert (1 <= 1 < ContentPayment.nextContentId (GlamoraHub.payment Demo.sold)) as H1
    by (split; [discriminate | reflexivity]).
  assert (~ 1 <= 2 < ContentPayment.nextContentId (GlamoraHub.payment Demo.sold)) as H2
    by (intros [_ H]; discriminate H).
  split; [exact H1 |].
  destruct (Hin H1) as (Hid & Hp & _).
  split; [exact Hid |]. split; [exact Hp |]. split; [exact H2 | exact (Hout H2)].
Defined.

(** ** Platform statistics *)

Lemma nextContentId_of_history (E : Env) (ops : list Op) (w : World) :
  ContentPayment.nextContentId (GlamoraHub.payment (run E ops w))
  = ContentPayment.nextContentId (GlamoraHub.payment w)
    + Z.of_nat (length (createdIds E ops w)).
Proof.
  revert w. induction ops as [| op rest IH]; intros w; simpl; [lia |].
  pose proof (effect_ids E _ _ op _ (step_effect E w op)) as Hid.
  rewrite IH.
  destruct (fst (step E w op)) as [[id |] | e]; simpl length; [| lia | lia].
  destruct Hid as [_ Hnext]. lia.
Qed.

(** X19. In every state reached from deployment [getPlatformStats] succeeds
    (its subtraction never underflows) and changes nothing, and the three
    numbers it returns are: the number of registered addresses, the number
    of contents ever created (deactivated ones included), and the sum of
    the prices at which the successful purchases were made. *)
Theorem getPlatformStats_counts (E : Env) (deployer : Msg) (b : gmap N Z)
    (ops : list Op) :
  let w := run E ops (GlamoraHub.constructor E deployer b) in
  exists registered : gset N,
    (forall a, a ∈ registered <-> GlamoraHub.isCreator w a = true)
    /\ GlamoraHub.getPlatformStats w
       = Ok ((Z.of_nat (size registered),
              Z.of_nat (length (createdIds E ops (GlamoraHub.constructor E deployer b))),
              sumZ (salePrices E ops (GlamoraHub.constructor E deployer b))), w).
Proof.
  intros w.
  destruct (registryOk_counts (GlamoraHub.profile w)) as (registered & Hreg & Hcount);
    [apply registryOk_run, registryOk_deployed |].
  exists registered. split; [exact Hreg |].
  unfold GlamoraHub.getPlatformStats. unfold_monad. cbv beta.
  pose proof (nextContentId_of_history E ops (GlamoraHub.constructor E deployer b))
    as Hnext.
  pose proof (revenue_of_history E ops (GlamoraHub.constructor E deployer b)) as Hrev.
  fold w in Hnext, Hrev. simpl in Hnext, Hrev.
  destruct (Z.leb_spec 1 (ContentPayment.nextContentId (GlamoraHub.payment w)));
    [| lia].
  rewrite Hcount, Hnext, Hrev. repeat f_equal; lia.
Qed.

(** ** The creators' lists *)

Lemma filter_ext_elem {A} (P Q : A -> Prop) `{!forall x, Decision (P x)}
    `{!forall x, Decision (Q x)} (l : list A) :
  (forall x, x ∈ l -> (P x <-> Q x)) -> filter P l = filter Q l.
Proof.
  induction l as [| x l IH]; intros Hext; [reflexivity |].
  rewrite !filter_cons.
  assert (filter P l = filter Q l) as ->
    by (apply IH; intros y Hy; apply Hext; rewrite elem_of_cons; auto).
  assert (P x <-> Q x) as Hx by (apply Hext; rewrite elem_of_cons; auto).
  destruct (decide (P x)), (decide (Q x)); tauto || reflexivity.
Qed.

Lemma StronglySorted_filter {A} (R : A -> A -> Prop) (P : A -> Prop)
    `{!forall x, Decision (P x)} (l : list A) :
  StronglySorted R l -> StronglySorted R (filter P l).
Proof.
  induction 1 as [| x l Hl IH Hx]; [constructor |].
  rewrite filter_cons. destruct (decide (P x)); [| exact IH].
  constructor; [exact IH |].
  apply Forall_forall. intros y Hy. apply list_elem_of_filter in Hy as [_ Hy].
  rewrite Forall_forall in Hx. auto.
Qed.

(** Each creator's list is the ids of the contents they created. *)
Lemma index_call (E : Env) (call : LedgerCall) (s s' : ContentPayment.State)
    (b : gmap N Z) :
  ledgerOk s ->
  (forall c, ContentPayment.contentsBy s c = createdBy s c) ->
  ledgerRun E call s b = Some s' ->
  forall c, ContentPayment.contentsBy s' c = createdBy s' c.
Proof.
  intros (Hone & _ & Hdom & _) Hidx Hrun c. apply ledgerRun_inv in Hrun.
  destruct call as [msg cr t h p | msg v buyer i | msg i p | msg i].
  - destruct Hrun as (_ & _ & ->). unfold createdBy.
    replace (ContentPayment.nextContentId (afterCreate msg cr t h p s) - 1)
      with ((ContentPayment.nextContentId s - 1) + 1) by (simpl; lia).
    rewrite seqZ_app by lia. rewrite filter_app.
    replace (1 + (ContentPayment.nextContentId s - 1))
      with (ContentPayment.nextContentId s) by lia.
    assert (filter (fun id => ContentPayment.creator
                                (ContentPayment.contentOf (afterCreate msg cr t h p s) id)
                              = c)
              (seqZ 1 (ContentPayment.nextContentId s - 1))
            = createdBy s c) as ->.
    { apply filter_ext_elem. intros id Hid. apply elem_of_seqZ in Hid.
      unfold afterCreate. rewrite contentOf_insert.
      destruct (decide (ContentPayment.nextContentId s = id)); [lia | reflexivity]. }
    assert (ContentPayment.creator
              (ContentPayment.contentOf (afterCreate msg cr t h p s)
                 (ContentPayment.nextContentId s)) = cr) as Hnew.
    { unfold afterCreate. rewrite contentOf_insert.
      destruct (decide (ContentPayment.nextContentId s = ContentPayment.nextContentId s));
        [reflexivity | congruence]. }
    rewrite <- Hidx.
    rewrite seqZ_cons, seqZ_nil by lia. rewrite filter_cons, filter_nil.
    rewrite Hnew. unfold afterCreate, ContentPayment.contentsBy at 1. simpl.
    destruct (decide (cr = c)) as [-> | Hne].
    + rewrite lookup_insert_eq. reflexivity.
    + rewrite lookup_insert_ne by assumption. rewrite app_nil_r. reflexivity.
  - destruct Hrun as (_ & ->). apply Hidx.
  - destruct Hrun as (_ & _ & _ & ->).
    transitivity (createdBy s c); [apply Hidx |].
    unfold createdBy. simpl. apply filter_ext_elem. intros id _.
    unfold afterReprice. rewrite contentOf_insert.
    destruct (decide (i = id)) as [-> | Hne]; reflexivity.
  - destruct Hrun as (_ & _ & ->).
    transitivity (createdBy s c); [apply Hidx |].
    unfold createdBy. simpl. apply filter_ext_elem. intros id _.
    unfold afterDeactivate, ContentPayment.set_content. rewrite contentOf_insert.
    destruct (decide (i = id)) as [-> | Hne]; reflexivity.
Qed.

Lemma index_run (E : Env) (ops : list Op) (w : World) :
  ledgerOk (GlamoraHub.payment w) ->
  (forall c, ContentPayment.contentsBy (GlamoraHub.payment w) c
             = createdBy (GlamoraHub.payment w) c) ->
  forall c, ContentPayment.contentsBy (GlamoraHub.payment (run E ops w)) c
            = createdBy (GlamoraHub.payment (run E ops w)) c.
Proof.
  revert w. induction ops as [| op rest IH]; intros w Hok Hidx; simpl; [exact Hidx |].
  apply IH; [apply ledgerOk_step, Hok |].
  destruct (step_ledger E w op) as [-> | (call & b & _ & Hrun)]; [exact Hidx |].
  eapply index_call; eassumption.
Qed.

(** X20. In every state reached from deployment, [getCreatorContent] of an
    address is the list, in increasing order, of the ids from 1 up to the
    counter whose content has that address as creator: every content
    appears in its creator's list exactly once, in creation order, and in
    no other list. *)
Theorem getCreatorContent_lists_the_creations (E : Env) (deployer : Msg)
    (b : gmap N Z) (ops : list Op) (c : N) :
  let s := GlamoraHub.payment (run E ops (GlamoraHub.constructor E deployer b)) in
  ContentPayment.getCreatorContent s c
  = filter (fun id => ContentPayment.creator (ContentPayment.contentOf s id) = c)
           (seqZ 1 (ContentPayment.nextContentId s - 1))
  /\ StronglySorted Z.lt (ContentPayment.getCreatorContent s c)
  /\ NoDup (ContentPayment.getCreatorContent s c).
Proof.
  intros s.
  assert (ContentPayment.getCreatorContent s c = createdBy s c) as Heq.
  { apply index_run; [apply ledgerOk_reached with (ops := []) |].
    intros c'. reflexivity. }
  split; [exact Heq |]. rewrite Heq. unfold createdBy.
  destruct (ledgerOk_reached E deployer b ops) as (Hone & _).
  fold s in Hone.
  replace (ContentPayment.nextContentId s - 1)
    with (Z.of_nat (Z.to_nat (ContentPayment.nextContentId s - 1))) by lia.
  split.
  - apply StronglySorted_filter, seqZ_increasing.
  - apply NoDup_filter, NoDup_seqZ.
Qed.

(** ** The event log as a journal *)

Lemma journal_call (E : Env) (call : LedgerCall) (s s' : ContentPayment.State)
    (b : gmap N Z) :
  journalOk s -> ledgerRun E call s b = Some s' -> journalOk s'.
Proof.
  intros (Hrev & Hnodup & Hacc) Hrun. apply ledgerRun_inv in Hrun.
  destruct call as [msg cr t h p | msg v buyer i | msg i p | msg i].
  - destruct Hrun as (_ & _ & ->). split; [| split]; simpl; assumption.
  - destruct Hrun as (Hv & ->).
    apply (firstViolation_None v buyer i {| store := s; ether := b |}) in Hv
      as (_ & _ & Hnone & _).
    simpl in Hnone.
    assert ((buyer, i) ∉ loggedGrants (ContentPayment.events s)) as Hfresh
      by (rewrite <- Hacc; congruence).
    split; [| split]; simpl.
    + rewrite Hrev. unfold sumZ. simpl. lia.
    + apply NoDup_cons. split; assumption.
    + intros u j. rewrite elem_of_cons, <- Hacc.
      unfold ContentPayment.accessOf at 1. simpl.
      destruct (decide ((buyer, i) = (u, j))) as [Heq | Hne].
      * rewrite Heq, lookup_insert_eq. simpl. split; auto.
      * rewrite lookup_insert_ne by assumption. fold (ContentPayment.accessOf s u j).
        split; [auto |]. intros [Heq | Hold]; [congruence | exact Hold].
  - destruct Hrun as (_ & _ & _ & ->). split; [| split]; simpl; assumption.
  - destruct Hrun as (_ & _ & ->). split; [| split]; simpl; assumption.
Qed.

Lemma journal_reached (E : Env) (deployer : Msg) (b : gmap N Z) (ops : list Op) :
  journalOk (GlamoraHub.payment (run E ops (GlamoraHub.constructor E deployer b))).
Proof.
  assert (forall w, journalOk (GlamoraHub.payment w) ->
                    journalOk (GlamoraHub.payment (run E ops w))) as Hrun.
  { induction ops as [| op rest IH]; intros w Hok; simpl; [assumption |].
    apply IH. destruct (step_ledger E w op) as [-> | (call & b' & _ & Hcall)];
      [assumption | eapply journal_call; eassumption]. }
  apply Hrun. split; [| split]; simpl.
  - reflexivity.
  - constructor.
  - intros u i. unfold ContentPayment.accessOf. simpl. rewrite lookup_empty. simpl.
    split; [discriminate | intros H; inversion H].
Qed.

(** X21. In every state reached from deployment, [totalRevenue] is the sum
    of the prices carried by the [ContentPurchased] events the ledger has
    emitted: the counter and the log never disagree. *)
Theorem totalRevenue_matches_the_log (E : Env) (deployer : Msg) (b : gmap N Z)
    (ops : list Op) :
  let s := GlamoraHub.payment (run E ops (GlamoraHub.constructor E deployer b)) in
  ContentPayment.totalRevenue s = sumZ (loggedPrices (ContentPayment.events s)).
Proof. intros s. apply (journal_reached E deployer b ops). Qed.

(** X22. In every state reached from deployment, a user holds a grant for
    a content exactly when the ledger has emitted a [ContentPurchased]
    event for that buyer and content, and no (buyer, content) pair is
    logged twice: access is granted by a purchase and by nothing else, and
    each grant was paid for once. *)
Theorem grants_are_the_logged_purchases (E : Env) (deployer : Msg) (b : gmap N Z)
    (ops : list Op) :
  let s := GlamoraHub.payment (run E ops (GlamoraHub.constructor E deployer b)) in
  (forall u id, ContentPayment.accessOf s u id = true
                <-> (u, id) ∈ loggedGrants (ContentPayment.events s))
  /\ NoDup (loggedGrants (ContentPayment.events s)).
Proof.
  intros s. destruct (journal_reached E deployer b ops) as (_ & Hnodup & Hacc).
  split; assumption.
Qed.

(** ** The hub *)

(** X23. The hub's [createContent] checks the caller's registration before
    anything else: an unregistered caller gets "Must be registered creator"
    whatever the content; a registered caller with an empty title, an empty
    content reference or a price of zero gets an [InvalidInput]; and a
    registered caller with valid content receives the next id, the content
    being attributed to the caller and dated with the block, while the
    registry, the hub's own storage and all balances stay as they were. *)
Theorem hub_createContent_attributes_to_caller (E : Env) (w : World) (msg : Msg)
    (t h : string) (p : Z) :
  let outcome := step E w (HubCreateContent msg t h p) in
  let next := ContentPayment.nextContentId (GlamoraHub.payment w) in
  (GlamoraHub.isCreator w (sender msg) = false ->
   outcome = (Err (Revert "Must be registered creator"), w)
   /\ kindOf (Revert "Must be registered creator") = Some NotRegistered)
  /\ (GlamoraHub.isCreator w (sender msg) = true ->
      validContent t h p = false ->
      exists e, outcome = (Err e, w) /\ kindOf e = Some InvalidInput)
  /\ (GlamoraHub.isCreator w (sender msg) = true ->
      validContent t h p = true ->
      next < MAX_UINT256 ->
      fst outcome = Ok (Some next)
      /\ ContentPayment.contentOf (GlamoraHub.payment (snd outcome)) next
         = {| ContentPayment.contentId := next;
              ContentPayment.creator := sender msg;
              ContentPayment.title := t;
              ContentPayment.contentHash := h;
              ContentPayment.price := p;
              ContentPayment.createdAt := timestamp msg;
              ContentPayment.isActive := true |}
      /\ GlamoraHub.profile (snd outcome) = GlamoraHub.profile w
      /\ GlamoraHub.hub (snd outcome) = GlamoraHub.hub w
      /\ GlamoraHub.balances (snd outcome) = GlamoraHub.balances w).
Proof.
  intros outcome next. subst outcome next.
  unfold step, exec, transact, GlamoraHub.createContent, GlamoraHub.atPayment,
    GlamoraHub.isCreator.
  unfold_monad. cbv beta. repeat apply conj.
  - intros Hc. rewrite Hc. simpl. split; reflexivity.
  - intros Hc Hv. rewrite Hc. simpl.
    destruct (createContent_invalid (GlamoraHub.asHub E msg) (sender msg) t h p
                (GlamoraHub.payment w) Hv) as [e [He Hk]].
    rewrite He. exists e. auto.
  - intros Hc Hv Hn. rewrite Hc. simpl.
    rewrite createContent_valid by assumption. simpl.
    repeat split. rewrite contentOf_insert.
    destruct (decide (ContentPayment.nextContentId (GlamoraHub.payment w)
                      = ContentPayment.nextContentId (GlamoraHub.payment w)));
      [reflexivity | congruence].
Qed.

Lemma hub_createContent_attributes_to_caller_witness :
  GlamoraHub.isCreator Demo.listed (sender (Demo.at_ Demo.bob)) = false
  /\ step Demo.E Demo.listed (HubCreateContent (Demo.at_ Demo.bob) "" "" 0)
     = (Err (Revert "Must be registered creator"), Demo.listed)
  /\ GlamoraHub.isCreator Demo.listed (sender (Demo.at_ Demo.alice)) = true
  /\ validContent "" "r" 5 = false
  /\ (exists e,
        step Demo.E Demo.listed (HubCreateContent (Demo.at_ Demo.alice) "" "r" 5)
        = (Err e, Demo.listed) /\ kindOf e = Some InvalidInput)
  /\ validContent "Second" "r" 5 = true
  /\ ContentPayment.nextContentId (GlamoraHub.payment Demo.listed) < MAX_UINT256
  /\ fst (step Demo.E Demo.listed (HubCreateContent (Demo.at_ Demo.alice) "Second" "r" 5))
     = Ok (Some 2).
Proof.
  pose proof (hub_createContent_attributes_to_caller Demo.E Demo.listed
                (Demo.at_ Demo.bob) "" "" 0) as (Hunreg & _ & _).
  pose proof (hub_createContent_attributes_to_caller Demo.E Demo.listed
                (Demo.at_ Demo.alice) "" "r" 5) as (_ & Hinvalid & _).
  pose proof (hub_createContent_attributes_to_caller Demo.E Demo.listed
                (Demo.at_ Demo.alice) "Second" "r" 5) as (_ & _ & Hvalid).
  split; [reflexivity |]. split; [apply Hunreg; reflexivity |].
  split; [reflexivity |]. split; [reflexivity |].
  split; [apply Hinvalid; reflexivity |].
  split; [reflexivity |]. split; [reflexivity |].
  apply Hvalid; reflexivity.
Defined.

(** X24. [registerAndCreateContent] with valid content succeeds in both its
    branches. For an unregistered caller with a valid profile it registers
    the caller and creates the content in one transaction: the caller is a
    creator afterwards with the supplied profile, the creator count is one
    higher, and the content returned is attributed to the caller. For a
    caller who is already registered the username and bio arguments are
    not looked at, valid or not: the registry is left exactly as it was and
    the content is created. Either way the hub logs one
    [CreatorRegisteredAndContentCreated] event. *)
Theorem registerAndCreateContent_registers_and_creates (E : Env) (w : World)
    (msg : Msg) (u b t h : string) (p : Z) :
  let outcome := step E w (HubRegisterAndCreateContent msg u b t h p) in
  let next := ContentPayment.nextContentId (GlamoraHub.payment w) in
  validContent t h p = true ->
  next < MAX_UINT256 ->
  (GlamoraHub.isCreator w (sender msg) = false ->
   validProfile u b = true ->
   CreatorProfile.totalCreators (GlamoraHub.profile w) < MAX_UINT256 ->
   fst outcome = Ok (Some next)
   /\ CreatorProfile.creatorOf (GlamoraHub.profile (snd outcome)) (sender msg)
      = {| CreatorProfile.username := u; CreatorProfile.bio := b;
           CreatorProfile.wallet := sender msg;
           CreatorProfile.createdAt := timestamp msg;
           CreatorProfile.isActive := true |}
   /\ CreatorProfile.totalCreators (GlamoraHub.profile (snd outcome))
      = CreatorProfile.totalCreators (GlamoraHub.profile w) + 1
   /\ ContentPayment.creator
        (ContentPayment.contentOf (GlamoraHub.payment (snd outcome)) next) = sender msg
   /\ GlamoraHub.events (GlamoraHub.hub (snd outcome))
      = GlamoraHub.CreatorRegisteredAndContentCreated (sender msg) next
        :: GlamoraHub.events (GlamoraHub.hub w))
  /\ (GlamoraHub.isCreator w (sender msg) = true ->
      fst outcome = Ok (Some next)
      /\ GlamoraHub.profile (snd outcome) = GlamoraHub.profile w
      /\ ContentPayment.creator
           (ContentPayment.contentOf (GlamoraHub.payment (snd outcome)) next)
         = sender msg
      /\ GlamoraHub.events (GlamoraHub.hub (snd outcome))
         = GlamoraHub.CreatorRegisteredAndContentCreated (sender msg) next
           :: GlamoraHub.events (GlamoraHub.hub w)).
Proof.
  intros outcome next Hv Hn. subst outcome next.
  unfold step, exec, transact, GlamoraHub.registerAndCreateContent,
    GlamoraHub.atPayment, GlamoraHub.atProfile, GlamoraHub.atHub, GlamoraHub.emit,
    GlamoraHub.isCreator.
  unfold_monad. cbv beta. split.
  - intros Hc Hu Hcount. rewrite Hc. simpl.
    rewrite registerCreator_fresh by assumption. simpl.
    rewrite createContent_valid by assumption. simpl.
    repeat split.
    + rewrite creatorOf_insert.
      destruct (decide (sender msg = sender msg)); [reflexivity | congruence].
    + rewrite contentOf_insert. destruct (decide (_ = _)); [reflexivity | congruence].
  - intros Hc. rewrite Hc. simpl.
    rewrite createContent_valid by assumption. simpl.
    repeat split.
    rewrite contentOf_insert. destruct (decide (_ = _)); [reflexivity | congruence].
Qed.

Lemma registerAndCreateContent_registers_and_creates_witness :
  validContent "My Tutorial" "QmHash123" 100 = true
  /\ ContentPayment.nextContentId (GlamoraHub.payment Demo.listed) < MAX_UINT256
  /\ GlamoraHub.isCreator Demo.listed (sender (Demo.at_ Demo.bob)) = false
  /\ validProfile "Bob" "Content creator" = true
  /\ CreatorProfile.totalCreators (GlamoraHub.profile Demo.listed) < MAX_UINT256
  /\ fst (step Demo.E Demo.listed
            (HubRegisterAndCreateContent (Demo.at_ Demo.bob) "Bob" "Content creator"
               "My Tutorial" "QmHash123" 100)) = Ok (Some 2)
  /\ GlamoraHub.isCreator Demo.listed (sender (Demo.at_ Demo.alice)) = true
  /\ validProfile "" "" = false
  /\ fst (step Demo.E Demo.listed
            (HubRegisterAndCreateContent (Demo.at_ Demo.alice) "" ""
               "My Tutorial" "QmHash123" 100)) = Ok (Some 2).
Proof.
  pose proof (registerAndCreateContent_registers_and_creates Demo.E Demo.listed
                (Demo.at_ Demo.bob) "Bob" "Content creator" "My Tutorial" "QmHash123"
                100 eq_refl eq_refl) as [Hnew _].
  pose proof (registerAndCreateContent_registers_and_creates Demo.E Demo.listed
                (Demo.at_ Demo.alice) "" "" "My Tutorial" "QmHash123"
                100 eq_refl eq_refl) as [_ Hold].
  split; [reflexivity |]. split; [reflexivity |]. split; [reflexivity |].
  split; [reflexivity |]. split; [reflexivity |].
  split; [apply Hnew; reflexivity |].
  split; [reflexivity |]. split; [reflexivity |].
  apply Hold; reflexivity.
Defined.

(** ** The platform fee *)

Lemma updatePlatformFee_ok_inv (msg : Msg) (fee : Z) (h h' : GlamoraHub.State)
    (u : unit) :
  GlamoraHub.updatePlatformFee msg fee h = Ok (u, h') ->
  sender msg = GlamoraHub.owner h /\ fee <= 1000
  /\ h' = {| GlamoraHub.creatorProfile := GlamoraHub.creatorProfile h;
             GlamoraHub.contentPayment := GlamoraHub.contentPayment h;
             GlamoraHub.owner := GlamoraHub.owner h;
             GlamoraHub.platformFee := fee;
             GlamoraHub.events := GlamoraHub.events h |}.
Proof.
  unfold GlamoraHub.updatePlatformFee. unfold_monad. cbv beta.
  destruct (N.eqb_spec (sender msg) (GlamoraHub.owner h)); [| discriminate]. simpl.
  destruct (Z.leb_spec fee 1000); [| discriminate]. simpl.
  intros [= <-]. auto.
Qed.

(** X25. [updatePlatformFee] checks the caller before the fee: anyone but
    the owner is refused with "Only owner can update fee" whatever the fee;
    the owner is refused with "Fee cannot exceed 10%" for a fee above 1000
    basis points; and the owner's call with a fee of at most 1000 stores the
    fee and changes nothing else of the hub. *)
Theorem updatePlatformFee_checks (msg : Msg) (fee : Z) (h : GlamoraHub.State) :
  (sender msg <> GlamoraHub.owner h ->
   GlamoraHub.updatePlatformFee msg fee h = Err (Revert "Only owner can update fee"))
  /\ (sender msg = GlamoraHub.owner h -> 1000 < fee ->
      GlamoraHub.updatePlatformFee msg fee h = Err (Revert "Fee cannot exceed 10%"))
  /\ (sender msg = GlamoraHub.owner h -> fee <= 1000 ->
      GlamoraHub.updatePlatformFee msg fee h
      = Ok (tt, {| GlamoraHub.creatorProfile := GlamoraHub.creatorProfile h;
                   GlamoraHub.contentPayment := GlamoraHub.contentPayment h;
                   GlamoraHub.owner := GlamoraHub.owner h;
                   GlamoraHub.platformFee := fee;
                   GlamoraHub.events := GlamoraHub.events h |})).
Proof.
  unfold GlamoraHub.updatePlatformFee. unfold_monad. cbv beta.
  repeat apply conj.
  - intros Hne. destruct (N.eqb_spec (sender msg) (GlamoraHub.owner h)); [congruence |].
    reflexivity.
  - intros -> Hfee. rewrite N.eqb_refl. simpl.
    destruct (Z.leb_spec fee 1000); [lia | reflexivity].
  - intros -> Hfee. rewrite N.eqb_refl. simpl.
    destruct (Z.leb_spec fee 1000); [reflexivity | lia].
Qed.

Lemma updatePlatformFee_checks_witness :
  sender (Demo.at_ Demo.alice) <> GlamoraHub.owner (GlamoraHub.hub Demo.fresh)
  /\ GlamoraHub.updatePlatformFee (Demo.at_ Demo.alice) 5000 (GlamoraHub.hub Demo.fresh)
     = Err (Revert "Only owner can update fee")
  /\ sender (Demo.at_ Demo.deployer) = GlamoraHub.owner (GlamoraHub.hub Demo.fresh)
  /\ 1000 < 1001
  /\ GlamoraHub.updatePlatformFee (Demo.at_ Demo.deployer) 1001 (GlamoraHub.hub Demo.fresh)
     = Err (Revert "Fee cannot exceed 10%")
  /\ 1000 <= 1000
  /\ fst (step Demo.E Demo.fresh (HubUpdatePlatformFee (Demo.at_ Demo.deployer) 1000))
     = Ok None.
Proof.
  pose proof (updatePlatformFee_checks (Demo.at_ Demo.alice) 5000
                (GlamoraHub.hub Demo.fresh)) as (Hstranger & _ & _).
  pose proof (updatePlatformFee_checks (Demo.at_ Demo.deployer) 1001
                (GlamoraHub.hub Demo.fresh)) as (_ & Hhigh & _).
  pose proof (updatePlatformFee_checks (Demo.at_ Demo.deployer) 1000
                (GlamoraHub.hub Demo.fresh)) as (_ & _ & Hset).
  split; [discriminate |]. split; [apply Hstranger; discriminate |].
  split; [reflexivity |]. split; [lia |].
  split; [apply Hhigh; [reflexivity | lia] |].
  split; [lia |].
  unfold step, exec, transact, GlamoraHub.atHub. unfold_monad.
  rewrite Hset; [reflexivity | reflexivity | lia].
Defined.

(** What one transaction can do to the hub's own storage: the owner and
    the two contract addresses stay, and the fee changes only to the
    argument of the owner's successful [updatePlatformFee], which is at most
    1000. *)
Lemma step_hub (E : Env) (w : World) (op : Op) :
  let h := GlamoraHub.hub w in
  let h' := GlamoraHub.hub (snd (step E w op)) in
  GlamoraHub.owner h' = GlamoraHub.owner h
  /\ GlamoraHub.creatorProfile h' = GlamoraHub.creatorProfile h
  /\ GlamoraHub.contentPayment h' = GlamoraHub.contentPayment h
  /\ (GlamoraHub.platformFee h' = GlamoraHub.platformFee h
      \/ exists msg, op = HubUpdatePlatformFee msg (GlamoraHub.platformFee h')
                     /\ sender msg = GlamoraHub.owner h
                     /\ GlamoraHub.platformFee h' <= 1000
                     /\ fst (step E w op) = Ok None).
Proof.
  destruct op; cbv zeta;
    unfold step, exec, transact, GlamoraHub.registerCreator, GlamoraHub.createContent,
      GlamoraHub.registerAndCreateContent, GlamoraHub.purchaseContent,
      GlamoraHub.atProfile, GlamoraHub.atPayment, GlamoraHub.atPaymentFunded,
      GlamoraHub.atBalances, GlamoraHub.atHub, GlamoraHub.emit;
    unfold_monad; cbv beta; repeat case_call; simpl; auto.
  destruct u. apply updatePlatformFee_ok_inv in Heqr as (Hs & Hf & ->). simpl.
  repeat split; auto. right. exists msg. auto.
Qed.

(** X26. In every state reached from deployment the hub's owner is still
    the deployer, [getContractAddresses] still returns the two contracts
    the constructor deployed, and the platform fee is at most 1000 basis
    points: no function changes the owner or the addresses, and the fee is
    only ever set by [updatePlatformFee]. *)
Theorem platform_settings_are_stable (E : Env) (deployer : Msg) (b : gmap N Z)
    (ops : list Op) :
  let w := run E ops (GlamoraHub.constructor E deployer b) in
  GlamoraHub.owner (GlamoraHub.hub w) = sender deployer
  /\ GlamoraHub.getContractAddresses w = (profileAddress E, paymentAddress E)
  /\ GlamoraHub.platformFee (GlamoraHub.hub w) <= 1000.
Proof.
  cbv zeta.
  assert (forall ops w,
            GlamoraHub.owner (GlamoraHub.hub w) = sender deployer ->
            GlamoraHub.getContractAddresses w = (profileAddress E, paymentAddress E) ->
            GlamoraHub.platformFee (GlamoraHub.hub w) <= 1000 ->
            GlamoraHub.owner (GlamoraHub.hub (run E ops w)) = sender deployer
            /\ GlamoraHub.getContractAddresses (run E ops w)
               = (profileAddress E, paymentAddress E)
            /\ GlamoraHub.platformFee (GlamoraHub.hub (run E ops w)) <= 1000) as Hrun.
  { clear ops. induction ops as [| op rest IH]; intros w Ho Ha Hf; [auto |].
    simpl. destruct (step_hub E w op) as (Ho' & Hp' & Hc' & Hf').
    apply IH.
    - congruence.
    - unfold GlamoraHub.getContractAddresses in *. congruence.
    - destruct Hf' as [-> | (_ & _ & _ & Hle & _)]; assumption. }
  apply Hrun; simpl; [reflexivity | reflexivity | lia].
Qed.

Lemma fee_kept_by_others (E : Env) (ops : list Op) (w : World) :
  (forall msg f, In (HubUpdatePlatformFee msg f) ops ->
                 sender msg <> GlamoraHub.owner (GlamoraHub.hub w)) ->
  GlamoraHub.platformFee (GlamoraHub.hub (run E ops w))
  = GlamoraHub.platformFee (GlamoraHub.hub w).
Proof.
  revert w. induction ops as [| op rest IH]; intros w Hothers; [reflexivity |].
  simpl. destruct (step_hub E w op) as (Ho & _ & _ & Hf).
  rewrite IH.
  - destruct Hf as [Hf | (msg & Hop & Hs & _)]; [exact Hf |].
    exfalso. eapply Hothers; [left; exact Hop | exact Hs].
  - intros msg f Hin. rewrite Ho. apply (Hothers msg f). right. exact Hin.
Qed.

(** X27. Nobody but the deployer can change the platform fee: after any
    history from deployment that contains no [updatePlatformFee] call sent
    by the deployer, the fee is still the 0 the constructor set, whatever
    else was called and by whom. *)
Theorem only_the_deployer_sets_the_fee (E : Env) (deployer : Msg) (b : gmap N Z)
    (ops : list Op) :
  (forall msg f, In (HubUpdatePlatformFee msg f) ops -> sender msg <> sender deployer) ->
  GlamoraHub.platformFee
    (GlamoraHub.hub (run E ops (GlamoraHub.constructor E deployer b))) = 0.
Proof.
  intros Hothers. rewrite fee_kept_by_others; [reflexivity |]. exact Hothers.
Qed.

Lemma only_the_deployer_sets_the_fee_witness :
  (forall msg f,
     In (HubUpdatePlatformFee msg f)
        [HubUpdatePlatformFee (Demo.at_ Demo.alice) 500;
         HubRegisterCreator (Demo.at_ Demo.alice) "Alice" "Fashion creator";
         HubUpdatePlatformFee (Demo.at_ Demo.bob) 0] ->
     sender msg <> sender (Demo.at_ Demo.deployer))
  /\ GlamoraHub.platformFee
       (GlamoraHub.hub
          (run Demo.E
             [HubUpdatePlatformFee (Demo.at_ Demo.alice) 500;
              HubRegisterCreator (Demo.at_ Demo.alice) "Alice" "Fashion creator";
              HubUpdatePlatformFee (Demo.at_ Demo.bob) 0]
             (GlamoraHub.constructor Demo.E (Demo.at_ Demo.deployer) Demo.purse))) = 0.
Proof.
  assert (forall msg f,
            In (HubUpdatePlatformFee msg f)
               [HubUpdatePlatformFee (Demo.at_ Demo.alice) 500;
                HubRegisterCreator (Demo.at_ Demo.alice) "Alice" "Fashion creator";
                HubUpdatePlatformFee (Demo.at_ Demo.bob) 0] ->
            sender msg <> sender (Demo.at_ Demo.deployer)) as Hothers.
  { intros msg f [[= <- <-] | [[=] | [[= <- <-] | []]]]; discriminate. }
  split; [exact Hothers |].
  apply (only_the_deployer_sets_the_fee Demo.E (Demo.at_ Demo.deployer) Demo.purse _
           Hothers).
Defined.

(** X28. The platform fee is never charged. A purchase, through the hub or
    directly, neither reads nor writes the hub's storage: with any other
    owner, fee and event log in place of the hub's, the purchase has the
    same result and leaves the same registry, ledger and balances. *)
Theorem purchases_ignore_the_platform_fee (E : Env) (w : World) (op : Op)
    (h : GlamoraHub.State) :
  purchasedId op <> None ->
  step E (GlamoraHub.set_hub h w) op
  = (fst (step E w op), GlamoraHub.set_hub h (snd (step E w op))).
Proof.
  destruct op; simpl; try congruence; intros _;
    unfold step, exec, transact, GlamoraHub.purchaseContent,
      GlamoraHub.atPaymentFunded, GlamoraHub.atBalances, GlamoraHub.funds,
      GlamoraHub.commit, GlamoraHub.set_balances, GlamoraHub.set_payment,
      GlamoraHub.set_hub;
    unfold_monad; cbv beta; simpl; repeat (case_call; simpl); reflexivity.
Qed.

Lemma purchases_ignore_the_platform_fee_witness :
  purchasedId (HubPurchaseContent (Demo.at_ Demo.bob) 100 1) <> None
  /\ step Demo.E
       (GlamoraHub.set_hub
          {| GlamoraHub.creatorProfile := Demo.profileAddr;
             GlamoraHub.contentPayment := Demo.paymentAddr;
             GlamoraHub.owner := Demo.deployer;
             GlamoraHub.platformFee := 1000;
             GlamoraHub.events := [] |} Demo.listed)
       (HubPurchaseContent (Demo.at_ Demo.bob) 100 1)
     = (fst (step Demo.E Demo.listed (HubPurchaseContent (Demo.at_ Demo.bob) 100 1)),
        GlamoraHub.set_hub
          {| GlamoraHub.creatorProfile := Demo.profileAddr;
             GlamoraHub.contentPayment := Demo.paymentAddr;
             GlamoraHub.owner := Demo.deployer;
             GlamoraHub.platformFee := 1000;
             GlamoraHub.events := [] |}
          (snd (step Demo.E Demo.listed (HubPurchaseContent (Demo.at_ Demo.bob) 100 1)))).
Proof.
  split; [discriminate |].
  apply (purchases_ignore_the_platform_fee Demo.E Demo.listed
           (HubPurchaseContent (Demo.at_ Demo.bob) 100 1)).
  discriminate.
Defined.

(** ** Ether held by the contracts *)

Lemma isContract_cannot_receive (E : Env) (a x : N) :
  isContract E a = true -> canReceive E x = true -> (a =? x)%N = false.
Proof.
  intros Ha Hx. apply canReceive_not_contract in Hx as (Hh & Hp & Hl).
  apply N.eqb_neq. intros ->. unfold isContract in Ha.
  apply orb_prop in Ha as [Ha | Ha]; [apply orb_prop in Ha as [Ha | Ha] |];
    apply N.eqb_eq in Ha; congruence.
Qed.

(** A successful purchase leaves in a contract's balance what was there,
    less the payment when the contract itself sent it: the ledger passes on
    all that arrives. *)
Lemma purchase_contract_balance (E : Env) (w w' : World) (msg : Msg) (v : Z)
    (buyer : N) (id : Z) (r : option Z) (a : N) :
  step E w (PaymentPurchaseContent msg v buyer id) = (Ok r, w') ->
  isContract E a = true ->
  balanceOf (GlamoraHub.balances w') a
  = balanceOf (GlamoraHub.balances w) a - (if (a =? sender msg)%N then v else 0).
Proof.
  intros Hstep Ha.
  apply step_purchase_ok_inv in Hstep as [Hrun ->].
  apply purchaseContent_ok_inv in Hrun as (_ & Hv & _ & Hc & _ & Hb).
  apply firstViolation_None in Hv as (_ & Hle & _ & _).
  simpl in Hc, Hb, Hle.
  unfold GlamoraHub.commit, purchased. simpl.
  pose proof (isContract_cannot_receive E a _ Ha Hc) as Hac.
  destruct (Z.ltb_spec
              (ContentPayment.price (ContentPayment.contentOf (GlamoraHub.payment w) id))
              v) as [Hlt | Hge].
  - pose proof (isContract_cannot_receive E a _ Ha (Hb Hlt)) as Hab.
    rewrite !balanceOf_move, Hac, Hab.
    destruct (a =? paymentAddress E)%N, (a =? sender msg)%N; lia.
  - rewrite !balanceOf_move, Hac.
    destruct (a =? paymentAddress E)%N, (a =? sender msg)%N; lia.
Qed.

Lemma step_contract_balance (E : Env) (w : World) (op : Op) (a : N) :
  isContract E (origin op) = false ->
  isContract E a = true ->
  balanceOf (GlamoraHub.balances (snd (step E w op))) a
  = balanceOf (GlamoraHub.balances w) a.
Proof.
  intros Hext Ha.
  assert ((a =? origin op)%N = false) as Hne.
  { apply N.eqb_neq. intros ->. congruence. }
  destruct op; simpl in Hext, Hne.
  4: { pose proof (failed_step_keeps_world E w
                     (PaymentPurchaseContent msg value _buyer _contentId)) as Hk.
       destruct (step E w (PaymentPurchaseContent msg value _buyer _contentId))
         as [[r | e] w'] eqn:Hstep; simpl in *.
       - rewrite (purchase_contract_balance _ _ _ _ _ _ _ _ _ Hstep Ha), Hne. lia.
       - rewrite (Hk e eq_refl). reflexivity. }
  9: { rewrite hub_purchase_forwards.
       destruct (funded (GlamoraHub.balances w) (sender msg) value); [| reflexivity].
       destruct (step E _ (PaymentPurchaseContent (GlamoraHub.asHub E msg) value
                             (sender msg) contentId)) as [[r | e] w'] eqn:Hstep;
         simpl; [| reflexivity].
       rewrite (purchase_contract_balance _ _ _ _ _ _ _ _ _ Hstep Ha). simpl.
       rewrite balanceOf_move, Hne.
       destruct (a =? hubAddress E)%N; lia. }
  10: { unfold step, exec, transact, GlamoraHub.atBalances, transfer, pay.
        unfold_monad. cbv beta.
        destruct (canReceive E dst) eqn:Hd; [| reflexivity].
        destruct (funded (GlamoraHub.balances w) src v); [| reflexivity].
        simpl. rewrite balanceOf_move, Hne.
        rewrite (isContract_cannot_receive E a dst Ha Hd). lia. }
  all: unfold step, exec, transact, GlamoraHub.registerCreator,
         GlamoraHub.createContent, GlamoraHub.registerAndCreateContent,
         GlamoraHub.atProfile, GlamoraHub.atPayment, GlamoraHub.atHub;
       unfold_monad; cbv beta; repeat (case_call; simpl); reflexivity.
Qed.

(** X29. The contracts keep no ether. Whatever transactions external
    accounts submit, succeeding or not, the balances of the hub, the
    registry and the ledger stay what they were: a payment that reaches
    the hub is forwarded to the ledger in full, and the ledger passes all of
    it on to the creator and, for the excess, back to the buyer. *)
Theorem contracts_keep_no_ether (E : Env) (ops : list Op) (w : World) (a : N) :
  Forall (fun op => isContract E (origin op) = false) ops ->
  isContract E a = true ->
  balanceOf (GlamoraHub.balances (run E ops w)) a = balanceOf (GlamoraHub.balances w) a.
Proof.
  intros Hext Ha. revert w.
  induction Hext as [| op rest Hop _ IH]; intros w; [reflexivity |].
  simpl. rewrite IH. apply step_contract_balance; assumption.
Qed.

Lemma contracts_keep_no_ether_witness :
  Forall (fun op => isContract Demo.E (origin op) = false)
    [HubRegisterCreator (Demo.at_ Demo.alice) "Alice" "Fashion creator";
     HubCreateContent (Demo.at_ Demo.alice) "My First Tutorial" "QmHash123" 100;
     HubPurchaseContent (Demo.at_ Demo.bob) 150 1;
     PaymentPurchaseContent (Demo.at_ Demo.carol) 100 Demo.carol 1]
  /\ isContract Demo.E Demo.hubAddr = true
  /\ balanceOf
       (GlamoraHub.balances
          (run Demo.E
             [HubRegisterCreator (Demo.at_ Demo.alice) "Alice" "Fashion creator";
              HubCreateContent (Demo.at_ Demo.alice) "My First Tutorial" "QmHash123" 100;
              HubPurchaseContent (Demo.at_ Demo.bob) 150 1;
              PaymentPurchaseContent (Demo.at_ Demo.carol) 100 Demo.carol 1]
             Demo.fresh)) Demo.hubAddr
     = balanceOf (GlamoraHub.balances Demo.fresh) Demo.hubAddr.
Proof.
  assert (Forall (fun op => isContract Demo.E (origin op) = false)
            [HubRegisterCreator (Demo.at_ Demo.alice) "Alice" "Fashion creator";
             HubCreateContent (Demo.at_ Demo.alice) "My First Tutorial" "QmHash123" 100;
             HubPurchaseContent (Demo.at_ Demo.bob) 150 1;
             PaymentPurchaseContent (Demo.at_ Demo.carol) 100 Demo.carol 1]) as Hext.
  { repeat constructor. }
  split; [exact Hext |]. split; [reflexivity |].
  apply (contracts_keep_no_ether Demo.E _ Demo.fresh Demo.hubAddr Hext). reflexivity.
Defined.

(** ** Buying through the hub and buying directly *)

Lemma funded_ext (b1 b2 : gmap N Z) (a : N) (v : Z) :
  balanceOf b1 a = balanceOf b2 a -> funded b1 a v = funded b2 a v.
Proof. unfold funded. intros ->. reflexivity. Qed.

Lemma move_ext (b1 b2 : gmap N Z) (src dst : N) (v : Z) :
  (forall a, balanceOf b1 a = balanceOf b2 a) ->
  forall a, balanceOf (move src dst v b1) a = balanceOf (move src dst v b2) a.
Proof. intros H a. rewrite !balanceOf_move, H. reflexivity. Qed.

(** [ContentPayment.purchaseContent] looks at its caller and at the
    balances only through the payment that arrives: two calls that are
    both funded, on the same storage, after whose deposit every account
    holds the same, end alike. *)
Lemma purchaseContent_ext (E : Env) (msg1 msg2 : Msg) (v : Z) (buyer : N) (id : Z)
    (s : ContentPayment.State) (b1 b2 : gmap N Z) :
  funded b1 (sender msg1) v = true ->
  funded b2 (sender msg2) v = true ->
  (forall a, balanceOf (move (sender msg1) (paymentAddress E) v b1) a
             = balanceOf (move (sender msg2) (paymentAddress E) v b2) a) ->
  match ContentPayment.purchaseContent E msg1 v buyer id {| store := s; ether := b1 |},
        ContentPayment.purchaseContent E msg2 v buyer id {| store := s; ether := b2 |}
  with
  | Ok (_, f1), Ok (_, f2) =>
      store f1 = store f2 /\ forall a, balanceOf (ether f1) a = balanceOf (ether f2) a
  | Err e1, Err e2 => e1 = e2
  | _, _ => False
  end.
Proof.
  intros Hf1 Hf2 Hext.
  unfold ContentPayment.purchaseContent, transfer, pay, ContentPayment.emit.
  unfold_monad. cbv beta. simpl. rewrite Hf1, Hf2. simpl.
  destruct (ContentPayment.isActive (ContentPayment.contentOf s id)); simpl;
    [| reflexivity].
  destruct (ContentPayment.price (ContentPayment.contentOf s id) <=? v); simpl;
    [| reflexivity].
  destruct (ContentPayment.accessOf s buyer id); simpl; [reflexivity |].
  destruct (buyer =? ContentPayment.creator (ContentPayment.contentOf s id))%N; simpl;
    [reflexivity |].
  destruct (canReceive E (ContentPayment.creator (ContentPayment.contentOf s id)));
    simpl; [| reflexivity].
  rewrite (funded_ext _ _ (paymentAddress E) _ (Hext (paymentAddress E))).
  destruct (funded (move (sender msg2) (paymentAddress E) v b2) (paymentAddress E) _);
    simpl; [| reflexivity].
  destruct (ContentPayment.totalRevenue s
            + ContentPayment.price (ContentPayment.contentOf s id) <=? MAX_UINT256);
    simpl; [| reflexivity].
  pose proof (move_ext _ _ (paymentAddress E)
                (ContentPayment.creator (ContentPayment.contentOf s id))
                (ContentPayment.price (ContentPayment.contentOf s id)) Hext) as Hpaid.
  destruct (ContentPayment.price (ContentPayment.contentOf s id) <? v); simpl.
  - destruct (canReceive E buyer); simpl; [| reflexivity].
    rewrite (funded_ext _ _ (paymentAddress E) _ (Hpaid (paymentAddress E))).
    destruct (funded _ (paymentAddress E) _); simpl; [| reflexivity].
    split; [reflexivity |]. apply move_ext. exact Hpaid.
  - split; [reflexivity |]. exact Hpaid.
Qed.

(** X30. Buying through the hub is buying directly. For a hub that holds
    no debt, [GlamoraHub.purchaseContent] gives the caller the result that
    the caller's own call of [ContentPayment.purchaseContent] with
    themself as buyer gives, the same failure included, and leaves the same
    ledger storage, registry and hub, and the same balance in every
    account. *)
Theorem hub_purchase_is_a_direct_purchase (E : Env) (w : World) (msg : Msg)
    (v id : Z) :
  let viaHub := step E w (HubPurchaseContent msg v id) in
  let direct := step E w (PaymentPurchaseContent msg v (sender msg) id) in
  0 <= balanceOf (GlamoraHub.balances w) (hubAddress E) ->
  fst viaHub = fst direct
  /\ GlamoraHub.payment (snd viaHub) = GlamoraHub.payment (snd direct)
  /\ GlamoraHub.profile (snd viaHub) = GlamoraHub.profile (snd direct)
  /\ GlamoraHub.hub (snd viaHub) = GlamoraHub.hub (snd direct)
  /\ forall a, balanceOf (GlamoraHub.balances (snd viaHub)) a
               = balanceOf (GlamoraHub.balances (snd direct)) a.
Proof.
  intros viaHub direct Hhub. subst viaHub direct.
  unfold step, exec, transact, GlamoraHub.purchaseContent,
    GlamoraHub.atPaymentFunded, GlamoraHub.atBalances, GlamoraHub.funds,
    GlamoraHub.commit, GlamoraHub.set_balances, GlamoraHub.set_payment.
  unfold_monad. cbv beta.
  destruct (funded (GlamoraHub.balances w) (sender msg) v) eqn:Hf.
  - assert (pay (sender msg) (hubAddress E) v (GlamoraHub.balances w)
            = Ok (tt, move (sender msg) (hubAddress E) v (GlamoraHub.balances w)))
      as Hpay by (unfold pay; rewrite Hf; reflexivity).
    rewrite !Hpay. simpl.
    assert (funded (move (sender msg) (hubAddress E) v (GlamoraHub.balances w))
              (sender (GlamoraHub.asHub E msg)) v = true) as Hf'.
    { apply funded_spec in Hf. apply funded_spec. simpl.
      rewrite balanceOf_move, N.eqb_refl.
      destruct (hubAddress E =? sender msg)%N eqn:He;
        [apply N.eqb_eq in He; rewrite He in * |]; lia. }
    assert (forall a,
              balanceOf (move (sender (GlamoraHub.asHub E msg)) (paymentAddress E) v
                           (move (sender msg) (hubAddress E) v (GlamoraHub.balances w))) a
              = balanceOf (move (sender msg) (paymentAddress E) v (GlamoraHub.balances w)) a)
      as Hext.
    { intros a. simpl. rewrite !balanceOf_move.
      destruct (a =? sender msg)%N, (a =? hubAddress E)%N, (a =? paymentAddress E)%N; lia. }
    pose proof (purchaseContent_ext E (GlamoraHub.asHub E msg) msg v (sender msg) id
                  (GlamoraHub.payment w) _ _ Hf' Hf Hext) as Hboth.
    destruct (ContentPayment.purchaseContent E (GlamoraHub.asHub E msg) v (sender msg) id _)
      as [[[] f1] | e1];
      destruct (ContentPayment.purchaseContent E msg v (sender msg) id _)
        as [[[] f2] | e2]; simpl; try contradiction.
    + destruct Hboth as [Hs Hb]. auto.
    + rewrite Hboth. auto.
  - assert (pay (sender msg) (hubAddress E) v (GlamoraHub.balances w)
            = Err TransferReverted) as Hpay by (unfold pay; rewrite Hf; reflexivity).
    rewrite !Hpay. rewrite purchaseContent_unfunded by exact Hf. simpl. auto.
Qed.

Lemma hub_purchase_is_a_direct_purchase_witness :
  0 <= balanceOf (GlamoraHub.balances Demo.listed) (hubAddress Demo.E)
  /\ fst (step Demo.E Demo.listed (HubPurchaseContent (Demo.at_ Demo.bob) 150 1))
     = fst (step Demo.E Demo.listed
              (PaymentPurchaseContent (Demo.at_ Demo.bob) 150
                 (sender (Demo.at_ Demo.bob)) 1))
  /\ fst (step Demo.E Demo.listed (HubPurchaseContent (Demo.at_ Demo.bob) 150 1))
     = Ok None.
Proof.
  split; [vm_compute; discriminate |].
  split; [| reflexivity].
  apply (hub_purchase_is_a_direct_purchase Demo.E Demo.listed (Demo.at_ Demo.bob) 150 1).
  vm_compute. discriminate.
Defined.
